(** * Watchtower: metric evaluation, drift detection, alerting and playbooks

    A shallow embedding of the monitoring core of the repository:

    - [watchtower/monitoring/alert_kpis.py]
      (modules [AlertKpis], [AlertKpis64], [KpiMonitor])
    - [watchtower/monitoring/drift.py]
      (modules [Drift], [Drift64], [DriftMonitor])
    - [watchtower/monitoring/coverage.py]
      (modules [Coverage], [Coverage64], [CoverageMonitor], [CoverageMonitor64])
    - [watchtower/api/routes/playbooks.py]
      (modules [Playbooks], [PlaybookRegistry])
    - [watchtower/api/routes/kpis.py] (module [Routes]) and
      [watchtower/api/routes/coverage.py] (module [CoverageMonitor64])

    Numbers are read in two ways.  The modules without 64 in their name read
    a float as the rational number it denotes and float arithmetic as exact
    arithmetic on [Q]; they carry the facts that rest on the order of the
    numbers and on the shape of the results only (classification against
    thresholds, ranges, the keys of a result, the empty window).  The modules
    [AlertKpis64], [Drift64], [Coverage64] and [CoverageMonitor64] evaluate
    the same expressions in IEEE 754 binary64, the arithmetic of Python's
    [float] and of NumPy's [float64], operation by operation as the source
    writes them; they carry the facts about the very value a function
    returns.

    Rows fetched from the database are the inputs of the embedded functions.
    Whether DuckDB accepts an INSERT depends on the table, which is created
    elsewhere; the answer of DuckDB is a parameter of the functions that
    store (module [Duck]). *)

From Stdlib Require Import QArith Qround Qabs ZArith List Lia Lqa Bool.
From Stdlib Require Import String Ascii DecimalString.
From Stdlib Require Import Floats.
From stdpp Require Import gmap strings.

Local Open Scope Z_scope.
Local Open Scope Q_scope.

(** ** Numbers, read exactly *)

Module Numeric.

(** [x < y] and [x > y] on numbers, as booleans. *)
Definition Qltb (x y : Q) : bool := negb (Qle_bool y x).
Definition Qgtb (x y : Q) : bool := Qltb y x.

(** Counters ([len], [.sum()], SQL [COUNT]) as numbers. *)
Definition of_nat (n : nat) : Q := inject_Z (Z.of_nat n).

(** [10 ** n] *)
Definition pow10 (n : nat) : Z := (10 ^ Z.of_nat n)%Z.

(** Rounding to the nearest integer, ties to the even neighbour. *)
Definition round_half_even (q : Q) : Z :=
  let f := Qfloor q in
  match Qcompare (q - inject_Z f) (1 # 2) with
  | Lt => f
  | Gt => (f + 1)%Z
  | Eq => if Z.even f then f else (f + 1)%Z
  end.

(** [round(x, n)] on the exact value: the nearest multiple of [10^-n], the
    even one at a tie.  The doubles of [Float64] differ from it where a
    product or a quotient of doubles falls on the other side of a tie. *)
Definition py_round (x : Q) (n : nat) : Q :=
  Qred (inject_Z (round_half_even (x * inject_Z (pow10 n))) / inject_Z (pow10 n)).

(** [max(0, x)]: Python returns the first argument unless the second is
    strictly greater. *)
Definition py_max0 (x : Q) : Q := if Qltb 0 x then x else 0.

(** [sum(l)] and [np.mean(l)] *)
Definition Qsum (l : list Q) : Q := fold_right Qplus 0 l.
Definition mean (l : list Q) : Q := Qsum l / of_nat (length l).

Lemma Qltb_lt (x y : Q) : Qltb x y = true <-> x < y.
Proof.
  unfold Qltb. rewrite negb_true_iff. split.
  - intros H. apply Qnot_le_lt. intros Hle.
    apply Qle_bool_iff in Hle. congruence.
  - intros H. destruct (Qle_bool y x) eqn:E; [|reflexivity].
    apply Qle_bool_iff in E. exfalso. exact (Qlt_not_le _ _ H E).
Qed.

Lemma Qltb_ge (x y : Q) : Qltb x y = false <-> y <= x.
Proof.
  unfold Qltb. rewrite negb_false_iff. apply Qle_bool_iff.
Qed.

Lemma Qltb_irrefl (x : Q) : Qltb x x = false.
Proof. apply Qltb_ge. apply Qle_refl. Qed.

Lemma pow10_pos (n : nat) : (0 < pow10 n)%Z.
Proof. unfold pow10. apply Z.pow_pos_nonneg; lia. Qed.

Lemma inject_pow10_pos (n : nat) : 0 < inject_Z (pow10 n).
Proof.
  replace 0 with (inject_Z 0) by reflexivity.
  rewrite <- Zlt_Qlt. apply pow10_pos.
Qed.

(** The rounded integer is within one half of the number. *)
Lemma round_half_even_close (q : Q) :
  Qabs (inject_Z (round_half_even q) - q) <= 1 # 2.
Proof.
  unfold round_half_even.
  pose proof (Qfloor_le q) as Hlo.
  pose proof (Qlt_floor q) as Hhi.
  rewrite inject_Z_plus in Hhi. change (inject_Z 1) with 1 in Hhi.
  assert (Hdown : q - inject_Z (Qfloor q) <= 1 # 2 ->
                  Qabs (inject_Z (Qfloor q) - q) <= 1 # 2).
  { intros H. apply Qabs_Qle_condition. split; lra. }
  assert (Hup : 1 # 2 <= q - inject_Z (Qfloor q) ->
                Qabs (inject_Z (Qfloor q + 1) - q) <= 1 # 2).
  { intros H. rewrite inject_Z_plus. change (inject_Z 1) with 1.
    apply Qabs_Qle_condition. split; lra. }
  destruct (Qcompare (q - inject_Z (Qfloor q)) (1 # 2)) eqn:E.
  - apply Qeq_alt in E.
    destruct (Z.even (Qfloor q)); [apply Hdown | apply Hup]; rewrite E; apply Qle_refl.
  - apply Qlt_alt in E. apply Hdown. apply Qlt_le_weak. exact E.
  - apply Qgt_alt in E. apply Hup. apply Qlt_le_weak. exact E.
Qed.

(** [round(x, n)] is within half a unit of the [n]-th decimal place of [x]. *)
Lemma py_round_close (x : Q) (n : nat) :
  Qabs (py_round x n - x) * inject_Z (pow10 n) <= 1 # 2.
Proof.
  pose proof (inject_pow10_pos n) as HP.
  unfold py_round. rewrite Qred_correct.
  set (P := inject_Z (pow10 n)) in *.
  pose proof (round_half_even_close (x * P)) as Hclose.
  set (r := inject_Z (round_half_even (x * P))) in *.
  assert (E : r / P - x == (r - x * P) * / P) by (field; lra).
  rewrite E, Qabs_Qmult.
  assert (Hinv : 0 <= / P) by (apply Qlt_le_weak, Qinv_lt_0_compat; exact HP).
  rewrite (Qabs_pos (/ P)) by exact Hinv.
  rewrite <- Qmult_assoc, (Qmult_comm (/ P)), Qmult_inv_r by lra.
  rewrite Qmult_1_r. exact Hclose.
Qed.

(** Rounding never goes below the integer part. *)
Lemma round_half_even_floor (q : Q) : (Qfloor q <= round_half_even q)%Z.
Proof.
  unfold round_half_even.
  destruct (Qcompare (q - inject_Z (Qfloor q)) (1 # 2));
    [destruct (Z.even (Qfloor q))| |]; lia.
Qed.

Lemma round_half_even_nonneg (q : Q) : 0 <= q -> (0 <= round_half_even q)%Z.
Proof.
  intros Hq. apply Z.le_trans with (m := Qfloor q).
  - change 0%Z with (Qfloor 0). apply Qfloor_resp_le. exact Hq.
  - apply round_half_even_floor.
Qed.

Lemma of_nat_nonneg (n : nat) : 0 <= of_nat n.
Proof.
  unfold of_nat. replace 0 with (inject_Z 0) by reflexivity.
  rewrite <- Zle_Qle. lia.
Qed.

Lemma of_nat_pos (n : nat) : (0 < n)%nat -> 0 < of_nat n.
Proof.
  intros H. unfold of_nat. replace 0 with (inject_Z 0) by reflexivity.
  rewrite <- Zlt_Qlt. lia.
Qed.

(** A number at most an integer does not round above it. *)
Lemma round_half_even_le_int (q : Q) (k : Z) :
  q <= inject_Z k -> (round_half_even q <= k)%Z.
Proof.
  intros Hq.
  assert (Hfloor : (Qfloor q <= k)%Z).
  { rewrite <- (Qfloor_Z k). apply Qfloor_resp_le. exact Hq. }
  pose proof (Qfloor_le q) as Hlo.
  unfold round_half_even.
  destruct (Qcompare (q - inject_Z (Qfloor q)) (1 # 2)) eqn:E.
  - apply Qeq_alt in E.
    destruct (Z.eq_dec (Qfloor q) k) as [Heq|Hne].
    + exfalso. rewrite Heq in E. lra.
    + destruct (Z.even (Qfloor q)); lia.
  - exact Hfloor.
  - apply Qgt_alt in E.
    destruct (Z.eq_dec (Qfloor q) k) as [Heq|Hne].
    + exfalso. rewrite Heq in E. lra.
    + lia.
Qed.

(** Rounding keeps a number of the unit interval in the unit interval. *)
Lemma py_round_unit_interval (x : Q) (n : nat) :
  0 <= x -> x <= 1 -> 0 <= py_round x n /\ py_round x n <= 1.
Proof.
  intros H0 H1. pose proof (inject_pow10_pos n) as HP.
  unfold py_round. rewrite Qred_correct.
  set (P := inject_Z (pow10 n)) in *.
  assert (Hlo : (0 <= round_half_even (x * P))%Z).
  { apply round_half_even_nonneg. apply Qmult_le_0_compat; lra. }
  assert (Hhi : (round_half_even (x * P) <= pow10 n)%Z).
  { apply round_half_even_le_int. fold P.
    rewrite <- (Qmult_1_l P) at 2. apply Qmult_le_compat_r; lra. }
  rewrite Zle_Qle in Hlo, Hhi. fold P in Hhi. change (inject_Z 0) with 0 in Hlo.
  split.
  - apply Qle_shift_div_l; [exact HP | lra].
  - apply Qle_shift_div_r; [exact HP | lra].
Qed.

End Numeric.

(** ** Results of Python calls and text formatting *)

Module Py.
Import Numeric.

(** A call either returns a value or raises an exception, named here by its
    class. *)
Inductive outcome (A : Type) : Type :=
| Returned (a : A)
| Raised (exc : string).
Arguments Returned {A} a.
Arguments Raised {A} exc.

Definition is_raised {A : Type} (o : outcome A) : bool :=
  match o with Returned _ => false | Raised _ => true end.

(** The values stored in result dictionaries. *)
Inductive value : Type :=
| VFloat (x : Q)
| VInt (z : Z)
| VBool (b : bool)
| VStr (s : string).

(** A [dict] with string keys whose iteration order (insertion order) matters:
    the list of its items. *)
Definition dict (V : Type) : Type := list (string * V).

Fixpoint dict_get {V : Type} (k : string) (d : dict V) : option V :=
  match d with
  | [] => None
  | (k', v) :: d' => if String.eqb k k' then Some v else dict_get k d'
  end.

Definition keys {V : Type} (d : dict V) : list string := map fst d.

(** One decimal digit as a character. *)
Definition digit_char (d : Z) : ascii := ascii_of_nat (48 + Z.to_nat d).

Definition is_digit (c : ascii) : bool :=
  let n := nat_of_ascii c in (48 <=? n)%nat && (n <=? 57)%nat.

(** The decimal numeral of a non-negative integer. *)
Definition decimal (z : Z) : string :=
  NilZero.string_of_uint (N.to_uint (Z.to_N z)).

(** The thousandths that [.3f] prints for [x]: the magnitude of [x] scaled by
    1000 and rounded. *)
Definition thousandths (x : Q) : Z := round_half_even (Qabs x * 1000).

(** [f"{x:.3f}"] *)
Definition format_3f (x : Q) : string :=
  let n := thousandths x in
  ((if Qltb x 0 then "-" else "") ++
   decimal (n / 1000) ++ "." ++
   String (digit_char ((n / 100) mod 10))
     (String (digit_char ((n / 10) mod 10))
        (String (digit_char (n mod 10)) EmptyString)))%string.

(** [str(z)] for an integer. *)
Definition str_int (z : Z) : string :=
  if (z <? 0)%Z then ("-" ++ decimal (- z))%string else decimal z.

(** Sequencing of calls: an exception raised by the first call propagates. *)
Definition bind {A B : Type} (o : outcome A) (k : A -> outcome B) : outcome B :=
  match o with
  | Returned a => k a
  | Raised exc => Raised exc
  end.

(** [x / y] on integers, which raises when [y] is 0. *)
Definition true_div (x y : Z) : outcome Q :=
  if (y =? 0)%Z then Raised "ZeroDivisionError"
  else Returned (inject_Z x / inject_Z y).

Lemma thousandths_nonneg (x : Q) : (0 <= thousandths x)%Z.
Proof.
  apply round_half_even_nonneg.
  apply Qmult_le_0_compat; [apply Qabs_nonneg | discriminate].
Qed.

Lemma digit_char_is_digit (d : Z) :
  (0 <= d < 10)%Z -> is_digit (digit_char d) = true.
Proof.
  intros Hd.
  assert (Hcases : In d [0; 1; 2; 3; 4; 5; 6; 7; 8; 9]%Z) by (cbn [In]; lia).
  cbn [In] in Hcases.
  repeat (destruct Hcases as [<-|Hcases]; [reflexivity|]).
  destruct Hcases.
Qed.

(** What [.3f] prints: an optional sign, the decimal numeral of the integer
    part, a point and exactly three digits; the digits printed are those of
    the number of thousandths nearest to the magnitude of [x]. *)
Lemma format_3f_shape (x : Q) :
  exists ip d1 d2 d3 : Z,
    format_3f x =
      ((if Qltb x 0 then "-" else "") ++ decimal ip ++ "." ++
       String (digit_char d1) (String (digit_char d2)
         (String (digit_char d3) EmptyString)))%string
    /\ is_digit (digit_char d1) && is_digit (digit_char d2)
       && is_digit (digit_char d3) = true
    /\ (0 <=? ip)%Z = true
    /\ (1000 * ip + 100 * d1 + 10 * d2 + d3)%Z = thousandths x
    /\ Qle_bool (Qabs (inject_Z (thousandths x) - Qabs x * 1000)) (1 # 2) = true.
Proof.
  pose proof (thousandths_nonneg x) as Hn.
  exists (thousandths x / 1000)%Z, ((thousandths x / 100) mod 10)%Z,
         ((thousandths x / 10) mod 10)%Z, (thousandths x mod 10)%Z.
  split; [reflexivity|]. split; [|split; [|split]].
  - rewrite !digit_char_is_digit; [reflexivity| |  |]; apply Z.mod_pos_bound; lia.
  - apply Z.leb_le. apply Z.div_pos; lia.
  - Z.div_mod_to_equations. lia.
  - apply Qle_bool_iff. apply round_half_even_close.
Qed.

End Py.

(** ** Double precision

    Rocq's primitive floats are the IEEE 754 binary64 numbers with their
    operations rounded to nearest, ties to even: the arithmetic of Python's
    [float] and of NumPy's [float64].  An expression of the source is
    written here with the same operations in the same order. *)

Module Float64.
Import Numeric.

#[local] Set Warnings "-inexact-float".
Local Open Scope float_scope.

(** The values stored in result dictionaries, the numbers being doubles. *)
Inductive dvalue : Type :=
| DFloat (x : float)
| DInt (z : Z)
| DBool (b : bool)
| DStr (s : string).

(** An integer as a double: [float(z)], and the conversion that precedes the
    true division of two integers.  It is exact below [2^53] in magnitude
    and rounded to nearest below [2^63]; the counters of a table stay below
    that. *)
Definition of_int (z : Z) : float :=
  if (z <? 0)%Z then - of_uint63 (Uint63.of_Z (- z)) else of_uint63 (Uint63.of_Z z).

Definition of_count (n : nat) : float := of_int (Z.of_nat n).

(** The rational number a finite double denotes. *)
Definition exact (x : float) : Q :=
  match Prim2SF x with
  | S754_finite s m e =>
    let magnitude :=
      match e with
      | Z0 => inject_Z (Zpos m)
      | Zpos p => inject_Z (Zpos m * 2 ^ Zpos p)
      | Zneg p => Qmake (Zpos m) (2 ^ p)
      end in
    if s then Qopp magnitude else magnitude
  | _ => 0%Q
  end.

(** [2^52]: from here on every double is an integer. *)
Definition two52 : float := 4503599627370496.

(** C's [rint] in the default rounding mode, which [numpy.rint] calls: the
    integer nearest to [x], the even one when [x] lies half-way between two,
    with the sign of [x]. *)
Definition rint (x : float) : float :=
  if abs x <? two52
  then let r := of_int (round_half_even (exact (abs x))) in
       if get_sign x then - r else r
  else x.

(** [round(x, n)] for a NumPy [float64] [x] and [0 < n]: NumPy multiplies by
    [10^n], rounds to an integer and divides by [10^n], each step in
    doubles. *)
Definition np_round (x : float) (n : nat) : float :=
  rint (x * of_int (pow10 n)) / of_int (pow10 n).

(** [round(x, n)] for a Python [float] [x]: the double nearest to [m / 10^n],
    the decimal with [n] places nearest to the number [x] denotes (the even
    one at a tie).  When [m] is below [2^53] that double is the quotient of
    [m] and [10^n] as doubles.  An infinity or a NaN is returned as it is,
    and so is a double from [2^52] on, which is an integer.  Numbers below
    [2^52] whose [m] is not below [2^53] lie outside what is modelled and
    are returned as they are too; the source rounds percentages and
    accuracies. *)
Definition py_round (x : float) (n : nat) : float :=
  let m := round_half_even (Qabs (exact x) * inject_Z (pow10 n)) in
  if (abs x <? two52) && (m <? 2 ^ 53)%Z
  then let r := of_int m / of_int (pow10 n) in
       if get_sign x then - r else r
  else x.

(** [max(0, x)]: Python returns the first argument unless the second is
    greater. *)
Definition py_max0 (x : float) : float := if 0 <? x then x else 0.

(** The sum of the numbers of a list, added from left to right: the builtin
    [sum] before Python 3.12. *)
Definition sum_in_order (l : list float) : float := fold_left PrimFloat.add l 0.

(** [np.mean] of fewer than 8 numbers: NumPy adds them from left to right and
    divides the sum by their number. *)
Definition mean_in_order (l : list float) : float :=
  sum_in_order l / of_count (length l).

(** The doubles behind the numbers quoted in comments below.  None of 17/800,
    1/160 and 23/160*100 is a double: the first product lands above the
    half-way point 212.5, the second on 62.5, the third below 14.375. *)
Lemma np_round_half_way :
  np_round (of_count 17 / of_count 800) 4 = 0.0213
  /\ np_round (of_count 1 / of_count 160) 4 = 0.0062
  /\ py_round (of_int 23 / of_int 160 * 100) 2 = 14.37
  /\ py_round 0.125 2 = 0.12
  /\ py_round 2.675 2 = 2.67.
Proof. repeat split; vm_compute; reflexivity. Qed.

Lemma ltb_leb (x y : float) : (x <? y) = true -> (x <=? y) = true.
Proof.
  rewrite ltb_spec, leb_spec. unfold SFltb, SFleb.
  destruct (SFcompare (Prim2SF x) (Prim2SF y)) as [[| |]|]; congruence.
Qed.

(** [max(0, x)] is never negative. *)
Lemma max0_nonneg (x : float) : (0 <=? py_max0 x) = true.
Proof.
  unfold py_max0. destruct (0 <? x) eqn:E.
  - apply ltb_leb. exact E.
  - reflexivity.
Qed.

End Float64.

(** ** [watchtower/monitoring/alert_kpis.py] *)

Module AlertKpis.
Import Numeric Py.

(** One entry of [KPIMonitor.alert_thresholds]:
    [{'min': .., 'max': .., 'critical': ..}]. *)
Record thresholds : Type := Thresholds {
  thr_min : Q;
  thr_max : Q;
  thr_critical : Q
}.

(** The table [KPIMonitor.__init__] installs. *)
Definition alert_thresholds : gmap string thresholds :=
  list_to_map
    [ ("accuracy"%string, Thresholds 0.85 1.0 0.80);
      ("precision"%string, Thresholds 0.80 1.0 0.75);
      ("recall"%string, Thresholds 0.75 1.0 0.70);
      ("f1_score"%string, Thresholds 0.80 1.0 0.75);
      ("auc_score"%string, Thresholds 0.85 1.0 0.80);
      ("false_positive_rate"%string, Thresholds 0.0 0.1 0.15);
      ("false_negative_rate"%string, Thresholds 0.0 0.2 0.25) ].

(** A row of the query of [calculate_kpis]:
    [(t.is_fraud, p.prediction, p.fraud_probability)]; both labels are
    BOOLEAN columns. *)
Record prediction_row : Type := PredictionRow {
  actual : bool;
  predicted : bool;
  probability : Q
}.

(** [(column == 1)] and [(column == 0)] on a boolean column. *)
Definition is1 (b : bool) : bool := Bool.eqb b true.
Definition is0 (b : bool) : bool := Bool.eqb b false.

(** [mask.sum()]: the number of rows the mask selects. *)
Definition count {A : Type} (mask : A -> bool) (rows : list A) : nat :=
  length (List.filter mask rows).

Definition correct_count (rows : list prediction_row) : nat :=
  count (fun r => Bool.eqb (actual r) (predicted r)) rows.
Definition tp_count (rows : list prediction_row) : nat :=
  count (fun r => is1 (actual r) && is1 (predicted r)) rows.
Definition fp_count (rows : list prediction_row) : nat :=
  count (fun r => is0 (actual r) && is1 (predicted r)) rows.
Definition tn_count (rows : list prediction_row) : nat :=
  count (fun r => is0 (actual r) && is0 (predicted r)) rows.
Definition fn_count (rows : list prediction_row) : nat :=
  count (fun r => is1 (actual r) && is0 (predicted r)) rows.

(** [n / d if d > 0 else 0] on counters. *)
Definition ratio (n d : nat) : Q :=
  if (0 <? d)%nat then of_nat n / of_nat d else 0.

(** [KPIMonitor.calculate_kpis], from the fetched rows on. *)
Definition calculate_kpis (result : list prediction_row) : outcome (dict Q) :=
  match result with
  | [] => Returned []
  | _ :: _ =>
    let total_samples := length result in
    let correct_predictions := correct_count result in
    let tp := tp_count result in
    let fp := fp_count result in
    let tn := tn_count result in
    let fn := fn_count result in
    let accuracy := ratio correct_predictions total_samples in
    let precision := ratio tp (tp + fp) in
    let recall := ratio tp (tp + fn) in
    let f1_score :=
      if Qltb 0 (precision + recall)
      then 2 * (precision * recall) / (precision + recall) else 0 in
    let false_positive_rate := ratio fp (fp + tn) in
    let false_negative_rate := ratio fn (fn + tp) in
    let auc_score := 0.85 in
    Returned
      [ ("accuracy"%string, py_round accuracy 4);
        ("precision"%string, py_round precision 4);
        ("recall"%string, py_round recall 4);
        ("f1_score"%string, py_round f1_score 4);
        ("auc_score"%string, py_round auc_score 4);
        ("false_positive_rate"%string, py_round false_positive_rate 4);
        ("false_negative_rate"%string, py_round false_negative_rate 4);
        ("total_samples"%string, of_nat total_samples) ]
  end.

(** An alert as [check_kpi_thresholds] builds it. *)
Record alert : Type := Alert {
  metric_name : string;
  current_value : Q;
  threshold_min : Q;
  threshold_max : Q;
  threshold_critical : Q;
  status : string;
  severity : string;
  message : string;
  timestamp : Z
}.

(** The [if]/[elif] chain that determines status and severity. *)
Definition classify (value : Q) (t : thresholds) : string * string :=
  if Qltb value (thr_critical t) then ("critical"%string, "high"%string)
  else if Qltb value (thr_min t) then ("warning"%string, "medium"%string)
  else if Qgtb value (thr_max t) then ("warning"%string, "medium"%string)
  else ("healthy"%string, "low"%string).

Definition alert_message (name st : string) (value : Q) (t : thresholds) : string :=
  (name ++ " is " ++ st ++ ": " ++ format_3f value ++
   " (threshold: " ++ format_3f (thr_min t) ++ "-" ++ format_3f (thr_max t) ++ ")")%string.

(** The body of the loop for one item of [kpis]: the alerts list after it. *)
Definition check_one (table : gmap string thresholds) (now : Z)
    (alerts : list alert) (item : string * Q) : list alert :=
  let '(name, value) := item in
  match table !! name with
  | None => alerts
  | Some t =>
    let '(st, sev) := classify value t in
    if negb (String.eqb st "healthy")
    then alerts ++
         [ Alert name value (thr_min t) (thr_max t) (thr_critical t)
                 st sev (alert_message name st value t) now ]
    else alerts
  end.

(** [KPIMonitor.check_kpi_thresholds]; [table] is [self.alert_thresholds] and
    [now] the clock reading stamped on the alerts. *)
Definition check_kpi_thresholds (table : gmap string thresholds) (now : Z)
    (kpis : dict Q) : list alert :=
  fold_left (check_one table now) kpis [].

(** *** The confusion matrix *)

(** Every row falls in exactly one cell of the confusion matrix, and the
    correct predictions are the true positives and the true negatives. *)
Lemma confusion_matrix_partition (rows : list prediction_row) :
  length rows = (tp_count rows + fp_count rows + tn_count rows + fn_count rows)%nat
  /\ correct_count rows = (tp_count rows + tn_count rows)%nat.
Proof.
  unfold tp_count, fp_count, tn_count, fn_count, correct_count, count.
  induction rows as [|[a p pr] rows [IHlen IHcorrect]]; [split; reflexivity|].
  cbn [List.filter actual predicted].
  destruct a, p; cbn [is1 is0 Bool.eqb andb length]; split; lia.
Qed.

Lemma ratio_nonneg (n d : nat) : 0 <= ratio n d.
Proof.
  unfold ratio. destruct (0 <? d)%nat eqn:E; [|apply Qle_refl].
  apply Nat.ltb_lt in E.
  apply Qle_shift_div_l; [apply of_nat_pos; exact E|].
  rewrite Qmult_0_l. apply of_nat_nonneg.
Qed.

(** *** Threshold classification *)

(** The thresholds of [accuracy], and of [false_positive_rate], whose critical
    bound lies above its [min] and [max]. *)
Definition accuracy_thresholds : thresholds := Thresholds 0.85 1.0 0.80.
Definition fpr_thresholds : thresholds := Thresholds 0.0 0.1 0.15.

(** C1 (as amended).  Classification is a total function of the value and the
    thresholds record: "critical"/"high" when the value is below [critical],
    otherwise "warning"/"medium" when it is below [min] or above [max],
    otherwise "healthy"/"low"; the value 0.75 under thresholds
    [{min: 0.85, max: 1.0, critical: 0.80}] is "critical"/"high"; and a value
    equal to [min] or to [max] is "healthy" whenever
    [critical <= min <= max]. *)
Theorem classify_total (value : Q) (t : thresholds) :
  classify value t =
    (if Qltb value (thr_critical t) then ("critical"%string, "high"%string)
     else if Qltb value (thr_min t) || Qgtb value (thr_max t)
          then ("warning"%string, "medium"%string)
          else ("healthy"%string, "low"%string))
  /\ classify 0.75 accuracy_thresholds = ("critical"%string, "high"%string)
  /\ (thr_critical t <= thr_min t -> thr_min t <= thr_max t ->
      classify (thr_min t) t = ("healthy"%string, "low"%string)
      /\ classify (thr_max t) t = ("healthy"%string, "low"%string)).
Proof.
  split; [|split].
  - unfold classify.
    destruct (Qltb value (thr_critical t)); [reflexivity|].
    destruct (Qltb value (thr_min t)); [reflexivity|].
    destruct (Qgtb value (thr_max t)); reflexivity.
  - reflexivity.
  - intros Hcm Hmm. unfold classify, Qgtb.
    assert (Hcx : thr_critical t <= thr_max t) by (eapply Qle_trans; eassumption).
    apply Qltb_ge in Hcm, Hmm, Hcx.
    rewrite Hcm, Hcx, Hmm, !Qltb_irrefl. split; reflexivity.
Qed.

Lemma classify_total_witness :
  classify 0.85 accuracy_thresholds = ("healthy"%string, "low"%string)
  /\ classify 1.0 accuracy_thresholds = ("healthy"%string, "low"%string).
Proof.
  destruct (classify_total 0.85 accuracy_thresholds) as (_ & _ & H).
  apply H; vm_compute; discriminate.
Defined.

(** C1, as stated, fails on the table the monitor installs: under the
    thresholds of [false_positive_rate] the values equal to [min] and to [max]
    are both "critical". *)
Lemma classify_boundary_not_healthy :
  alert_thresholds !! "false_positive_rate"%string = Some fpr_thresholds
  /\ classify (thr_min fpr_thresholds) fpr_thresholds = ("critical"%string, "high"%string)
  /\ classify (thr_max fpr_thresholds) fpr_thresholds = ("critical"%string, "high"%string).
Proof. repeat split; vm_compute; reflexivity. Qed.

(** *** KPI calculation *)

(** The window of the scenario: one true positive, one true negative, one
    false negative and one false positive. *)
Definition scenario_window : list prediction_row :=
  [ PredictionRow true true 0.95; PredictionRow false false 0.05;
    PredictionRow true false 0.85; PredictionRow false true 0.15 ].

(** A window of three rows, one of them predicted correctly. *)
Definition thirds_window : list prediction_row :=
  [ PredictionRow true true 0.9; PredictionRow true false 0.4;
    PredictionRow false true 0.6 ].

(** The metrics of a non-empty window, by name. *)
Lemma calculate_kpis_nonempty (w : list prediction_row) :
  w <> [] ->
  calculate_kpis w = Returned
    [ ("accuracy"%string, py_round (ratio (correct_count w) (length w)) 4);
      ("precision"%string, py_round (ratio (tp_count w) (tp_count w + fp_count w)) 4);
      ("recall"%string, py_round (ratio (tp_count w) (tp_count w + fn_count w)) 4);
      ("f1_score"%string,
       py_round
         (let precision := ratio (tp_count w) (tp_count w + fp_count w) in
          let recall := ratio (tp_count w) (tp_count w + fn_count w) in
          if Qltb 0 (precision + recall)
          then 2 * (precision * recall) / (precision + recall) else 0) 4);
      ("auc_score"%string, py_round 0.85 4);
      ("false_positive_rate"%string,
       py_round (ratio (fp_count w) (fp_count w + tn_count w)) 4);
      ("false_negative_rate"%string,
       py_round (ratio (fn_count w) (fn_count w + tp_count w)) 4);
      ("total_samples"%string, of_nat (length w)) ].
Proof. destruct w; [congruence | reflexivity]. Qed.

(** C6 (as amended).  On an empty window the evaluator returns the empty
    mapping as an ordinary result; it raises on no window, and the empty
    mapping is returned for the empty window only. *)
Theorem calculate_kpis_empty_window :
  calculate_kpis [] = Returned []
  /\ (forall w : list prediction_row, is_raised (calculate_kpis w) = false)
  /\ (forall w : list prediction_row, calculate_kpis w = Returned [] <-> w = []).
Proof.
  split; [reflexivity|]. split.
  - intros [|r w]; reflexivity.
  - intros [|r w]; split; intros H; try reflexivity; discriminate H.
Qed.

(** C6, as stated, fails: the evaluator returns on the empty window, and what
    it returns is the empty mapping, not an [InsufficientDataError]. *)
Lemma calculate_kpis_empty_returns :
  calculate_kpis [] = Returned []
  /\ is_raised (calculate_kpis []) = false.
Proof. split; reflexivity. Qed.

(** C10.  On every non-empty window the [auc_score] entry is the constant
    0.85, whatever the probabilities and labels of the rows. *)
Theorem auc_score_constant (w : list prediction_row) :
  w <> [] ->
  exists (d : dict Q) (v : Q),
    calculate_kpis w = Returned d
    /\ dict_get "auc_score" d = Some v
    /\ v = 17 # 20
    /\ v == 0.85.
Proof.
  intros Hw. eexists. exists (17 # 20).
  split; [apply calculate_kpis_nonempty; exact Hw|].
  repeat split.
Qed.

Lemma auc_score_constant_witness :
  exists (d : dict Q) (v : Q),
    calculate_kpis thirds_window = Returned d
    /\ dict_get "auc_score" d = Some v
    /\ v = 17 # 20
    /\ v == 0.85.
Proof.
  apply (auc_score_constant thirds_window). discriminate.
Defined.

(** *** Alert generation *)

(** The metrics that call for an alert: those the table knows and classifies
    as something other than "healthy". *)
Definition flagged (table : gmap string thresholds) (item : string * Q) : bool :=
  match table !! fst item with
  | Some t => negb (String.eqb (fst (classify (snd item) t)) "healthy")
  | None => false
  end.

Section Alerts.
Variable table : gmap string thresholds.
Variable now : Z.

(** What an alert says about its metric. *)
Definition well_formed_alert (a : alert) : Prop :=
  exists t : thresholds,
    table !! metric_name a = Some t
    /\ (status a, severity a) = classify (current_value a) t
    /\ String.eqb (status a) "healthy" = false
    /\ message a =
       (metric_name a ++ " is " ++ status a ++ ": " ++
        format_3f (current_value a) ++ " (threshold: " ++
        format_3f (thr_min t) ++ "-" ++ format_3f (thr_max t) ++ ")")%string.

Lemma check_one_app (acc : list alert) (item : string * Q) :
  check_one table now acc item = acc ++ check_one table now [] item.
Proof.
  unfold check_one. destruct item as [name value].
  destruct (table !! name) as [t|]; [|symmetry; apply app_nil_r].
  destruct (classify value t) as [st sev].
  destruct (negb (String.eqb st "healthy")); [reflexivity|].
  symmetry; apply app_nil_r.
Qed.

Lemma fold_check_one_app (kpis : dict Q) (acc : list alert) :
  fold_left (check_one table now) kpis acc =
  acc ++ fold_left (check_one table now) kpis [].
Proof.
  revert acc. induction kpis as [|item kpis IH]; intros acc; cbn [fold_left].
  - symmetry; apply app_nil_r.
  - rewrite IH, (IH (check_one table now [] item)), check_one_app.
    symmetry. apply app_assoc.
Qed.

(** The loop, one item at a time. *)
Lemma check_kpi_thresholds_cons (item : string * Q) (kpis : dict Q) :
  check_kpi_thresholds table now (item :: kpis) =
  check_one table now [] item ++ check_kpi_thresholds table now kpis.
Proof.
  unfold check_kpi_thresholds. cbn [fold_left]. apply fold_check_one_app.
Qed.

(** One item yields one alert when it is flagged and none otherwise. *)
Lemma check_one_flagged (item : string * Q) :
  map (fun a => (metric_name a, current_value a)) (check_one table now [] item) =
    (if flagged table item then [item] else [])
  /\ Forall well_formed_alert (check_one table now [] item).
Proof.
  unfold check_one, flagged. destruct item as [name value]. cbn [fst snd].
  destruct (table !! name) as [t|] eqn:Ht; [|split; [reflexivity | constructor]].
  destruct (classify value t) as [st sev] eqn:Hc. cbn [fst].
  destruct (String.eqb st "healthy") eqn:Hst; cbn [negb];
    [split; [reflexivity | constructor]|].
  split; [reflexivity|]. constructor; [|constructor].
  exists t. cbn. repeat split; [exact Ht | symmetry; exact Hc | exact Hst].
Qed.

Lemma keys_filter_NoDup (f : string * Q -> bool) (kpis : dict Q) :
  List.NoDup (keys kpis) -> List.NoDup (keys (List.filter f kpis)).
Proof.
  unfold keys. induction kpis as [|item kpis IH]; intros Hnd; [constructor|].
  cbn [map] in Hnd. apply NoDup_cons_iff in Hnd as [Hnotin Hnd].
  cbn [List.filter]. destruct (f item); [|apply IH; exact Hnd].
  cbn [map]. constructor; [|apply IH; exact Hnd].
  intros Hin. apply Hnotin.
  apply in_map_iff in Hin as (item' & Heq & Hin').
  apply filter_In in Hin' as [Hin' _].
  rewrite <- Heq. apply in_map. exact Hin'.
Qed.

(** C9.  The alerts are, in the order of the metrics, exactly the flagged
    metrics with their values: one alert for each metric that is classified
    other than "healthy" and none for a healthy one (so no metric gets two
    alerts when the metric names are distinct); each alert carries the status
    and severity its value classifies to and the message
    "<metric> is <status>: <value> (threshold: <min>-<max>)"; and each number
    in it is printed as a numeral, a point and exactly three digits. *)
Theorem check_kpi_thresholds_alerts (kpis : dict Q) :
  map (fun a => (metric_name a, current_value a)) (check_kpi_thresholds table now kpis) =
    List.filter (flagged table) kpis
  /\ Forall well_formed_alert (check_kpi_thresholds table now kpis)
  /\ (List.NoDup (keys kpis) ->
      List.NoDup (map metric_name (check_kpi_thresholds table now kpis)))
  /\ (forall x : Q, exists ip d1 d2 d3 : Z,
        format_3f x =
          ((if Qltb x 0 then "-" else "") ++ decimal ip ++ "." ++
           String (digit_char d1) (String (digit_char d2)
             (String (digit_char d3) EmptyString)))%string
        /\ is_digit (digit_char d1) && is_digit (digit_char d2)
           && is_digit (digit_char d3) = true
        /\ (1000 * ip + 100 * d1 + 10 * d2 + d3)%Z = thousandths x
        /\ Qle_bool (Qabs (inject_Z (thousandths x) - Qabs x * 1000)) (1 # 2) = true).
Proof.
  assert (Hmain :
    map (fun a => (metric_name a, current_value a)) (check_kpi_thresholds table now kpis) =
      List.filter (flagged table) kpis
    /\ Forall well_formed_alert (check_kpi_thresholds table now kpis)).
  { induction kpis as [|item kpis [IHmap IHwf]]; [split; [reflexivity | constructor]|].
    rewrite check_kpi_thresholds_cons.
    destruct (check_one_flagged item) as [Hmap Hwf].
    split.
    - rewrite map_app, Hmap, IHmap. cbn [List.filter].
      destruct (flagged table item); reflexivity.
    - apply Forall_app. split; assumption. }
  destruct Hmain as [Hmap Hwf].
  split; [exact Hmap|]. split; [exact Hwf|]. split.
  - intros Hnd.
    replace (map metric_name (check_kpi_thresholds table now kpis))
      with (keys (List.filter (flagged table) kpis)).
    + apply keys_filter_NoDup. exact Hnd.
    + unfold keys. rewrite <- Hmap, map_map. reflexivity.
  - intros x. destruct (format_3f_shape x) as (ip & d1 & d2 & d3 & H1 & H2 & _ & H3 & H4).
    exists ip, d1, d2, d3. repeat split; assumption.
Qed.

End Alerts.

(** A dictionary with a critical, a healthy, a warning and an unknown
    metric. *)
Definition sample_kpis : dict Q :=
  [ ("accuracy"%string, 0.75); ("precision"%string, 0.88);
    ("recall"%string, 0.72); ("latency"%string, 0.01) ].

Lemma check_kpi_thresholds_alerts_witness :
  List.NoDup (map metric_name (check_kpi_thresholds alert_thresholds 0 sample_kpis))
  /\ map message (check_kpi_thresholds alert_thresholds 0 sample_kpis) =
     [ "accuracy is critical: 0.750 (threshold: 0.850-1.000)"%string;
       "recall is warning: 0.720 (threshold: 0.750-1.000)"%string ].
Proof.
  split; [|vm_compute; reflexivity].
  apply (check_kpi_thresholds_alerts alert_thresholds 0 sample_kpis).
  repeat constructor; cbn; intuition discriminate.
Defined.

End AlertKpis.

(** ** [alert_kpis.py] in double precision *)

Module AlertKpis64.
Import Numeric Py Float64.
Import AlertKpis (prediction_row, PredictionRow, correct_count, tp_count,
                  fp_count, tn_count, fn_count, confusion_matrix_partition,
                  scenario_window, thirds_window).

#[local] Set Warnings "-inexact-float".
Local Open Scope float_scope.

(** [n / d if d > 0 else 0] on counters: the true division of two NumPy
    integers, which converts both to doubles and divides them.  The integer 0
    of the [else] branch is written as the double 0.0, the same number. *)
Definition ratio (n d : nat) : float :=
  if (0 <? d)%nat then of_count n / of_count d else 0.

(** [KPIMonitor.calculate_kpis], from the fetched rows on.  The six quotients
    are NumPy doubles, which [round] rounds as [np_round]; [auc_score] is a
    Python float, which [round] rounds as [py_round]. *)
Definition calculate_kpis (result : list prediction_row) : outcome (dict dvalue) :=
  match result with
  | [] => Returned []
  | _ :: _ =>
    let total_samples := length result in
    let correct_predictions := correct_count result in
    let tp := tp_count result in
    let fp := fp_count result in
    let tn := tn_count result in
    let fn := fn_count result in
    let accuracy := ratio correct_predictions total_samples in
    let precision := ratio tp (tp + fp) in
    let recall := ratio tp (tp + fn) in
    let f1_score :=
      if 0 <? precision + recall
      then 2 * (precision * recall) / (precision + recall) else 0 in
    let false_positive_rate := ratio fp (fp + tn) in
    let false_negative_rate := ratio fn (fn + tp) in
    let auc_score := 0.85 in
    Returned
      [ ("accuracy"%string, DFloat (np_round accuracy 4));
        ("precision"%string, DFloat (np_round precision 4));
        ("recall"%string, DFloat (np_round recall 4));
        ("f1_score"%string, DFloat (np_round f1_score 4));
        ("auc_score"%string, DFloat (py_round auc_score 4));
        ("false_positive_rate"%string, DFloat (np_round false_positive_rate 4));
        ("false_negative_rate"%string, DFloat (np_round false_negative_rate 4));
        ("total_samples"%string, DInt (Z.of_nat total_samples)) ]
  end.

(** A window of [n] rows of which the first [k] are predicted correctly. *)
Definition window_of (k n : nat) : list prediction_row :=
  repeat (PredictionRow true true 0.9%Q) k
  ++ repeat (PredictionRow true false 0.1%Q) (n - k).

Lemma ratio_guard (n d : nat) :
  ratio n d = if (d =? 0)%nat then 0 else of_count n / of_count d.
Proof. unfold ratio. destruct d; reflexivity. Qed.

(** C2 (as amended).  On a non-empty window with confusion-matrix counts TP,
    FP, TN, FN, the window has N = TP+FP+TN+FN rows and every metric returned
    is the stated quotient, computed in doubles, rounded to 4 decimal places
    by [round]: accuracy (TP+TN)/N, precision TP/(TP+FP), recall TP/(TP+FN),
    f1 2*(P*R)/(P+R) from the unrounded precision P and recall R when
    P+R > 0 and 0 otherwise, false positive rate FP/(FP+TN), false negative
    rate FN/(FN+TP), each quotient 0 when its denominator is 0; on the
    scenario window accuracy, precision, recall and f1 are 0.5. *)
Theorem calculate_kpis_rounded_quotients (w : list prediction_row) :
  w <> [] ->
  let TP := tp_count w in
  let FP := fp_count w in
  let TN := tn_count w in
  let FN := fn_count w in
  let N := (TP + FP + TN + FN)%nat in
  let quotient (n d : nat) := if (d =? 0)%nat then 0 else of_count n / of_count d in
  let P := quotient TP (TP + FP)%nat in
  let R := quotient TP (TP + FN)%nat in
  exists d : dict dvalue,
    calculate_kpis w = Returned d
    /\ length w = N
    /\ dict_get "accuracy" d = Some (DFloat (np_round (of_count (TP + TN) / of_count N) 4))
    /\ dict_get "precision" d = Some (DFloat (np_round P 4))
    /\ dict_get "recall" d = Some (DFloat (np_round R 4))
    /\ dict_get "f1_score" d =
       Some (DFloat (np_round (if 0 <? P + R then 2 * (P * R) / (P + R) else 0) 4))
    /\ dict_get "false_positive_rate" d =
       Some (DFloat (np_round (quotient FP (FP + TN)%nat) 4))
    /\ dict_get "false_negative_rate" d =
       Some (DFloat (np_round (quotient FN (FN + TP)%nat) 4))
    /\ calculate_kpis scenario_window = Returned
         [ ("accuracy"%string, DFloat 0.5); ("precision"%string, DFloat 0.5);
           ("recall"%string, DFloat 0.5); ("f1_score"%string, DFloat 0.5);
           ("auc_score"%string, DFloat 0.85);
           ("false_positive_rate"%string, DFloat 0.5);
           ("false_negative_rate"%string, DFloat 0.5);
           ("total_samples"%string, DInt 4) ].
Proof.
  intros Hw. cbv zeta.
  destruct (confusion_matrix_partition w) as [Hlen Hcorrect].
  destruct w as [|r w']; [congruence|].
  set (w := r :: w') in *.
  eexists. split; [reflexivity|].
  cbn [dict_get String.eqb Ascii.eqb Bool.eqb].
  rewrite <- !ratio_guard, <- Hcorrect, <- Hlen.
  repeat split.
Qed.

Lemma calculate_kpis_rounded_quotients_witness :
  exists d : dict dvalue,
    calculate_kpis scenario_window = Returned d
    /\ dict_get "accuracy" d = Some (DFloat 0.5)
    /\ dict_get "precision" d = Some (DFloat 0.5)
    /\ dict_get "recall" d = Some (DFloat 0.5)
    /\ dict_get "f1_score" d = Some (DFloat 0.5).
Proof.
  assert (Hne : scenario_window <> []) by discriminate.
  destruct (calculate_kpis_rounded_quotients scenario_window Hne)
    as (d & Hd & _ & Hacc & Hp & Hr & Hf & _).
  exists d. repeat split; [exact Hd | rewrite Hacc | rewrite Hp | rewrite Hr | rewrite Hf];
    vm_compute; reflexivity.
Defined.

(** C2, as stated, fails where a quotient has more than 4 decimal places: on
    a window of three rows with one correct prediction the accuracy returned
    is 0.3333, which is not the quotient 1/3. *)
Lemma calculate_kpis_not_the_quotient :
  (tp_count thirds_window, fp_count thirds_window,
   tn_count thirds_window, fn_count thirds_window) = (1%nat, 1%nat, 0%nat, 1%nat)
  /\ (exists d : dict dvalue,
        calculate_kpis thirds_window = Returned d
        /\ dict_get "accuracy" d = Some (DFloat 0.3333))
  /\ (0.3333 =? of_count (1 + 0) / of_count (1 + 1 + 0 + 1)) = false.
Proof.
  split; [reflexivity|]. split; [|vm_compute; reflexivity].
  eexists. split; [reflexivity|]. vm_compute. reflexivity.
Qed.

(** Rounding follows the doubles, not the decimals: with 17 correct
    predictions among 800 the quotient 0.02125 would round to 0.0212, the
    even neighbour, but the double quotient times 10000 lies just above 212.5
    and the accuracy returned is 0.0213. *)
Lemma calculate_kpis_half_way :
  exists d : dict dvalue,
    calculate_kpis (window_of 17 800) = Returned d
    /\ dict_get "accuracy" d = Some (DFloat 0.0213)
    /\ dict_get "total_samples" d = Some (DInt 800).
Proof.
  eexists. split; [reflexivity|]. split; vm_compute; reflexivity.
Qed.

End AlertKpis64.

(** ** [watchtower/monitoring/drift.py] *)

Module Drift.
Import Numeric Py.

(** A row of the [amount, timestamp] data frames. *)
Record transaction_row : Type := TransactionRow {
  amount : Q;
  timestamp : Z
}.

(** [df.empty] *)
Definition empty (df : list transaction_row) : bool :=
  match df with [] => true | _ :: _ => false end.

(** The result returned when there is nothing to compare. *)
Definition no_drift (drift_type : string) : dict value :=
  [ ("drift_score"%string, VFloat 0);
    ("p_value"%string, VFloat 1);
    ("drift_detected"%string, VBool false);
    ("drift_type"%string, VStr drift_type) ].

Section Statistical.

(** [scipy.stats.ks_2samp], a library outside the repository: the test
    statistic and the p-value of two samples. *)
Variable ks_2samp : list Q -> list Q -> Q * Q.

(** [settings.drift_threshold] (0.1 unless configured otherwise). *)
Variable drift_threshold : Q.

(** [DriftDetector.detect_statistical_drift] *)
Definition detect_statistical_drift
    (baseline_data current_data : list transaction_row)
    (feature_name : string) : outcome (dict value) :=
  if empty baseline_data || empty current_data
  then Returned (no_drift "insufficient_data")
  else
    let baseline_values := map amount baseline_data in
    let current_values := map amount current_data in
    let '(ks_statistic, p_value) := ks_2samp baseline_values current_values in
    let drift_score := ks_statistic in
    let drift_detected := Qltb p_value 0.05 && Qgtb drift_score drift_threshold in
    let severity :=
      if Qgtb drift_score 0.3 then "high"%string
      else if Qgtb drift_score 0.15 then "medium"%string
      else "low"%string in
    Returned
      [ ("drift_score"%string, VFloat (py_round drift_score 4));
        ("p_value"%string, VFloat (py_round p_value 4));
        ("drift_detected"%string, VBool drift_detected);
        ("drift_type"%string, VStr "statistical");
        ("severity"%string, VStr severity);
        ("feature_name"%string, VStr feature_name) ].

End Statistical.

(** The empirical distribution function of a sample at [x]: the share of
    observations that are at most [x]. *)
Definition ecdf (sample : list Q) (x : Q) : Q :=
  of_nat (length (List.filter (fun v => Qle_bool v x) sample)) /
  of_nat (length sample).

(** The larger of two numbers. *)
Definition Qmaxb (x y : Q) : Q := if Qltb x y then y else x.

(** The two-sample Kolmogorov-Smirnov statistic: the largest distance between
    the two empirical distribution functions, which is attained at one of the
    observations. *)
Definition ks_distance (a b : list Q) : Q :=
  fold_right Qmaxb 0 (map (fun x => Qabs (ecdf a x - ecdf b x)) (a ++ b)).

(** A row of the hourly accuracy query of [detect_concept_drift]:
    [(hour_window, total_predictions, correct_predictions)]. *)
Record accuracy_row : Type := AccuracyRow {
  hour_window : Z;
  total_predictions : Z;
  correct_predictions : Z
}.

(** The accuracy of every bucket that has predictions. *)
Fixpoint bucket_accuracies (result : list accuracy_row) : list Q :=
  match result with
  | [] => []
  | row :: rest =>
    if (0 <? total_predictions row)%Z
    then inject_Z (correct_predictions row) / inject_Z (total_predictions row)
         :: bucket_accuracies rest
    else bucket_accuracies rest
  end.

(** The slices [l[-n:]] and [l[:-n]] for a positive [n]. *)
Definition last_n {A : Type} (n : nat) (l : list A) : list A :=
  skipn (length l - n) l.
Definition drop_last_n {A : Type} (n : nat) (l : list A) : list A :=
  firstn (length l - n) l.

(** [DriftDetector.detect_concept_drift], from the fetched rows on. *)
Definition detect_concept_drift (result : list accuracy_row)
    (feature_name : string) : outcome (dict value) :=
  match result with
  | [] => Returned (no_drift "concept")
  | _ :: _ =>
    let accuracies := bucket_accuracies result in
    if (length accuracies <? 2)%nat then Returned (no_drift "concept")
    else
      let recent_accuracy :=
        if (4 <=? length accuracies)%nat then mean (last_n 4 accuracies)
        else List.last accuracies 0 in
      let baseline_accuracy :=
        if (8 <=? length accuracies)%nat then mean (drop_last_n 4 accuracies)
        else mean accuracies in
      let accuracy_drop := baseline_accuracy - recent_accuracy in
      let drift_score := py_max0 accuracy_drop in
      let drift_detected := Qgtb accuracy_drop 0.05 in
      Returned
        [ ("drift_score"%string, VFloat (py_round drift_score 4));
          ("p_value"%string, VFloat (if drift_detected then 0.01 else 0.5));
          ("drift_detected"%string, VBool drift_detected);
          ("drift_type"%string, VStr "concept");
          ("severity"%string,
           VStr (if Qgtb accuracy_drop 0.1 then "high"
                 else if Qgtb accuracy_drop 0.05 then "medium" else "low"));
          ("feature_name"%string, VStr feature_name);
          ("baseline_accuracy"%string, VFloat (py_round baseline_accuracy 4));
          ("recent_accuracy"%string, VFloat (py_round recent_accuracy 4)) ]
  end.

(** *** The Kolmogorov-Smirnov statistic lies in the unit interval *)

Lemma of_nat_le (n m : nat) : (n <= m)%nat -> of_nat n <= of_nat m.
Proof. intros H. unfold of_nat. rewrite <- Zle_Qle. lia. Qed.

Lemma ecdf_unit_interval (sample : list Q) (x : Q) :
  0 <= ecdf sample x /\ ecdf sample x <= 1.
Proof.
  unfold ecdf. destruct sample as [|v sample].
  - split; discriminate.
  - set (s := v :: sample).
    assert (Hpos : 0 < of_nat (length s)) by (apply of_nat_pos; cbn; lia).
    pose proof (of_nat_nonneg (length (List.filter (fun v => Qle_bool v x) s))) as Hc.
    pose proof (of_nat_le _ _ (filter_length_le (fun v => Qle_bool v x) s)) as Hle.
    split.
    + apply Qle_shift_div_l; [exact Hpos | lra].
    + apply Qle_shift_div_r; [exact Hpos | lra].
Qed.

Lemma Qmaxb_unit_interval (x y : Q) :
  0 <= x <= 1 -> 0 <= y <= 1 -> 0 <= Qmaxb x y <= 1.
Proof. intros Hx Hy. unfold Qmaxb. destruct (Qltb x y); assumption. Qed.

Lemma ks_distance_unit_interval (a b : list Q) :
  0 <= ks_distance a b <= 1.
Proof.
  unfold ks_distance. induction (a ++ b) as [|x l IH]; cbn [map fold_right].
  - split; discriminate.
  - apply Qmaxb_unit_interval; [|exact IH].
    destruct (ecdf_unit_interval a x), (ecdf_unit_interval b x).
    split; [apply Qabs_nonneg|]. apply Qabs_Qle_condition. split; lra.
Qed.

(** *** Statistical drift *)

Definition amounts (l : list Q) : list transaction_row :=
  map (fun a => TransactionRow a 0) l.

(** [ks_2samp] with the statistic computed exactly and the p-value 1, which
    is the p-value of the samples it is applied to below (identical samples,
    and samples of three distinct observations at distance 1/3). *)
Definition ks_exact (a b : list Q) : Q * Q := (ks_distance a b, 1).

(** C7.  When the baseline or the current sample is empty, the detector
    returns (it does not raise) the result with [drift_score] 0,
    [drift_detected] false and [drift_type] "insufficient_data" (and
    [p_value] 1), whatever the test and the threshold are. *)
Theorem detect_statistical_drift_empty
    (ks_2samp : list Q -> list Q -> Q * Q) (drift_threshold : Q)
    (baseline_data current_data : list transaction_row) (feature_name : string) :
  baseline_data = [] \/ current_data = [] ->
  detect_statistical_drift ks_2samp drift_threshold
    baseline_data current_data feature_name =
    Returned [ ("drift_score"%string, VFloat 0); ("p_value"%string, VFloat 1);
               ("drift_detected"%string, VBool false);
               ("drift_type"%string, VStr "insufficient_data") ]
  /\ is_raised (detect_statistical_drift ks_2samp drift_threshold
                  baseline_data current_data feature_name) = false.
Proof.
  intros H. unfold detect_statistical_drift.
  assert (E : empty baseline_data || empty current_data = true).
  { destruct H as [-> | ->]; [reflexivity | apply orb_true_r]. }
  rewrite E. split; reflexivity.
Qed.

Lemma detect_statistical_drift_empty_witness :
  detect_statistical_drift ks_exact 0.1 (amounts [100; 200]) [] "amount" =
    Returned [ ("drift_score"%string, VFloat 0); ("p_value"%string, VFloat 1);
               ("drift_detected"%string, VBool false);
               ("drift_type"%string, VStr "insufficient_data") ]
  /\ is_raised (detect_statistical_drift ks_exact 0.1
                  (amounts [100; 200]) [] "amount") = false.
Proof.
  apply (detect_statistical_drift_empty ks_exact 0.1 (amounts [100; 200]) [] "amount").
  right. reflexivity.
Defined.

(** *** Concept drift *)

(** With at least [n] elements, [l[:-n]] and [l[-n:]] split the list, and
    [l[-n:]] has [n] elements. *)
Lemma slices_partition {A : Type} (n : nat) (l : list A) :
  (n <= length l)%nat ->
  l = drop_last_n n l ++ last_n n l
  /\ length (last_n n l) = n
  /\ length (drop_last_n n l) = (length l - n)%nat.
Proof.
  intros Hn. unfold drop_last_n, last_n. split; [|split].
  - symmetry. apply firstn_skipn.
  - rewrite length_skipn. lia.
  - rewrite length_firstn. lia.
Qed.

(** Hourly buckets of 100 predictions each, given by their numbers of correct
    predictions. *)
Definition hourly (correct : list Z) : list accuracy_row :=
  map (fun c => AccuracyRow 0 100 c) correct.

End Drift.

(** ** [drift.py] in double precision *)

Module Drift64.
Import Numeric Py Float64.
Import Drift (accuracy_row, AccuracyRow, total_predictions, correct_predictions,
              last_n, drop_last_n, slices_partition, hourly, ks_distance,
              ks_distance_unit_interval).

#[local] Set Warnings "-inexact-float".
Local Open Scope float_scope.

(** A row of the [amount, timestamp] data frames; [amount] is a DOUBLE
    column. *)
Record transaction_row : Type := TransactionRow {
  amount : float;
  timestamp : Z
}.

(** [df.empty] *)
Definition empty (df : list transaction_row) : bool :=
  match df with [] => true | _ :: _ => false end.

(** The result returned when there is nothing to compare. *)
Definition no_drift (drift_type : string) : dict dvalue :=
  [ ("drift_score"%string, DFloat 0);
    ("p_value"%string, DFloat 1);
    ("drift_detected"%string, DBool false);
    ("drift_type"%string, DStr drift_type) ].

Section Statistical.

(** [scipy.stats.ks_2samp], a library outside the repository: the test
    statistic and the p-value of two samples, both NumPy doubles. *)
Variable ks_2samp : list float -> list float -> float * float.

(** [settings.drift_threshold] (0.1 unless configured otherwise). *)
Variable drift_threshold : float.

(** [DriftDetector.detect_statistical_drift] *)
Definition detect_statistical_drift
    (baseline_data current_data : list transaction_row)
    (feature_name : string) : outcome (dict dvalue) :=
  if empty baseline_data || empty current_data
  then Returned (no_drift "insufficient_data")
  else
    let baseline_values := map amount baseline_data in
    let current_values := map amount current_data in
    let '(ks_statistic, p_value) := ks_2samp baseline_values current_values in
    let drift_score := ks_statistic in
    let drift_detected := (p_value <? 0.05) && (drift_threshold <? drift_score) in
    let severity :=
      if 0.3 <? drift_score then "high"%string
      else if 0.15 <? drift_score then "medium"%string
      else "low"%string in
    Returned
      [ ("drift_score"%string, DFloat (np_round drift_score 4));
        ("p_value"%string, DFloat (np_round p_value 4));
        ("drift_detected"%string, DBool drift_detected);
        ("drift_type"%string, DStr "statistical");
        ("severity"%string, DStr severity);
        ("feature_name"%string, DStr feature_name) ].

End Statistical.

(** The empirical distribution function of a sample at [x], as [ks_2samp]
    computes it: the number of observations that are at most [x], divided by
    the size of the sample. *)
Definition ecdf (sample : list float) (x : float) : float :=
  of_count (length (List.filter (fun v => v <=? x) sample)) /
  of_count (length sample).

Definition fmax (x y : float) : float := if x <? y then y else x.

(** The two-sided statistic of [ks_2samp]: the largest gap between the two
    empirical distribution functions over the pooled observations. *)
Definition ks_statistic (a b : list float) : float :=
  fold_right fmax 0 (map (fun x => abs (ecdf a x - ecdf b x)) (a ++ b)).

(** [ks_2samp] on samples whose p-value is 1: identical samples, and samples
    of three distinct observations at distance 1/3. *)
Definition ks_of_samples (a b : list float) : float * float :=
  (ks_statistic a b, 1).

Definition amounts (l : list float) : list transaction_row :=
  map (fun a => TransactionRow a 0) l.

Section Concept.

(** [numpy.mean], a library outside the repository. *)
Variable np_mean : list float -> float.

(** The accuracy of every bucket that has predictions: the true division of
    two Python integers, which is the quotient of the two as doubles for
    counters below [2^53]. *)
Fixpoint bucket_accuracies (result : list accuracy_row) : list float :=
  match result with
  | [] => []
  | row :: rest =>
    if (0 <? total_predictions row)%Z
    then of_int (correct_predictions row) / of_int (total_predictions row)
         :: bucket_accuracies rest
    else bucket_accuracies rest
  end.

(** [DriftDetector.detect_concept_drift], from the fetched rows on.  The
    means and what is computed from them are NumPy doubles, rounded as
    [np_round]; with fewer than 4 buckets [recent_accuracy] is an element of
    the list, a Python float, rounded as [py_round]. *)
Definition detect_concept_drift (result : list accuracy_row)
    (feature_name : string) : outcome (dict dvalue) :=
  match result with
  | [] => Returned (no_drift "concept")
  | _ :: _ =>
    let accuracies := bucket_accuracies result in
    if (length accuracies <? 2)%nat then Returned (no_drift "concept")
    else
      let recent_accuracy :=
        if (4 <=? length accuracies)%nat then np_mean (last_n 4 accuracies)
        else List.last accuracies 0 in
      let baseline_accuracy :=
        if (8 <=? length accuracies)%nat then np_mean (drop_last_n 4 accuracies)
        else np_mean accuracies in
      let accuracy_drop := baseline_accuracy - recent_accuracy in
      let drift_score := py_max0 accuracy_drop in
      let drift_detected := 0.05 <? accuracy_drop in
      Returned
        [ ("drift_score"%string, DFloat (np_round drift_score 4));
          ("p_value"%string, DFloat (if drift_detected then 0.01 else 0.5));
          ("drift_detected"%string, DBool drift_detected);
          ("drift_type"%string, DStr "concept");
          ("severity"%string,
           DStr (if 0.1 <? accuracy_drop then "high"
                 else if 0.05 <? accuracy_drop then "medium" else "low"));
          ("feature_name"%string, DStr feature_name);
          ("baseline_accuracy"%string, DFloat (np_round baseline_accuracy 4));
          ("recent_accuracy"%string,
           DFloat (if (4 <=? length accuracies)%nat
                   then np_round recent_accuracy 4
                   else py_round recent_accuracy 4)) ]
  end.

End Concept.

(** *** Statistical drift *)

(** C3 (as amended).  For non-empty baseline and current samples, with
    [(D, p)] the statistic and p-value that the Kolmogorov-Smirnov test
    returns for the two columns of amounts: the returned [drift_score] is [D]
    rounded to 4 decimal places by [round]; [drift_detected] holds exactly
    when [p < 0.05] and [D] exceeds the configured threshold; the severity is
    "high" when [D > 0.3], "medium" when [D > 0.15] and "low" otherwise, all
    decided on the unrounded [D]; and the Kolmogorov-Smirnov distance of two
    samples lies in [0,1]. *)
Theorem detect_statistical_drift_rounded
    (ks_2samp : list float -> list float -> float * float) (drift_threshold : float)
    (baseline_data current_data : list transaction_row) (feature_name : string) :
  baseline_data <> [] -> current_data <> [] ->
  let D := fst (ks_2samp (map amount baseline_data) (map amount current_data)) in
  let p := snd (ks_2samp (map amount baseline_data) (map amount current_data)) in
  exists r : dict dvalue,
    detect_statistical_drift ks_2samp drift_threshold
      baseline_data current_data feature_name = Returned r
    /\ dict_get "drift_score" r = Some (DFloat (np_round D 4))
    /\ dict_get "drift_detected" r =
       Some (DBool ((p <? 0.05) && (drift_threshold <? D)))
    /\ dict_get "severity" r =
       Some (DStr (if 0.3 <? D then "high"
                   else if 0.15 <? D then "medium" else "low"))
    /\ dict_get "drift_type" r = Some (DStr "statistical")
    /\ (forall a b : list Q,
          Qle_bool 0 (ks_distance a b) && Qle_bool (ks_distance a b) 1 = true).
Proof.
  intros Hb Hc. cbv zeta. unfold detect_statistical_drift.
  destruct baseline_data as [|b0 bs]; [congruence|].
  destruct current_data as [|c0 cs]; [congruence|].
  cbn [empty orb].
  destruct (ks_2samp (map amount (b0 :: bs)) (map amount (c0 :: cs))) as [D p].
  cbn [fst snd]. eexists. split; [reflexivity|].
  repeat split.
  intros a b. destruct (ks_distance_unit_interval a b) as [Hlo Hhi].
  apply andb_true_iff. split; apply Qle_bool_iff; assumption.
Qed.

Lemma detect_statistical_drift_rounded_witness :
  exists r : dict dvalue,
    detect_statistical_drift ks_of_samples 0.1
      (amounts [100; 200; 300; 400]) (amounts [100; 200; 300; 400]) "amount" = Returned r
    /\ dict_get "drift_score" r = Some (DFloat 0)
    /\ dict_get "drift_detected" r = Some (DBool false)
    /\ dict_get "severity" r = Some (DStr "low").
Proof.
  assert (Hne : amounts [100; 200; 300; 400] <> []) by discriminate.
  destruct (detect_statistical_drift_rounded ks_of_samples 0.1
              (amounts [100; 200; 300; 400]) (amounts [100; 200; 300; 400])
              "amount" Hne Hne)
    as (r & Hr & Hscore & Hdet & Hsev & _).
  exists r. repeat split;
    [exact Hr | rewrite Hscore | rewrite Hdet | rewrite Hsev]; vm_compute; reflexivity.
Defined.

(** C3, as stated, fails where the statistic has more than 4 decimal places:
    for the samples 1, 2, 3 and 2, 3, 4 the statistic is a third (the double
    that 1 - 2/3 gives) and the returned score is 0.3333. *)
Lemma detect_statistical_drift_not_the_statistic :
  ks_statistic [1; 2; 3] [2; 3; 4] = 1 - of_count 2 / of_count 3
  /\ (exists r : dict dvalue,
        detect_statistical_drift ks_of_samples 0.1
          (amounts [1; 2; 3]) (amounts [2; 3; 4]) "amount" = Returned r
        /\ dict_get "drift_score" r = Some (DFloat 0.3333))
  /\ (0.3333 =? ks_statistic [1; 2; 3] [2; 3; 4]) = false.
Proof.
  split; [vm_compute; reflexivity|]. split; [|vm_compute; reflexivity].
  eexists. split; [reflexivity|]. vm_compute. reflexivity.
Qed.

(** *** Concept drift *)

(** C4 (as amended).  With the accuracies of the non-empty buckets in time
    order: with fewer than 2 of them the result has [drift_score] 0 and
    [drift_detected] false; otherwise the recent accuracy is the mean of the
    last 4 buckets (the last bucket alone when there are fewer than 4), the
    baseline accuracy is the mean of the buckets before the last 4 when there
    are at least 8 buckets and the mean of all buckets otherwise,
    [drift_score] is [max(0, baseline - recent)], which is never negative,
    rounded to 4 decimal places, and [drift_detected] holds exactly when the
    difference [baseline - recent], computed in doubles, is greater than
    0.05.  With at least 8 buckets the two groups are the last 4 buckets and
    all the earlier ones.  This holds whatever [np.mean] computes. *)
Theorem detect_concept_drift_compares (np_mean : list float -> float)
    (result : list accuracy_row) (feature_name : string) :
  let accuracies := bucket_accuracies result in
  let n := length accuracies in
  let recent :=
    if (n <? 4)%nat then List.last accuracies 0 else np_mean (last_n 4 accuracies) in
  let baseline :=
    if (n <? 8)%nat then np_mean accuracies else np_mean (drop_last_n 4 accuracies) in
  exists r : dict dvalue,
    detect_concept_drift np_mean result feature_name = Returned r
    /\ dict_get "drift_type" r = Some (DStr "concept")
    /\ ((n < 2)%nat ->
        dict_get "drift_score" r = Some (DFloat 0)
        /\ dict_get "drift_detected" r = Some (DBool false))
    /\ ((2 <= n)%nat ->
        dict_get "drift_score" r =
          Some (DFloat (np_round (py_max0 (baseline - recent)) 4))
        /\ dict_get "drift_detected" r = Some (DBool (0.05 <? baseline - recent)))
    /\ ((8 <= n)%nat ->
        accuracies = drop_last_n 4 accuracies ++ last_n 4 accuracies
        /\ length (last_n 4 accuracies) = 4%nat
        /\ length (drop_last_n 4 accuracies) = (n - 4)%nat)
    /\ (0 <=? py_max0 (baseline - recent)) = true.
Proof.
  cbv zeta.
  assert (Hslices : (8 <= length (bucket_accuracies result))%nat ->
    bucket_accuracies result =
      drop_last_n 4 (bucket_accuracies result) ++ last_n 4 (bucket_accuracies result)
    /\ length (last_n 4 (bucket_accuracies result)) = 4%nat
    /\ length (drop_last_n 4 (bucket_accuracies result)) =
       (length (bucket_accuracies result) - 4)%nat).
  { intros H. apply slices_partition. lia. }
  destruct result as [|row rest].
  - eexists. split; [reflexivity|]. cbn [bucket_accuracies length].
    split; [reflexivity|]. split; [intros _; split; reflexivity|].
    split; [intros H; exfalso; lia|]. split; [intros H; exfalso; lia|].
    apply max0_nonneg.
  - unfold detect_concept_drift.
    set (accs := bucket_accuracies (row :: rest)) in *.
    destruct (length accs <? 2)%nat eqn:E2.
    + apply Nat.ltb_lt in E2.
      eexists. split; [reflexivity|]. split; [reflexivity|].
      split; [intros _; split; reflexivity|].
      split; [intros H; exfalso; lia|].
      split; [exact Hslices | apply max0_nonneg].
    + apply Nat.ltb_ge in E2.
      eexists. split; [reflexivity|]. split; [reflexivity|].
      split; [intros H; exfalso; lia|].
      split; [|split; [exact Hslices | apply max0_nonneg]].
      intros _. cbn [dict_get String.eqb Ascii.eqb Bool.eqb].
      rewrite !Nat.ltb_antisym.
      destruct (4 <=? length accs)%nat, (8 <=? length accs)%nat;
        cbn [negb]; split; reflexivity.
Qed.

(** Eight hourly buckets of 100 predictions, the first four all correct and
    the last four with 95 correct each: the means are 1.0 and 0.95 and their
    difference in doubles is 0.05000000000000004, which is greater than 0.05;
    the drift is detected, with the score 0.05. *)
Lemma detect_concept_drift_compares_witness :
  exists r : dict dvalue,
    detect_concept_drift mean_in_order
      (hourly [100; 100; 100; 100; 95; 95; 95; 95]%Z) "amount" = Returned r
    /\ dict_get "drift_score" r = Some (DFloat 0.05)
    /\ dict_get "drift_detected" r = Some (DBool true)
    /\ dict_get "severity" r = Some (DStr "medium").
Proof.
  destruct (detect_concept_drift_compares mean_in_order
              (hourly [100; 100; 100; 100; 95; 95; 95; 95]%Z) "amount")
    as (r & Hr & _ & _ & Hmany & _).
  destruct Hmany as [Hscore Hdet]; [cbn; lia|].
  exists r. split; [exact Hr|]. split; [|split].
  - rewrite Hscore. vm_compute. reflexivity.
  - rewrite Hdet. vm_compute. reflexivity.
  - vm_compute in Hr. injection Hr as <-. reflexivity.
Defined.

(** C4, as stated, fails with between 4 and 7 buckets: for five buckets of
    accuracy 1, 0.94, 0.94, 0.94, 0.94 the mean of the bucket before the last
    four exceeds the mean of the last four by more than 0.05, while the
    detector, whose baseline is the mean of all five, returns the score 0.012
    and detects nothing. *)
Lemma detect_concept_drift_short_window :
  length (bucket_accuracies (hourly [100; 94; 94; 94; 94]%Z)) = 5%nat
  /\ (0.05 <?
        mean_in_order (drop_last_n 4 (bucket_accuracies (hourly [100; 94; 94; 94; 94]%Z)))
        - mean_in_order (last_n 4 (bucket_accuracies (hourly [100; 94; 94; 94; 94]%Z))))
     = true
  /\ (exists r : dict dvalue,
        detect_concept_drift mean_in_order
          (hourly [100; 94; 94; 94; 94]%Z) "amount" = Returned r
        /\ dict_get "drift_score" r = Some (DFloat 0.012)
        /\ dict_get "drift_detected" r = Some (DBool false)).
Proof.
  split; [reflexivity|]. split; [vm_compute; reflexivity|].
  eexists. split; [reflexivity|]. split; vm_compute; reflexivity.
Qed.

End Drift64.

(** ** [watchtower/monitoring/coverage.py] *)

Module Coverage.
Import Numeric Py.

Notation "'let*' x ':=' o 'in' k" := (bind o (fun x => k))
  (at level 10, x name, o at level 100, k at level 200).

(** A row of [transactions t LEFT JOIN model_predictions p] inside the time
    window: the fraud flag, and the prediction, which is NULL for a
    transaction without a prediction. *)
Record joined_row : Type := JoinedRow {
  is_fraud : bool;
  prediction : option bool
}.

(** [SUM(CASE WHEN cond THEN 1 ELSE 0 END)] over the rows. *)
Definition sum_case (cond : joined_row -> bool) (rows : list joined_row) : Z :=
  fold_right (fun row acc => ((if cond row then 1 else 0) + acc)%Z) 0%Z rows.

(** The row the query returns:
    [(total_transactions, fraud_transactions, predicted_fraud)].  Over no rows
    the two sums are NULL; the code returns before it reads them, and they are
    0 here. *)
Definition coverage_query (rows : list joined_row) : Z * Z * Z :=
  ( Z.of_nat (length rows),
    sum_case is_fraud rows,
    sum_case (fun row => match prediction row with Some true => true | _ => false end) rows ).

(** [CoverageMonitor.calculate_coverage], from the fetched row on. *)
Definition coverage_of_result (result : Z * Z * Z) (risk_category : string)
    (time_window_hours : Z) : outcome (dict value) :=
  let '(total_transactions, fraud_transactions, predicted_fraud) := result in
  if (total_transactions =? 0)%Z
  then Returned
         [ ("coverage_percentage"%string, VFloat 0);
           ("total_samples"%string, VInt 0);
           ("covered_samples"%string, VInt 0);
           ("gap_count"%string, VInt 0) ]
  else
    let* coverage_pct :=
      if (0 <? fraud_transactions)%Z
      then let* q := true_div predicted_fraud fraud_transactions in Returned (q * 100)
      else Returned 0 in
    let gap_count := (fraud_transactions - predicted_fraud)%Z in
    Returned
      [ ("coverage_percentage"%string, VFloat (py_round coverage_pct 2));
        ("total_samples"%string, VInt total_transactions);
        ("covered_samples"%string, VInt predicted_fraud);
        ("gap_count"%string, VInt gap_count);
        ("risk_category"%string, VStr risk_category);
        ("time_window_hours"%string, VInt time_window_hours) ].

Definition calculate_coverage (rows : list joined_row) (risk_category : string)
    (time_window_hours : Z) : outcome (dict value) :=
  coverage_of_result (coverage_query rows) risk_category time_window_hours.

(** *** The counters of the query *)

Lemma sum_case_bounds (cond : joined_row -> bool) (rows : list joined_row) :
  (0 <= sum_case cond rows <= Z.of_nat (length rows))%Z.
Proof.
  induction rows as [|row rows IH]; cbn [sum_case fold_right length].
  - lia.
  - fold (sum_case cond rows). destruct (cond row); lia.
Qed.

(** The predicted-positive rows of the window. *)
Definition predicted_positive (row : joined_row) : bool :=
  match prediction row with Some true => true | _ => false end.

(** Three fraudulent transactions, one of them flagged. *)
Definition one_in_three : list joined_row :=
  [ JoinedRow true (Some true); JoinedRow true (Some false); JoinedRow true None ].

End Coverage.

(** ** [coverage.py] in double precision *)

Module Coverage64.
Import Numeric Py Float64.
Import Coverage (joined_row, JoinedRow, is_fraud, prediction, sum_case,
                 coverage_query, sum_case_bounds, predicted_positive,
                 one_in_three).

#[local] Set Warnings "-inexact-float".
Local Open Scope float_scope.

Notation "'let*' x ':=' o 'in' k" := (bind o (fun x => k))
  (at level 10, x name, o at level 100, k at level 200).

(** [x / y] on Python integers, which raises when [y] is 0 and is otherwise
    the quotient of the two as doubles (for counters below [2^53]). *)
Definition true_div (x y : Z) : outcome float :=
  if (y =? 0)%Z then Raised "ZeroDivisionError"
  else Returned (of_int x / of_int y).

(** [CoverageMonitor.calculate_coverage], from the fetched row on.  The
    percentage is a Python float, which [round] rounds as [py_round]. *)
Definition coverage_of_result (result : Z * Z * Z) (risk_category : string)
    (time_window_hours : Z) : outcome (dict dvalue) :=
  let '(total_transactions, fraud_transactions, predicted_fraud) := result in
  if (total_transactions =? 0)%Z
  then Returned
         [ ("coverage_percentage"%string, DFloat 0);
           ("total_samples"%string, DInt 0);
           ("covered_samples"%string, DInt 0);
           ("gap_count"%string, DInt 0) ]
  else
    let* coverage_pct :=
      if (0 <? fraud_transactions)%Z
      then let* q := true_div predicted_fraud fraud_transactions in Returned (q * 100)
      else Returned 0 in
    let gap_count := (fraud_transactions - predicted_fraud)%Z in
    Returned
      [ ("coverage_percentage"%string, DFloat (py_round coverage_pct 2));
        ("total_samples"%string, DInt total_transactions);
        ("covered_samples"%string, DInt predicted_fraud);
        ("gap_count"%string, DInt gap_count);
        ("risk_category"%string, DStr risk_category);
        ("time_window_hours"%string, DInt time_window_hours) ].

Definition calculate_coverage (rows : list joined_row) (risk_category : string)
    (time_window_hours : Z) : outcome (dict dvalue) :=
  coverage_of_result (coverage_query rows) risk_category time_window_hours.

(** A window of [a] fraudulent transactions of which the first [p] are
    flagged. *)
Definition flagged_of (p a : nat) : list joined_row :=
  repeat (JoinedRow true (Some true)) p ++ repeat (JoinedRow true (Some false)) (a - p).

(** C5 (as amended).  For every window and risk category the computation
    returns, without raising: with A the actual-positive and P the
    predicted-positive count of the window, [coverage_percentage] is 0 when
    A = 0 and otherwise P / A * 100, computed in doubles, rounded to 2
    decimal places by [round]; [gap_count] is A - P, and [covered_samples] is
    at most [total_samples]. *)
Theorem calculate_coverage_rounded (rows : list joined_row)
    (risk_category : string) (time_window_hours : Z) :
  let A := sum_case is_fraud rows in
  let P := sum_case predicted_positive rows in
  exists (r : dict dvalue) (total covered : Z),
    calculate_coverage rows risk_category time_window_hours = Returned r
    /\ dict_get "coverage_percentage" r =
       Some (DFloat (if (A =? 0)%Z then 0
                     else py_round (of_int P / of_int A * 100) 2))
    /\ dict_get "gap_count" r = Some (DInt (A - P))
    /\ dict_get "total_samples" r = Some (DInt total)
    /\ dict_get "covered_samples" r = Some (DInt covered)
    /\ (covered <=? total)%Z = true.
Proof.
  cbv zeta. unfold calculate_coverage, coverage_query.
  fold predicted_positive.
  pose proof (sum_case_bounds is_fraud rows) as HA.
  pose proof (sum_case_bounds predicted_positive rows) as HP.
  set (A := sum_case is_fraud rows) in *.
  set (P := sum_case predicted_positive rows) in *.
  unfold coverage_of_result.
  destruct (Z.of_nat (length rows) =? 0)%Z eqn:Etotal.
  - apply Z.eqb_eq in Etotal.
    assert (EA : A = 0%Z) by lia. assert (EP : P = 0%Z) by lia.
    rewrite EA, EP.
    eexists. exists 0%Z, 0%Z. split; [reflexivity|].
    repeat split.
  - destruct (0 <? A)%Z eqn:Epos.
    + apply Z.ltb_lt in Epos.
      assert (EA : (A =? 0)%Z = false) by (apply Z.eqb_neq; lia).
      unfold true_div. rewrite EA. cbn [bind].
      eexists. exists (Z.of_nat (length rows)), P.
      split; [reflexivity|].
      repeat split. apply Z.leb_le; lia.
    + apply Z.ltb_ge in Epos.
      assert (EA : A = 0%Z) by lia. rewrite EA. cbn [bind Z.eqb].
      eexists. exists (Z.of_nat (length rows)), P.
      split; [reflexivity|].
      repeat split. apply Z.leb_le; lia.
Qed.

(** C5, as stated, fails where the percentage has more than 2 decimal
    places: with three actual positives and one predicted positive the
    percentage returned is 33.33, which is not 1/3 * 100. *)
Lemma calculate_coverage_not_the_quotient :
  (sum_case is_fraud one_in_three, sum_case predicted_positive one_in_three) = (3, 1)%Z
  /\ (exists r : dict dvalue,
        calculate_coverage one_in_three "fraud" 24 = Returned r
        /\ dict_get "coverage_percentage" r = Some (DFloat 33.33))
  /\ (33.33 =? of_int 1 / of_int 3 * 100) = false.
Proof.
  split; [reflexivity|]. split; [|vm_compute; reflexivity].
  eexists. split; [reflexivity|]. vm_compute. reflexivity.
Qed.

(** Rounding follows the doubles, not the decimals: with 23 of 160 actual
    positives flagged the percentage 14.375 would round to 14.38, but
    23/160*100 in doubles is 14.374999999999998 and the percentage returned
    is 14.37. *)
Lemma calculate_coverage_half_way :
  exists r : dict dvalue,
    calculate_coverage (flagged_of 23 160) "fraud" 24 = Returned r
    /\ dict_get "coverage_percentage" r = Some (DFloat 14.37)
    /\ dict_get "gap_count" r = Some (DInt 137).
Proof.
  eexists. split; [reflexivity|]. split; vm_compute; reflexivity.
Qed.

End Coverage64.

(** ** [watchtower/api/routes/playbooks.py] *)

Module Playbooks.
Import Numeric Py.

(** A playbook of the registry; [actions] is absent when the entry has no
    such key. *)
Record playbook : Type := Playbook {
  name : string;
  actions : option (list string)
}.

(** The record [execute_playbook] builds and returns. *)
Record execution_record : Type := ExecutionRecord {
  execution_id : string;
  playbook_id : Z;
  playbook_name : string;
  status : string;
  start_time : string;
  end_time : option string;
  trigger_data : dict value;
  actions_executed : list (dict value);
  execution_log : list string
}.

(** A row of the table [playbook_executions]. *)
Record execution_row : Type := ExecutionRow {
  row_execution_id : string;
  row_playbook_id : Z;
  row_status : string;
  row_start_time : string;
  row_end_time : option string;
  row_execution_log : string
}.

(** ['\n'.join(lines)] *)
Fixpoint join_lines (lines : list string) : string :=
  match lines with
  | [] => EmptyString
  | [line] => line
  | line :: rest => (line ++ String "010" (join_lines rest))%string
  end.

Section Execute.

(** The step of the [try] block that carries an action out: [None] when it
    completes, [Some e] when it raises an exception whose text is [e]. *)
Variable raises : string -> option string.

(** The clock, of which one reading stands for all:
    [datetime.now().isoformat()] and [int(datetime.now().timestamp())]. *)
Variable now : string.
Variable epoch : Z.

(** What [conn.execute] answers to the INSERT, given the table and the row:
    [None] when DuckDB stores the row, [Some e] when it raises (the table
    lacks a column the statement names, or a constraint of the table is
    violated). *)
Variable refused : list execution_row -> execution_row -> option string.

(** One turn of the loop over the actions: the [try] block, or its [except]
    branch when the block raises. *)
Definition run_action (st : list (dict value) * list string) (action : string)
    : list (dict value) * list string :=
  let '(executed, log) := st in
  match raises action with
  | None =>
    ( executed ++
        [ [ ("action"%string, VStr action);
            ("status"%string, VStr "success");
            ("timestamp"%string, VStr now);
            ("result"%string,
             VStr ("Action " ++ action ++ " executed successfully")) ] ],
      log ++ [ ("✅ " ++ action ++ ": Success")%string ] )
  | Some e =>
    ( executed ++
        [ [ ("action"%string, VStr action);
            ("status"%string, VStr "failed");
            ("timestamp"%string, VStr now);
            ("error"%string, VStr e) ] ],
      log ++ [ ("❌ " ++ action ++ ": Failed - " ++ e)%string ] )
  end.

(** [execute_playbook]: the answer (the status code 500 of the
    [HTTPException] that the [except Exception] clause raises, or the
    execution record) and the table afterwards.  [lookup] is what
    [await get_playbook(playbook_id)] returns, [None] when that call raises;
    the column [metadata], the text of the record, is left out of the row. *)
Definition execute_playbook (lookup : option playbook) (id : Z)
    (execution_data : dict value) (table : list execution_row)
    : (Z + execution_record) * list execution_row :=
  match lookup with
  | None => (inl 500%Z, table)
  | Some pb =>
    let exec_id := ("EXEC_" ++ str_int id ++ "_" ++ str_int epoch)%string in
    let acts := match actions pb with Some l => l | None => [] end in
    let '(executed, log) := fold_left run_action acts ([], []) in
    let record :=
      ExecutionRecord exec_id id (name pb) "completed" now (Some now)
                      execution_data executed log in
    let row :=
      ExecutionRow exec_id id (status record) (start_time record)
                   (end_time record) (join_lines log) in
    match refused table row with
    | Some _ => (inl 500%Z, table)
    | None => (inr record, table ++ [row])
    end
  end.

End Execute.

(** The [try] block as the source has it: no step of it raises. *)
Definition no_failure (action : string) : option string := None.

(** A table that has the columns of the INSERT and no constraint on them. *)
Definition accepted (table : list execution_row) (row : execution_row)
    : option string := None.

(** A table without a column that the INSERT names, as the two tables
    [playbook_executions] that [database.py] and [seed_incidents.py] create:
    the first has no [execution_id], the second no [playbook_id]. *)
Definition column_missing (table : list execution_row) (row : execution_row)
    : option string := Some "Binder Error: column does not exist"%string.

(** The status an action is logged with. *)
Definition action_status (raises : string -> option string) (action : string)
    : string :=
  match raises action with None => "success"%string | Some _ => "failed"%string end.

(** The loop appends one entry and one log line for every action, in order,
    whatever happened to the actions before it. *)
Lemma run_actions_entries (raises : string -> option string) (now : string)
    (acts : list string) (executed : list (dict value)) (log : list string) :
  let st := fold_left (run_action raises now) acts (executed, log) in
  map (dict_get "action") (fst st) =
    map (dict_get "action") executed ++ map (fun a => Some (VStr a)) acts
  /\ map (dict_get "status") (fst st) =
     map (dict_get "status") executed ++
     map (fun a => Some (VStr (action_status raises a))) acts
  /\ length (snd st) = (length log + length acts)%nat.
Proof.
  cbv zeta. revert executed log.
  induction acts as [|a acts IH]; intros executed log; cbn [fold_left map length].
  - cbn [fst snd]. rewrite !app_nil_r. split; [reflexivity|]. split; [reflexivity | lia].
  - destruct (run_action raises now (executed, log) a) as [executed' log'] eqn:Hstep.
    assert (Hentry :
      map (dict_get "action") executed' =
        map (dict_get "action") executed ++ [Some (VStr a)]
      /\ map (dict_get "status") executed' =
         map (dict_get "status") executed ++ [Some (VStr (action_status raises a))]
      /\ length log' = S (length log)).
    { unfold run_action in Hstep. unfold action_status.
      destruct (raises a); injection Hstep as <- <-;
        rewrite !map_app, length_app; cbn [map length dict_get String.eqb Ascii.eqb Bool.eqb];
        (split; [reflexivity|]; split; [reflexivity | lia]). }
    destruct Hentry as (Hact1 & Hst1 & Hlen1).
    destruct (IH executed' log') as (Hact & Hst & Hlen).
    rewrite Hact, Hst, Hlen, Hact1, Hst1, Hlen1, <- !app_assoc.
    cbn [app]. split; [reflexivity|]. split; [reflexivity | lia].
Qed.

(** A playbook with two actions. *)
Definition two_actions : playbook :=
  Playbook "retrain on drift" (Some ["notify"%string; "retrain"%string]).

(** C8.  The execution of a playbook whose two actions both succeed returns a
    record in which both actions are logged as "success" and whose overall
    status is "completed", not "success"; on a table that lacks a column of
    the INSERT the same request is answered with 500 and nothing is stored.
    More generally the handler either answers 500 (the playbook was not
    found, or the INSERT was refused) or returns a record that has one entry
    per action, in order, each with its own status, one log line per action,
    and the overall status "completed" whatever those statuses are. *)
Theorem execute_playbook_status :
  (exists (record : execution_record) (table' : list execution_row),
      execute_playbook no_failure "2026-01-01T00:00:00" 1767225600 accepted
        (Some two_actions) 7 [] [] = (inr record, table')
      /\ map (dict_get "status") (actions_executed record) =
         [Some (VStr "success"); Some (VStr "success")]
      /\ status record = "completed"%string
      /\ String.eqb (status record) "success" = false)
  /\ execute_playbook no_failure "2026-01-01T00:00:00" 1767225600 column_missing
       (Some two_actions) 7 [] [] = (inl 500%Z, [])
  /\ (forall (raises : string -> option string) (now : string) (epoch : Z)
        (refused : list execution_row -> execution_row -> option string)
        (lookup : option playbook) (id : Z) (execution_data : dict value)
        (table : list execution_row),
        match fst (execute_playbook raises now epoch refused lookup id
                     execution_data table) with
        | inl code => code = 500%Z
        | inr record =>
          let acts :=
            match lookup with
            | Some pb => match actions pb with Some l => l | None => [] end
            | None => []
            end in
          map (dict_get "action") (actions_executed record) =
            map (fun a => Some (VStr a)) acts
          /\ map (dict_get "status") (actions_executed record) =
             map (fun a => Some (VStr (action_status raises a))) acts
          /\ length (execution_log record) = length acts
          /\ status record = "completed"%string
        end).
Proof.
  split; [|split].
  - eexists. eexists. split; [reflexivity|]. repeat split.
  - reflexivity.
  - intros raises now epoch refused [pb|] id execution_data table;
      [|reflexivity].
    unfold execute_playbook.
    pose proof (run_actions_entries raises now
                  (match actions pb with Some l => l | None => [] end) [] [])
      as (Hact & Hst & Hlen).
    destruct (fold_left (run_action raises now)
                (match actions pb with Some l => l | None => [] end) ([], []))
      as [executed log].
    cbn [fst snd] in Hact, Hst, Hlen.
    match goal with |- context [refused ?t ?r] => destruct (refused t r) end;
      cbn [fst]; [reflexivity|].
    cbn [actions_executed execution_log status].
    repeat split; assumption.
Qed.

End Playbooks.

(** ** INSERT statements *)

From Stdlib Require Import Sorted Permutation.

Module Duck.

Section Insert.

Context {R : Type}.

(** What [conn.execute] answers to an INSERT, given the table and the row:
    [None] when DuckDB stores the row, [Some e] when it raises an exception
    whose text is [e] (the table lacks a column the statement names, a
    constraint of the table is violated, a parameter cannot be converted).
    The tables are created outside the functions embedded here, so the
    answer is a parameter. *)
Variable refused : list R -> R -> option string.

(** One INSERT: the exception, or the table with the row appended. *)
Definition insert (db : list R) (row : R) : string + list R :=
  match refused db row with
  | Some e => inl e
  | None => inr (db ++ [row])
  end.

(** INSERTs one after the other, each committed on its own, up to the first
    that raises: the exception, if any, and the table afterwards. *)
Fixpoint insert_all (rows : list R) (db : list R) : option string * list R :=
  match rows with
  | [] => (None, db)
  | row :: rest =>
    match insert db row with
    | inl e => (Some e, db)
    | inr db' => insert_all rest db'
    end
  end.

(** The rows stored are a prefix of the rows given: all of them when no
    INSERT raises, and otherwise those before the row that was refused. *)
Lemma insert_all_outcome (rows : list R) (db : list R) :
  match insert_all rows db with
  | (None, db') => db' = db ++ rows
  | (Some e, db') =>
    exists (k : nat) (row : R),
      nth_error rows k = Some row
      /\ db' = db ++ firstn k rows
      /\ refused (db ++ firstn k rows) row = Some e
  end.
Proof.
  revert db. induction rows as [|row rest IH]; intros db; cbn [insert_all].
  - symmetry. apply app_nil_r.
  - unfold insert. destruct (refused db row) as [e|] eqn:Hrow.
    + exists 0%nat, row. cbn [nth_error firstn]. rewrite app_nil_r.
      repeat split. exact Hrow.
    + specialize (IH (db ++ [row])).
      destruct (insert_all rest (db ++ [row])) as [[e|] db'].
      * destruct IH as (k & r & Hk & Hdb & Hr).
        exists (S k), r. cbn [nth_error firstn].
        rewrite <- app_assoc in Hdb, Hr. cbn [app] in Hdb, Hr.
        repeat split; assumption.
      * rewrite <- app_assoc in IH. exact IH.
Qed.

Lemma insert_all_accepted (rows : list R) (db : list R) :
  (forall t r, refused t r = None) ->
  insert_all rows db = (None, db ++ rows).
Proof.
  intros Hall. revert db.
  induction rows as [|row rest IH]; intros db; cbn [insert_all].
  - rewrite app_nil_r. reflexivity.
  - unfold insert. rewrite Hall, IH, <- app_assoc. reflexivity.
Qed.

Lemma insert_all_refused (row : R) (rest : list R) (db : list R) (e : string) :
  refused db row = Some e ->
  insert_all (row :: rest) db = (Some e, db).
Proof. intros H. cbn [insert_all]. unfold insert. rewrite H. reflexivity. Qed.

End Insert.

(** A table that stores every row. *)
Definition accepting {R : Type} (db : list R) (row : R) : option string := None.

(** A table that refuses every row of the monitors, as the tables [kpis],
    [risk_coverage] and [drift_detection] that [database.py] and
    [load_to_duckdb.py] create do: each has a column [id INTEGER PRIMARY KEY]
    to which the INSERT statements of the monitors give no value. *)
Definition id_required {R : Type} (db : list R) (row : R) : option string :=
  Some "Constraint Error: NOT NULL constraint failed"%string.

End Duck.

(** ** More of [alert_kpis.py]: ranges, storage, sending and the monitor *)

Module KpiMonitor.
Import Numeric Py AlertKpis.

(** A number of the unit interval, as a test. *)
Definition in_unit (x : Q) : bool := Qle_bool 0 x && Qle_bool x 1.

(** The two labels of a row, without its probability. *)
Definition labels (r : prediction_row) : bool * bool := (actual r, predicted r).

(** A row of the table [kpis]:
    [(metric_name, metric_value, threshold_min, threshold_max, status,
      timestamp)]; a threshold is NULL when the metric has none. *)
Record kpi_row : Type := KpiRow {
  row_metric_name : string;
  row_metric_value : Q;
  row_threshold_min : option Q;
  row_threshold_max : option Q;
  row_status : string;
  row_timestamp : Z
}.

(** The row one turn of the loop of [store_kpi_metrics] inserts.
    [thresholds] is [self.alert_thresholds.get(metric_name, {})], whose
    [.get('min')] is [None] when the metric is unknown. *)
Definition stored_row (table : gmap string thresholds) (now : Z)
    (item : string * Q) : kpi_row :=
  let '(name, value) := item in
  let thresholds := table !! name in
  KpiRow name value (option_map thr_min thresholds)
         (option_map thr_max thresholds) "healthy" now.

(** [KPIMonitor.store_kpi_metrics]: one INSERT per item, in order; an INSERT
    that raises ends the loop, the rows stored before it staying in the
    table.  The exception, if any, and the table afterwards. *)
Fixpoint store_kpi_metrics (refused : list kpi_row -> kpi_row -> option string)
    (table : gmap string thresholds) (now : Z)
    (kpis : dict Q) (db : list kpi_row) : option string * list kpi_row :=
  match kpis with
  | [] => (None, db)
  | item :: rest =>
    match Duck.insert refused db (stored_row table now item) with
    | inl e => (Some e, db)
    | inr db' => store_kpi_metrics refused table now rest db'
    end
  end.

(** [KPIMonitor.send_alert] on an alert built by [check_kpi_thresholds], which
    has every key the two transports read: the transports only prepare and log
    their message, so nothing raises and the result is [True].  The settings
    [alert_email] and [alert_webhook] select the transports; an empty string
    counts as unset. *)
Definition configured (setting : option string) : bool :=
  match setting with
  | Some s => negb (String.eqb s "")
  | None => false
  end.

Definition send_alert (alert_email alert_webhook : option string) (a : alert) : bool :=
  let prepared_email := configured alert_email in
  let prepared_webhook := configured alert_webhook in
  true.

(** The summary [monitor_kpis] returns. *)
Record kpi_summary : Type := KpiSummary {
  summary_timestamp : Z;
  kpis_calculated : nat;
  alerts_generated : nat;
  alerts_sent : nat;
  summary_kpis : dict Q;
  summary_alerts : list alert;
  alert_results : list (alert * bool)
}.

(** What a monitor returns: [{'error': ...}] or its summary. *)
Inductive monitor_result (S : Type) : Type :=
| MonitorError (error : string)
| MonitorSummary (summary : S).
Arguments MonitorError {S} error.
Arguments MonitorSummary {S} summary.

(** [sum(1 for r in alert_results if r['sent'])] *)
Definition count_sent (results : list (alert * bool)) : nat :=
  length (List.filter snd results).

(** [monitor_kpis]: the value returned and the table [kpis] afterwards;
    [result] are the rows the query of [calculate_kpis] fetches.  An
    exception of [store_kpi_metrics] is caught and its text returned. *)
Definition monitor_kpis (refused : list kpi_row -> kpi_row -> option string)
    (alert_email alert_webhook : option string) (now : Z)
    (result : list prediction_row) (db : list kpi_row)
    : monitor_result kpi_summary * list kpi_row :=
  match calculate_kpis result with
  | Raised exc => (MonitorError exc, db)
  | Returned kpis =>
    match kpis with
    | [] => (MonitorError "No KPI data available", db)
    | _ :: _ =>
      let alerts := check_kpi_thresholds alert_thresholds now kpis in
      match store_kpi_metrics refused alert_thresholds now kpis db with
      | (Some e, db') => (MonitorError e, db')
      | (None, db') =>
        let results :=
          map (fun a => (a, send_alert alert_email alert_webhook a)) alerts in
        ( MonitorSummary
            (KpiSummary now (length kpis) (length alerts) (count_sent results)
                        kpis alerts results),
          db' )
      end
    end
  end.

(** *** Every rate lies in the unit interval *)

Lemma in_unit_iff (x : Q) : in_unit x = true <-> 0 <= x /\ x <= 1.
Proof.
  unfold in_unit. rewrite andb_true_iff, !Qle_bool_iff. reflexivity.
Qed.

Lemma in_unit_py_round (x : Q) (n : nat) :
  in_unit x = true -> in_unit (py_round x n) = true.
Proof.
  intros H. apply in_unit_iff in H as [H0 H1].
  apply (proj2 (in_unit_iff _)). apply py_round_unit_interval; assumption.
Qed.

Lemma ratio_unit_interval (n d : nat) :
  (n <= d)%nat -> in_unit (ratio n d) = true.
Proof.
  intros Hnd. apply (proj2 (in_unit_iff _)). split; [apply ratio_nonneg|].
  unfold ratio. destruct (0 <? d)%nat eqn:E; [|discriminate].
  apply Nat.ltb_lt in E.
  apply Qle_shift_div_r; [apply of_nat_pos; exact E|].
  rewrite Qmult_1_l. unfold of_nat. rewrite <- Zle_Qle. lia.
Qed.

(** The harmonic mean of two numbers of the unit interval is in it. *)
Lemma f1_unit_interval (P R : Q) :
  in_unit P = true -> in_unit R = true ->
  in_unit (if Qltb 0 (P + R) then 2 * (P * R) / (P + R) else 0) = true.
Proof.
  intros HP HR. apply in_unit_iff in HP as [HP0 HP1], HR as [HR0 HR1].
  destruct (Qltb 0 (P + R)) eqn:E; [|reflexivity].
  apply Qltb_lt in E. apply (proj2 (in_unit_iff _)). split.
  - apply Qle_shift_div_l; [exact E|]. nra.
  - apply Qle_shift_div_r; [exact E|]. nra.
Qed.

Lemma correct_count_le (w : list prediction_row) :
  (correct_count w <= length w)%nat.
Proof. unfold correct_count, count. apply filter_length_le. Qed.

(** X1.  On a non-empty window the result has the eight keys in their order,
    every entry but [total_samples] (accuracy, precision, recall, f1, AUC and
    the two error rates) lies between 0 and 1, and [total_samples] is the
    number of rows. *)
Theorem kpis_in_unit_interval (w : list prediction_row) :
  w <> [] ->
  exists d : dict Q,
    calculate_kpis w = Returned d
    /\ keys d =
       [ "accuracy"; "precision"; "recall"; "f1_score"; "auc_score";
         "false_positive_rate"; "false_negative_rate"; "total_samples" ]%string
    /\ Forall (fun item => String.eqb (fst item) "total_samples" = true
                           \/ in_unit (snd item) = true) d
    /\ dict_get "total_samples" d = Some (of_nat (length w)).
Proof.
  intros Hw. eexists. split; [apply calculate_kpis_nonempty; exact Hw|].
  split; [reflexivity|]. split; [|reflexivity].
  repeat apply List.Forall_cons; try apply List.Forall_nil;
    cbv beta iota delta [fst snd].
  - right. apply in_unit_py_round, ratio_unit_interval, correct_count_le.
  - right. apply in_unit_py_round, ratio_unit_interval. lia.
  - right. apply in_unit_py_round, ratio_unit_interval. lia.
  - right. apply in_unit_py_round. cbv zeta.
    apply f1_unit_interval; apply ratio_unit_interval; lia.
  - right. reflexivity.
  - right. apply in_unit_py_round, ratio_unit_interval. lia.
  - right. apply in_unit_py_round, ratio_unit_interval. lia.
  - left. reflexivity.
Qed.

Lemma kpis_in_unit_interval_witness :
  exists d : dict Q,
    calculate_kpis thirds_window = Returned d
    /\ Forall (fun item => String.eqb (fst item) "total_samples" = true
                           \/ in_unit (snd item) = true) d.
Proof.
  assert (Hne : thirds_window <> []) by discriminate.
  destruct (kpis_in_unit_interval thirds_window Hne) as (d & Hd & _ & Hall & _).
  exists d. split; assumption.
Defined.

(** *** The result depends on the multiset of label pairs only *)

Lemma count_labels (mask : bool * bool -> bool) (w : list prediction_row) :
  count (fun r => mask (labels r)) w = count mask (map labels w).
Proof.
  unfold count. induction w as [|r w IH]; [reflexivity|].
  cbn [List.filter map]. destruct (mask (labels r)); cbn [length]; rewrite IH; reflexivity.
Qed.

Lemma count_Permutation {A : Type} (mask : A -> bool) (l l' : list A) :
  Permutation l l' -> count mask l = count mask l'.
Proof.
  unfold count. induction 1 as [|x l l' _ IH|x y l|l l' l'' _ IH1 _ IH2].
  - reflexivity.
  - cbn [List.filter]. destruct (mask x); cbn [length]; rewrite IH; reflexivity.
  - cbn [List.filter]. destruct (mask x), (mask y); reflexivity.
  - rewrite IH1. exact IH2.
Qed.

(** X2.  The result of [calculate_kpis] does not depend on the order of the
    rows nor on their probabilities: two windows whose label pairs are the
    same up to order give the same result. *)
Theorem calculate_kpis_order_independent (w w' : list prediction_row) :
  Permutation (map labels w) (map labels w') ->
  calculate_kpis w = calculate_kpis w'.
Proof.
  intros Hperm.
  assert (Hcount : forall mask : bool * bool -> bool,
            count (fun r => mask (labels r)) w = count (fun r => mask (labels r)) w').
  { intros mask. rewrite !count_labels. apply count_Permutation. exact Hperm. }
  assert (Hlen : length w = length w').
  { rewrite <- (length_map labels w), <- (length_map labels w').
    apply Permutation_length. exact Hperm. }
  assert (Hcorrect : correct_count w = correct_count w')
    by exact (Hcount (fun ap => Bool.eqb (fst ap) (snd ap))).
  assert (Htp : tp_count w = tp_count w')
    by exact (Hcount (fun ap => is1 (fst ap) && is1 (snd ap))).
  assert (Hfp : fp_count w = fp_count w')
    by exact (Hcount (fun ap => is0 (fst ap) && is1 (snd ap))).
  assert (Htn : tn_count w = tn_count w')
    by exact (Hcount (fun ap => is0 (fst ap) && is0 (snd ap))).
  assert (Hfn : fn_count w = fn_count w')
    by exact (Hcount (fun ap => is1 (fst ap) && is0 (snd ap))).
  destruct w as [|r w], w' as [|r' w']; try discriminate Hlen; [reflexivity|].
  rewrite !calculate_kpis_nonempty by discriminate.
  rewrite Hcorrect, Htp, Hfp, Htn, Hfn, Hlen. reflexivity.
Qed.

Lemma calculate_kpis_order_independent_witness :
  calculate_kpis thirds_window =
  calculate_kpis [ PredictionRow false true 0.1; PredictionRow true true 0.2;
                   PredictionRow true false 0.3 ].
Proof.
  apply calculate_kpis_order_independent. cbn [map thirds_window labels actual predicted].
  apply perm_trans with (l' := [(true, true); (false, true); (true, false)]).
  - apply perm_skip. apply perm_swap.
  - apply perm_swap.
Defined.

(** *** Which metrics raise alerts under the installed table *)

(** The alerts are the flagged items, for any table. *)
Lemma check_kpi_thresholds_flagged (table : gmap string thresholds) (now : Z)
    (kpis : dict Q) :
  map (fun a => (metric_name a, current_value a)) (check_kpi_thresholds table now kpis) =
  List.filter (flagged table) kpis.
Proof.
  induction kpis as [|item kpis IH]; [reflexivity|].
  rewrite (check_kpi_thresholds_cons table now), map_app, IH.
  destruct (check_one_flagged table now item) as [Hmap _]. rewrite Hmap.
  cbn [List.filter]. destruct (flagged table item); reflexivity.
Qed.

Lemma alert_names (table : gmap string thresholds) (now : Z) (kpis : dict Q) :
  map metric_name (check_kpi_thresholds table now kpis) =
  keys (List.filter (flagged table) kpis).
Proof.
  unfold keys. rewrite <- (check_kpi_thresholds_flagged table now), map_map.
  reflexivity.
Qed.

Lemma classify_critical_above_max (value : Q) (t : thresholds) :
  thr_max t < thr_critical t ->
  classify value t =
    (if Qltb value (thr_critical t) then ("critical"%string, "high"%string)
     else ("warning"%string, "medium"%string)).
Proof.
  intros Hmc. unfold classify.
  destruct (Qltb value (thr_critical t)) eqn:Ec; [reflexivity|].
  destruct (Qltb value (thr_min t)); [reflexivity|].
  apply Qltb_ge in Ec.
  assert (Hgt : Qgtb value (thr_max t) = true).
  { unfold Qgtb. apply Qltb_lt. eapply Qlt_le_trans; eassumption. }
  rewrite Hgt. reflexivity.
Qed.

(** X3.  Thresholds whose critical bound lies above their [max] classify no
    value as "healthy": a value below the critical bound is "critical" and
    any other value is a "warning"; the installed thresholds of the two error
    rates are of this kind. *)
Theorem critical_above_max_never_healthy (value : Q) (t : thresholds) :
  thr_max t < thr_critical t ->
  classify value t =
    (if Qltb value (thr_critical t) then ("critical"%string, "high"%string)
     else ("warning"%string, "medium"%string))
  /\ String.eqb (fst (classify value t)) "healthy" = false
  /\ (exists t1 t2 : thresholds,
        alert_thresholds !! "false_positive_rate"%string = Some t1
        /\ alert_thresholds !! "false_negative_rate"%string = Some t2
        /\ thr_max t1 < thr_critical t1 /\ thr_max t2 < thr_critical t2).
Proof.
  intros Hmc. pose proof (classify_critical_above_max value t Hmc) as Hc.
  split; [exact Hc|]. split.
  - rewrite Hc. destruct (Qltb value (thr_critical t)); reflexivity.
  - exists (Thresholds 0.0 0.1 0.15), (Thresholds 0.0 0.2 0.25).
    repeat split; vm_compute; reflexivity.
Qed.

Lemma critical_above_max_never_healthy_witness :
  classify 0 fpr_thresholds = ("critical"%string, "high"%string).
Proof.
  apply (critical_above_max_never_healthy 0 fpr_thresholds). reflexivity.
Defined.

Lemma rate_flagged (value : Q) (t : thresholds) :
  thr_max t < thr_critical t ->
  negb (String.eqb (fst (classify value t)) "healthy") = true.
Proof.
  intros H. rewrite (classify_critical_above_max value t H).
  destruct (Qltb value (thr_critical t)); reflexivity.
Qed.

Lemma installed_thresholds :
  alert_thresholds !! "accuracy"%string = Some (Thresholds 0.85 1.0 0.80)
  /\ alert_thresholds !! "precision"%string = Some (Thresholds 0.80 1.0 0.75)
  /\ alert_thresholds !! "recall"%string = Some (Thresholds 0.75 1.0 0.70)
  /\ alert_thresholds !! "f1_score"%string = Some (Thresholds 0.80 1.0 0.75)
  /\ alert_thresholds !! "auc_score"%string = Some (Thresholds 0.85 1.0 0.80)
  /\ alert_thresholds !! "false_positive_rate"%string = Some (Thresholds 0.0 0.1 0.15)
  /\ alert_thresholds !! "false_negative_rate"%string = Some (Thresholds 0.0 0.2 0.25)
  /\ alert_thresholds !! "total_samples"%string = None.
Proof. repeat split; vm_compute; reflexivity. Qed.

(** X4.  Under the installed table every non-empty window raises an alert for
    [false_positive_rate] and one for [false_negative_rate], whatever the
    rates are (a perfect classifier included), and never one for [auc_score]
    or [total_samples]; so at least two alerts are raised. *)
Theorem error_rates_always_alert (now : Z) (w : list prediction_row) :
  w <> [] ->
  exists d : dict Q,
    calculate_kpis w = Returned d
    /\ In "false_positive_rate"%string
          (map metric_name (check_kpi_thresholds alert_thresholds now d))
    /\ In "false_negative_rate"%string
          (map metric_name (check_kpi_thresholds alert_thresholds now d))
    /\ existsb (String.eqb "auc_score")
          (map metric_name (check_kpi_thresholds alert_thresholds now d)) = false
    /\ existsb (String.eqb "total_samples")
          (map metric_name (check_kpi_thresholds alert_thresholds now d)) = false
    /\ (2 <= length (check_kpi_thresholds alert_thresholds now d))%nat.
Proof.
  intros Hw. eexists. split; [apply calculate_kpis_nonempty; exact Hw|].
  rewrite <- (length_map metric_name), alert_names.
  destruct installed_thresholds as (Ha & Hp & Hr & Hf & Hauc & Hfpr & Hfnr & Htot).
  cbn [List.filter]. unfold flagged. cbn [fst snd].
  rewrite Ha, Hp, Hr, Hf, Hauc, Hfpr, Hfnr, Htot.
  rewrite (rate_flagged _ (Thresholds 0.0 0.1 0.15)),
          (rate_flagged _ (Thresholds 0.0 0.2 0.25)) by reflexivity.
  replace (negb (String.eqb (fst (classify (py_round 0.85 4) (Thresholds 0.85 1.0 0.80)))
                            "healthy")) with false by reflexivity.
  repeat match goal with
         | |- context [negb ?b] => destruct (negb b)
         end;
    cbn [keys map fst In existsb length String.eqb Ascii.eqb Bool.eqb orb];
    repeat split; auto 10; lia.
Qed.

(** A window on which every prediction is correct. *)
Definition perfect_window : list prediction_row :=
  [ PredictionRow true true 0.99; PredictionRow false false 0.01 ].

Lemma error_rates_always_alert_witness :
  map (fun a => (metric_name a, status a))
      (check_kpi_thresholds alert_thresholds 0
         [ ("accuracy"%string, 1); ("precision"%string, 1); ("recall"%string, 1);
           ("f1_score"%string, 1); ("auc_score"%string, 17 # 20);
           ("false_positive_rate"%string, 0); ("false_negative_rate"%string, 0);
           ("total_samples"%string, 2) ]) =
    [ ("false_positive_rate"%string, "critical"%string);
      ("false_negative_rate"%string, "critical"%string) ]
  /\ exists d : dict Q,
       calculate_kpis perfect_window = Returned d
       /\ (2 <= length (check_kpi_thresholds alert_thresholds 0 d))%nat.
Proof.
  split; [vm_compute; reflexivity|].
  assert (Hne : perfect_window <> []) by discriminate.
  destruct (error_rates_always_alert 0 perfect_window Hne) as (d & Hd & _ & _ & _ & _ & Hlen).
  exists d. split; assumption.
Defined.

(** *** Storage and the monitor *)

(** [store_kpi_metrics] inserts one row per item, in order. *)
Lemma store_kpi_metrics_inserts (refused : list kpi_row -> kpi_row -> option string)
    (table : gmap string thresholds) (now : Z)
    (kpis : dict Q) (db : list kpi_row) :
  store_kpi_metrics refused table now kpis db =
  Duck.insert_all refused (map (stored_row table now) kpis) db.
Proof.
  revert db. induction kpis as [|item kpis IH]; intros db; [reflexivity|].
  cbn [store_kpi_metrics map Duck.insert_all].
  destruct (Duck.insert refused db (stored_row table now item)); [reflexivity|].
  apply IH.
Qed.

(** Under the installed table a window raises between two and six alerts. *)
Lemma window_alert_count (now : Z) (w : list prediction_row) (d : dict Q) :
  w <> [] -> calculate_kpis w = Returned d ->
  (2 <= length (check_kpi_thresholds alert_thresholds now d) <= 6)%nat.
Proof.
  intros Hw Hd. rewrite (calculate_kpis_nonempty w Hw) in Hd.
  injection Hd as <-.
  rewrite <- (length_map metric_name), alert_names.
  destruct installed_thresholds as (Ha & Hp & Hr & Hf & Hauc & Hfpr & Hfnr & Htot).
  cbn [List.filter]. unfold flagged. cbn [fst snd].
  rewrite Ha, Hp, Hr, Hf, Hauc, Hfpr, Hfnr, Htot.
  rewrite (rate_flagged _ (Thresholds 0.0 0.1 0.15)),
          (rate_flagged _ (Thresholds 0.0 0.2 0.25)) by reflexivity.
  replace (negb (String.eqb (fst (classify (py_round 0.85 4) (Thresholds 0.85 1.0 0.80)))
                            "healthy")) with false by reflexivity.
  repeat match goal with
         | |- context [negb ?b] => destruct (negb b)
         end;
    cbn [keys map length]; lia.
Qed.

Lemma count_sent_all (alert_email alert_webhook : option string) (alerts : list alert) :
  count_sent (map (fun a => (a, send_alert alert_email alert_webhook a)) alerts) =
  length alerts.
Proof.
  unfold count_sent. induction alerts as [|a alerts IH]; [reflexivity|].
  cbn [map List.filter snd send_alert length]. rewrite IH. reflexivity.
Qed.



End KpiMonitor.

(** ** More of [drift.py]: covariate drift, storage and the monitor *)

Module DriftMonitor.
Import Numeric Py Drift.

(** The exceptions the monitors meet, with the text [str(e)] gives. *)
Inductive exn : Type :=
| KeyError (key : string)
| OtherError (text : string).

Definition str_exn (e : exn) : string :=
  match e with
  | KeyError key => ("'" ++ key ++ "'")%string
  | OtherError text => text
  end.

(** [d[key]], which raises [KeyError(key)] when the key is missing. *)
Definition getitem (d : dict value) (key : string) : exn + value :=
  match dict_get key d with
  | Some v => inr v
  | None => inl (KeyError key)
  end.

(** [d.get(key, default)] *)
Definition get_default (d : dict value) (key : string) (default : value) : value :=
  match dict_get key d with
  | Some v => v
  | None => default
  end.

(** [d[key] = v]: the value of an existing key is replaced where it stands, a
    new key goes to the end. *)
Fixpoint dict_set (key : string) (v : value) (d : dict value) : dict value :=
  match d with
  | [] => [(key, v)]
  | (k, v') :: d' =>
    if String.eqb key k then (k, v) :: d' else (k, v') :: dict_set key v d'
  end.

(** [DriftDetector.detect_covariate_drift], from the fetched rows on:
    [baseline_result] are the rows [load_baseline_data] fetches (its data
    frame is empty when there are none) and [current_result] the rows of the
    current window. *)
Definition detect_covariate_drift (ks_2samp : list Q -> list Q -> Q * Q)
    (drift_threshold : Q) (baseline_result current_result : list transaction_row)
    (feature_name : string) : outcome (dict value) :=
  let baseline_data := baseline_result in
  match current_result with
  | [] => Returned (no_drift "covariate")
  | _ :: _ =>
    let current_data := current_result in
    bind (detect_statistical_drift ks_2samp drift_threshold
            baseline_data current_data feature_name)
         (fun drift_result =>
            Returned (dict_set "drift_type" (VStr "covariate") drift_result))
  end.

(** A row of the table [drift_detection]. *)
Record drift_row : Type := DriftRow {
  row_feature_name : value;
  row_drift_score : value;
  row_p_value : value;
  row_drift_detected : value;
  row_drift_type : value;
  row_severity : value;
  row_timestamp : Z
}.

(** [DriftDetector.store_drift_metrics]: the table after the INSERT, or the
    exception raised while the parameters of the INSERT are built (no INSERT
    is attempted then) or by the INSERT itself; the table is then as it
    was. *)
Definition store_drift_metrics (refused : list drift_row -> drift_row -> option string)
    (now : Z) (drift_data : dict value)
    (db : list drift_row) : exn + list drift_row :=
  match getitem drift_data "feature_name" with
  | inl e => inl e
  | inr feature =>
    match getitem drift_data "drift_score" with
    | inl e => inl e
    | inr score =>
      match getitem drift_data "p_value" with
      | inl e => inl e
      | inr p =>
        match getitem drift_data "drift_detected" with
        | inl e => inl e
        | inr detected =>
          match Duck.insert refused db
                  (DriftRow feature score p detected
                     (get_default drift_data "drift_type" (VStr "unknown"))
                     (get_default drift_data "severity" (VStr "low"))
                     now) with
          | inl e => inl (OtherError e)
          | inr db' => inr db'
          end
        end
      end
    end
  end.

(** The summary [monitor_drift] returns. *)
Record drift_summary : Type := DriftSummary {
  summary_timestamp : Z;
  features_monitored : nat;
  total_drift_events : nat;
  high_severity_events : nat;
  drift_results : list (dict value)
}.

(** The features [monitor_drift] goes through. *)
Definition features : list string :=
  [ "transaction_amount"; "transaction_frequency"; "user_behavior_score" ]%string.

(** The truth value of [d['drift_detected']] and the test
    [d.get('severity') == 'high']. *)
Definition detected (d : dict value) : bool :=
  match dict_get "drift_detected" d with
  | Some (VBool b) => b
  | _ => false
  end.
Definition high_severity (d : dict value) : bool :=
  match dict_get "severity" d with
  | Some (VStr s) => String.eqb s "high"
  | _ => false
  end.

Section Monitor.

Variable ks_2samp : list Q -> list Q -> Q * Q.
Variable drift_threshold : Q.
Variable now : Z.
Variable refused : list drift_row -> drift_row -> option string.

(** What the three queries fetch; the feature name takes no part in them. *)
Variable hourly_result : list accuracy_row.
Variable baseline_result current_result : list transaction_row.

(** The state of the loop of [monitor_drift]: the table and the results so
    far, or the exception that ended the loop with the table as it then
    was. *)
Definition loop_state : Type :=
  (exn * list drift_row) + (list drift_row * list (dict value)).

Definition as_exn {A : Type} (o : outcome A) : exn + A :=
  match o with
  | Returned a => inr a
  | Raised exc => inl (OtherError exc)
  end.

(** One turn of the loop: both detections, then both INSERTs. *)
Definition monitor_feature (st : loop_state) (feature : string) : loop_state :=
  match st with
  | inl failure => inl failure
  | inr (db, results) =>
    match as_exn (detect_concept_drift hourly_result feature) with
    | inl e => inl (e, db)
    | inr concept_drift =>
      match as_exn (detect_covariate_drift ks_2samp drift_threshold
                      baseline_result current_result feature) with
      | inl e => inl (e, db)
      | inr covariate_drift =>
        match store_drift_metrics refused now concept_drift db with
        | inl e => inl (e, db)
        | inr db1 =>
          match store_drift_metrics refused now covariate_drift db1 with
          | inl e => inl (e, db1)
          | inr db2 => inr (db2, results ++ [concept_drift; covariate_drift])
          end
        end
      end
    end
  end.

(** [monitor_drift]: what it returns and the table [drift_detection]
    afterwards. *)
Definition monitor_drift (db : list drift_row)
    : KpiMonitor.monitor_result drift_summary * list drift_row :=
  match fold_left monitor_feature features (inr (db, [])) with
  | inl (e, db') => (KpiMonitor.MonitorError (str_exn e), db')
  | inr (db', results) =>
    ( KpiMonitor.MonitorSummary
        (DriftSummary now (length features)
           (length (List.filter detected results))
           (length (List.filter high_severity results))
           results),
      db' )
  end.

End Monitor.

(** *** Assignment to a key *)

Lemma dict_get_set_eq (key : string) (v : value) (d : dict value) :
  dict_get key (dict_set key v d) = Some v.
Proof.
  induction d as [|[k v'] d IH]; cbn [dict_set dict_get].
  - rewrite String.eqb_refl. reflexivity.
  - destruct (String.eqb key k) eqn:E; cbn [dict_get]; rewrite E; [reflexivity | exact IH].
Qed.

Lemma dict_get_set_ne (key key' : string) (v : value) (d : dict value) :
  String.eqb key' key = false ->
  dict_get key' (dict_set key v d) = dict_get key' d.
Proof.
  intros Hne. induction d as [|[k v'] d IH]; cbn [dict_set dict_get].
  - rewrite Hne. reflexivity.
  - destruct (String.eqb key k) eqn:E; cbn [dict_get].
    + apply String.eqb_eq in E. subst k. rewrite Hne. reflexivity.
    + rewrite IH. reflexivity.
Qed.

Lemma keys_set_present (key : string) (v v0 : value) (d : dict value) :
  dict_get key d = Some v0 -> keys (dict_set key v d) = keys d.
Proof.
  unfold keys. induction d as [|[k v'] d IH]; cbn [dict_set dict_get map]; [discriminate|].
  destruct (String.eqb key k) eqn:E; intros H; cbn [map fst].
  - reflexivity.
  - rewrite IH by exact H. reflexivity.
Qed.

Lemma statistical_has_type (ks_2samp : list Q -> list Q -> Q * Q)
    (drift_threshold : Q) (baseline current : list transaction_row)
    (feature_name : string) :
  exists (s : dict value) (v0 : value),
    detect_statistical_drift ks_2samp drift_threshold baseline current feature_name =
      Returned s
    /\ dict_get "drift_type" s = Some v0.
Proof.
  unfold detect_statistical_drift.
  destruct (empty baseline || empty current).
  - eexists. eexists. split; reflexivity.
  - destruct (ks_2samp (map amount baseline) (map amount current)) as [D p].
    eexists. eexists. split; reflexivity.
Qed.

(** X6.  Covariate drift is the statistical comparison of the two samples
    with its [drift_type] replaced by "covariate" and every other entry and
    the order of the keys kept; this holds also when a sample is empty, so the
    marker "insufficient_data" never appears in a covariate result. *)
Theorem detect_covariate_drift_relabels (ks_2samp : list Q -> list Q -> Q * Q)
    (drift_threshold : Q) (baseline_result current_result : list transaction_row)
    (feature_name : string) :
  exists s r : dict value,
    detect_statistical_drift ks_2samp drift_threshold
      baseline_result current_result feature_name = Returned s
    /\ detect_covariate_drift ks_2samp drift_threshold
         baseline_result current_result feature_name = Returned r
    /\ r = dict_set "drift_type" (VStr "covariate") s
    /\ dict_get "drift_type" r = Some (VStr "covariate")
    /\ keys r = keys s
    /\ (forall key : string, String.eqb key "drift_type" = false ->
          dict_get key r = dict_get key s).
Proof.
  destruct (statistical_has_type ks_2samp drift_threshold baseline_result
              current_result feature_name) as (s & v0 & Hs & Htype).
  exists s, (dict_set "drift_type" (VStr "covariate") s).
  split; [exact Hs|]. split.
  - unfold detect_covariate_drift. destruct current_result as [|c cs].
    + unfold detect_statistical_drift in Hs. rewrite orb_true_r in Hs.
      injection Hs as <-. reflexivity.
    + rewrite Hs. reflexivity.
  - split; [reflexivity|]. split; [apply dict_get_set_eq|].
    split; [eapply keys_set_present; exact Htype|].
    intros key Hkey. apply dict_get_set_ne. exact Hkey.
Qed.

Lemma detect_covariate_drift_relabels_witness :
  exists r : dict value,
    detect_covariate_drift ks_exact 0.1 [] (amounts [100; 200]) "amount" = Returned r
    /\ dict_get "drift_type" r = Some (VStr "covariate")
    /\ dict_get "drift_score" r = Some (VFloat 0)
    /\ dict_get "severity" r = None.
Proof.
  destruct (detect_covariate_drift_relabels ks_exact 0.1 [] (amounts [100; 200]) "amount")
    as (s & r & Hs & Hr & _ & Htype & _ & Hother).
  exists r. split; [exact Hr|]. split; [exact Htype|].
  rewrite !Hother by reflexivity.
  vm_compute in Hs. injection Hs as <-. split; reflexivity.
Defined.

(** *** Rounding against the grid of decimals *)

(** A bound that is itself a multiple of [10^-n] survives [round(x, n)]. *)
Lemma py_round_le_grid (x : Q) (n : nat) (k : Z) :
  x <= inject_Z k / inject_Z (pow10 n) ->
  py_round x n <= inject_Z k / inject_Z (pow10 n).
Proof.
  intros Hx. pose proof (inject_pow10_pos n) as HP.
  unfold py_round. rewrite Qred_correct.
  set (P := inject_Z (pow10 n)) in *.
  assert (Hk : (round_half_even (x * P) <= k)%Z).
  { apply round_half_even_le_int.
    apply Qmult_le_r with (z := / P); [apply Qinv_lt_0_compat; exact HP|].
    rewrite <- Qmult_assoc, Qmult_inv_r, Qmult_1_r by lra. exact Hx. }
  rewrite Zle_Qle in Hk.
  apply Qmult_le_r with (z := P); [exact HP|].
  unfold Qdiv. rewrite <- !Qmult_assoc, (Qmult_comm (/ P)), Qmult_inv_r, !Qmult_1_r by lra.
  exact Hk.
Qed.

Lemma py_round_ge_grid (x : Q) (n : nat) (k : Z) :
  inject_Z k / inject_Z (pow10 n) <= x ->
  inject_Z k / inject_Z (pow10 n) <= py_round x n.
Proof.
  intros Hx. pose proof (inject_pow10_pos n) as HP.
  unfold py_round. rewrite Qred_correct.
  set (P := inject_Z (pow10 n)) in *.
  assert (Hk : (k <= round_half_even (x * P))%Z).
  { apply Z.le_trans with (m := Qfloor (x * P)); [|apply round_half_even_floor].
    rewrite <- (Qfloor_Z k). apply Qfloor_resp_le.
    apply Qmult_le_r with (z := / P); [apply Qinv_lt_0_compat; exact HP|].
    rewrite <- (Qmult_assoc x), Qmult_inv_r, Qmult_1_r by lra. exact Hx. }
  rewrite Zle_Qle in Hk.
  apply Qmult_le_r with (z := P); [exact HP|].
  unfold Qdiv. rewrite <- !Qmult_assoc, (Qmult_comm (/ P)), Qmult_inv_r, !Qmult_1_r by lra.
  exact Hk.
Qed.

(** *** Concept drift: score, flag, severity and p-value agree *)

(** A bucket whose number of correct predictions is between 0 and its number
    of predictions, as the query's counters are. *)
Definition valid_bucket (row : accuracy_row) : bool :=
  (0 <=? correct_predictions row)%Z && (correct_predictions row <=? total_predictions row)%Z.

Definition unit_Q (x : Q) : Prop := 0 <= x /\ x <= 1.

Lemma Qsum_unit_bounds (l : list Q) :
  Forall unit_Q l -> 0 <= Qsum l /\ Qsum l <= of_nat (length l).
Proof.
  induction 1 as [|x l [Hx0 Hx1] _ [IH0 IH1]]; cbn [Qsum fold_right length].
  - split; discriminate.
  - fold (Qsum l). unfold of_nat in *.
    rewrite Nat2Z.inj_succ, <- Z.add_1_r, inject_Z_plus.
    change (inject_Z 1) with 1. split; lra.
Qed.

Lemma mean_unit (l : list Q) : l <> [] -> Forall unit_Q l -> unit_Q (mean l).
Proof.
  intros Hne Hall. destruct (Qsum_unit_bounds l Hall) as [H0 H1].
  assert (Hpos : 0 < of_nat (length l)).
  { apply of_nat_pos. destruct l; [congruence | cbn; lia]. }
  unfold mean. split.
  - apply Qle_shift_div_l; [exact Hpos | lra].
  - apply Qle_shift_div_r; [exact Hpos | lra].
Qed.

Lemma last_unit (l : list Q) : l <> [] -> Forall unit_Q l -> unit_Q (List.last l 0).
Proof.
  intros Hne Hall. rewrite (app_removelast_last 0 Hne) in Hall.
  apply Forall_app in Hall as [_ Hlast]. inversion Hlast; assumption.
Qed.

Lemma bucket_accuracies_unit (result : list accuracy_row) :
  Forall (fun row => valid_bucket row = true) result ->
  Forall unit_Q (bucket_accuracies result).
Proof.
  induction 1 as [|row result Hrow _ IH]; cbn [bucket_accuracies]; [constructor|].
  destruct (0 <? total_predictions row)%Z eqn:Epos; [|exact IH].
  constructor; [|exact IH].
  apply Z.ltb_lt in Epos. unfold valid_bucket in Hrow.
  apply andb_true_iff in Hrow as [Hc0 Hct].
  apply Z.leb_le in Hc0, Hct.
  assert (HT : 0 < inject_Z (total_predictions row)).
  { change 0 with (inject_Z 0). rewrite <- Zlt_Qlt. exact Epos. }
  rewrite Zle_Qle in Hc0, Hct. change (inject_Z 0) with 0 in Hc0.
  split.
  - apply Qle_shift_div_l; [exact HT | lra].
  - apply Qle_shift_div_r; [exact HT | lra].
Qed.

(** The two means of [detect_concept_drift] lie in the unit interval. *)
Lemma concept_means_unit (accs : list Q) :
  Forall unit_Q accs -> (2 <= length accs)%nat ->
  unit_Q (if (4 <=? length accs)%nat then mean (last_n 4 accs)
          else List.last accs 0)
  /\ unit_Q (if (8 <=? length accs)%nat then mean (drop_last_n 4 accs)
             else mean accs).
Proof.
  intros Hall Hlen.
  assert (Hne : accs <> []) by (destruct accs; [cbn in Hlen; lia | discriminate]).
  split.
  - destruct (4 <=? length accs)%nat eqn:E4; [|apply last_unit; assumption].
    apply Nat.leb_le in E4.
    destruct (slices_partition 4 accs E4) as (_ & Hl & _).
    apply mean_unit; [|apply Forall_drop; exact Hall].
    intros Hnil. rewrite Hnil in Hl. discriminate Hl.
  - destruct (8 <=? length accs)%nat eqn:E8; [|apply mean_unit; assumption].
    apply Nat.leb_le in E8.
    destruct (slices_partition 4 accs ltac:(lia)) as (_ & _ & Hl).
    apply mean_unit; [|apply Forall_take; exact Hall].
    intros Hnil. rewrite Hnil in Hl. cbn [length] in Hl. lia.
Qed.

(** X7.  With at least two buckets whose counters are valid, the concept
    drift result is consistent: the score lies between 0 and 1; when drift is
    detected the score is at least 0.05, the severity is "medium" or "high"
    and the p-value is 0.01; when it is not, the score is at most 0.05, the
    severity is "low" and the p-value is 0.5. *)
Theorem detect_concept_drift_consistent (result : list accuracy_row)
    (feature_name : string) :
  Forall (fun row => valid_bucket row = true) result ->
  (2 <= length (bucket_accuracies result))%nat ->
  exists (r : dict value) (score p : Q) (flag : bool) (sev : string),
    detect_concept_drift result feature_name = Returned r
    /\ dict_get "drift_score" r = Some (VFloat score)
    /\ dict_get "p_value" r = Some (VFloat p)
    /\ dict_get "drift_detected" r = Some (VBool flag)
    /\ dict_get "severity" r = Some (VStr sev)
    /\ dict_get "feature_name" r = Some (VStr feature_name)
    /\ KpiMonitor.in_unit score = true
    /\ (if flag
        then Qle_bool 0.05 score
             && (String.eqb sev "medium" || String.eqb sev "high")
             && Qeq_bool p 0.01
        else Qle_bool score 0.05 && String.eqb sev "low" && Qeq_bool p 0.5) = true.
Proof.
  intros Hvalid Hlen.
  pose proof (bucket_accuracies_unit result Hvalid) as Hall.
  unfold detect_concept_drift.
  destruct result as [|row rest]; [cbn in Hlen; lia|].
  set (accs := bucket_accuracies (row :: rest)) in *.
  destruct (length accs <? 2)%nat eqn:E2; [apply Nat.ltb_lt in E2; lia|].
  destruct (concept_means_unit accs Hall Hlen) as [[Hr0 Hr1] [Hb0 Hb1]].
  set (recent := if (4 <=? length accs)%nat then mean (last_n 4 accs)
                 else List.last accs 0) in *.
  set (baseline := if (8 <=? length accs)%nat then mean (drop_last_n 4 accs)
                   else mean accs) in *.
  set (drop := baseline - recent).
  do 5 eexists. split; [reflexivity|].
  cbn [dict_get String.eqb Ascii.eqb Bool.eqb].
  do 5 (split; [reflexivity|]).
  assert (Hmax : 0 <= py_max0 drop /\ py_max0 drop <= 1).
  { unfold py_max0. destruct (Qltb 0 drop) eqn:E0.
    - apply Qltb_lt in E0. unfold drop in *. split; lra.
    - split; discriminate. }
  split.
  - apply (proj2 (KpiMonitor.in_unit_iff _)).
    apply py_round_unit_interval; apply Hmax.
  - assert (Hgrid : inject_Z 500 / inject_Z (pow10 4) == 0.05) by reflexivity.
    unfold Qgtb. destruct (Qltb 0.05 drop) eqn:Edet.
    + apply Qltb_lt in Edet.
      assert (E0 : Qltb 0 drop = true) by (apply Qltb_lt; lra).
      unfold py_max0. rewrite E0.
      assert (Hscore : 0.05 <= py_round drop 4).
      { rewrite <- Hgrid. apply py_round_ge_grid. rewrite Hgrid. lra. }
      apply Qle_bool_iff in Hscore. rewrite Hscore.
      destruct (Qltb 0.1 drop); reflexivity.
    + apply Qltb_ge in Edet.
      assert (Hscore : py_round (py_max0 drop) 4 <= 0.05).
      { rewrite <- Hgrid. apply py_round_le_grid. rewrite Hgrid.
        unfold py_max0. destruct (Qltb 0 drop); [exact Edet | discriminate]. }
      apply Qle_bool_iff in Hscore. rewrite Hscore.
      assert (E1 : Qltb 0.1 drop = false) by (apply Qltb_ge; lra).
      rewrite E1. reflexivity.
Qed.

Lemma detect_concept_drift_consistent_witness :
  exists (r : dict value) (score : Q),
    detect_concept_drift (hourly [100; 100; 100; 100; 80; 80; 80; 80]%Z) "amount" = Returned r
    /\ dict_get "drift_score" r = Some (VFloat score)
    /\ KpiMonitor.in_unit score = true.
Proof.
  destruct (detect_concept_drift_consistent
              (hourly [100; 100; 100; 100; 80; 80; 80; 80]%Z) "amount")
    as (r & score & p & flag & sev & Hr & Hscore & _ & _ & _ & _ & Hunit & _).
  - repeat constructor.
  - cbn. lia.
  - exists r, score. repeat split; assumption.
Defined.

(** *** Storing results, and the monitor *)

(** A result without [feature_name] cannot be stored, and no INSERT is
    attempted for it. *)
Lemma store_without_feature_name (refused : list drift_row -> drift_row -> option string)
    (now : Z) (d : dict value) (db : list drift_row) :
  dict_get "feature_name" d = None ->
  store_drift_metrics refused now d db = inl (KeyError "feature_name").
Proof.
  intros H. unfold store_drift_metrics, getitem. rewrite H. reflexivity.
Qed.

(** The row of a result that has the four keys the INSERT reads. *)
Definition row_of (now : Z) (d : dict value) (feature score p flag : value) : drift_row :=
  DriftRow feature score p flag
           (get_default d "drift_type" (VStr "unknown"))
           (get_default d "severity" (VStr "low")) now.

(** A result with the four keys goes to the INSERT as one row. *)
Lemma store_with_keys (refused : list drift_row -> drift_row -> option string)
    (now : Z) (d : dict value) (db : list drift_row)
    (feature score p flag : value) :
  dict_get "feature_name" d = Some feature ->
  dict_get "drift_score" d = Some score ->
  dict_get "p_value" d = Some p ->
  dict_get "drift_detected" d = Some flag ->
  store_drift_metrics refused now d db =
    match refused db (row_of now d feature score p flag) with
    | Some e => inl (OtherError e)
    | None => inr (db ++ [row_of now d feature score p flag])
    end.
Proof.
  intros Hf Hs Hp Hd. unfold store_drift_metrics, getitem, Duck.insert, row_of.
  rewrite Hf, Hs, Hp, Hd.
  match goal with |- context [refused ?t ?r] => destruct (refused t r) end; reflexivity.
Qed.

(** The concept drift result has a [feature_name] exactly when there are at
    least two buckets. *)
Lemma concept_result_keys (result : list accuracy_row) (feature_name : string) :
  exists r : dict value,
    detect_concept_drift result feature_name = Returned r
    /\ dict_get "drift_type" r = Some (VStr "concept")
    /\ (exists score p flag,
          dict_get "drift_score" r = Some score
          /\ dict_get "p_value" r = Some p
          /\ dict_get "drift_detected" r = Some flag)
    /\ dict_get "feature_name" r =
       (if (length (bucket_accuracies result) <? 2)%nat then None
        else Some (VStr feature_name)).
Proof.
  unfold detect_concept_drift. destruct result as [|row rest].
  - eexists. split; [reflexivity|]. split; [reflexivity|].
    split; [do 3 eexists; repeat split|reflexivity].
  - destruct (length (bucket_accuracies (row :: rest)) <? 2)%nat.
    + eexists. split; [reflexivity|]. split; [reflexivity|].
      split; [do 3 eexists; repeat split|reflexivity].
    + eexists. split; [reflexivity|]. split; [reflexivity|].
      split; [do 3 eexists; repeat split|reflexivity].
Qed.


Lemma covariate_result_keys (ks_2samp : list Q -> list Q -> Q * Q)
    (drift_threshold : Q) (baseline current : list transaction_row)
    (feature_name : string) :
  exists r : dict value,
    detect_covariate_drift ks_2samp drift_threshold baseline current feature_name =
      Returned r
    /\ dict_get "drift_type" r = Some (VStr "covariate")
    /\ (exists score p flag,
          dict_get "drift_score" r = Some score
          /\ dict_get "p_value" r = Some p
          /\ dict_get "drift_detected" r = Some flag)
    /\ dict_get "feature_name" r =
       (if empty baseline || empty current then None else Some (VStr feature_name)).
Proof.
  unfold detect_covariate_drift, detect_statistical_drift.
  destruct current as [|c cs].
  - rewrite orb_true_r. eexists. split; [reflexivity|]. split; [reflexivity|].
    split; [do 3 eexists; repeat split|reflexivity].
  - destruct baseline as [|b bs]; cbn [empty orb bind].
    + eexists. split; [reflexivity|]. split; [reflexivity|].
      split; [do 3 eexists; repeat split|reflexivity].
    + destruct (ks_2samp (map amount (b :: bs)) (map amount (c :: cs))) as [D p].
      eexists. split; [reflexivity|]. split; [reflexivity|].
      split; [do 3 eexists; repeat split|reflexivity].
Qed.

Section MonitorFacts.

Variable ks_2samp : list Q -> list Q -> Q * Q.
Variable drift_threshold : Q.
Variable now : Z.
Variable refused : list drift_row -> drift_row -> option string.
Variable hourly_result : list accuracy_row.
Variable baseline_result current_result : list transaction_row.

Local Abbreviation step :=
  (monitor_feature ks_2samp drift_threshold now refused hourly_result
     baseline_result current_result).

(** With fewer than two buckets the first store of a turn raises, before its
    INSERT. *)
Lemma monitor_feature_few (feature : string) (db : list drift_row)
    (results : list (dict value)) :
  (length (bucket_accuracies hourly_result) <? 2)%nat = true ->
  step (inr (db, results)) feature = inl (KeyError "feature_name", db).
Proof.
  intros Hfew. unfold monitor_feature.
  destruct (concept_result_keys hourly_result feature) as (c & Hc & _ & _ & Hcf).
  destruct (covariate_result_keys ks_2samp drift_threshold baseline_result
              current_result feature) as (v & Hv & _).
  rewrite Hc, Hv, Hfew in *. cbn [as_exn].
  rewrite (store_without_feature_name refused now c db Hcf). reflexivity.
Qed.

(** With at least two buckets the first INSERT of a turn is that of the
    concept drift row; a turn ends there when it is refused. *)
Lemma monitor_feature_first_insert (feature : string) (db : list drift_row)
    (results : list (dict value)) :
  (length (bucket_accuracies hourly_result) <? 2)%nat = false ->
  exists row : drift_row,
    row_feature_name row = VStr feature
    /\ row_drift_type row = VStr "concept"
    /\ (forall e : string,
          refused db row = Some e ->
          step (inr (db, results)) feature = inl (OtherError e, db))
    /\ (refused db row = None ->
        empty baseline_result || empty current_result = true ->
        step (inr (db, results)) feature = inl (KeyError "feature_name", db ++ [row])).
Proof.
  intros Hfew.
  destruct (concept_result_keys hourly_result feature)
    as (c & Hc & Hct & (cs & cp & cf & Hcs & Hcp & Hcd) & Hcf).
  destruct (covariate_result_keys ks_2samp drift_threshold baseline_result
              current_result feature) as (v & Hv & _ & _ & Hvf).
  rewrite Hfew in Hcf.
  exists (row_of now c (VStr feature) cs cp cf).
  split; [reflexivity|].
  split; [unfold row_of, get_default; cbn [row_drift_type]; rewrite Hct; reflexivity|].
  split.
  - intros e He. unfold monitor_feature. rewrite Hc, Hv. cbn [as_exn].
    rewrite (store_with_keys refused now c db _ _ _ _ Hcf Hcs Hcp Hcd), He.
    reflexivity.
  - intros Hok Hins. rewrite Hins in Hvf.
    unfold monitor_feature. rewrite Hc, Hv. cbn [as_exn].
    rewrite (store_with_keys refused now c db _ _ _ _ Hcf Hcs Hcp Hcd), Hok.
    rewrite (store_without_feature_name refused now v _ Hvf). reflexivity.
Qed.

(** When every INSERT is accepted, the buckets are at least two and neither
    sample is empty, a turn stores two rows and adds two results. *)
Lemma monitor_feature_stores (feature : string) (db : list drift_row)
    (results : list (dict value)) :
  (forall t r, refused t r = None) ->
  (length (bucket_accuracies hourly_result) <? 2)%nat = false ->
  empty baseline_result || empty current_result = false ->
  exists (c v : dict value) (row1 row2 : drift_row),
    step (inr (db, results)) feature =
      inr (db ++ [row1; row2], results ++ [c; v])
    /\ row_feature_name row1 = VStr feature
    /\ row_drift_type row1 = VStr "concept"
    /\ row_feature_name row2 = VStr feature
    /\ row_drift_type row2 = VStr "covariate".
Proof.
  intros Hall Hfew Hins. unfold monitor_feature.
  destruct (concept_result_keys hourly_result feature)
    as (c & Hc & Hct & (cs & cp & cf & Hcs & Hcp & Hcd) & Hcf).
  destruct (covariate_result_keys ks_2samp drift_threshold baseline_result
              current_result feature)
    as (v & Hv & Hvt & (vs & vp & vf & Hvs & Hvp & Hvd) & Hvf).
  rewrite Hfew in Hcf. rewrite Hins in Hvf.
  rewrite Hc, Hv. cbn [as_exn].
  rewrite (store_with_keys refused now c db _ _ _ _ Hcf Hcs Hcp Hcd), Hall.
  rewrite (store_with_keys refused now v _ _ _ _ _ Hvf Hvs Hvp Hvd), Hall.
  exists c, v. eexists. eexists. split; [rewrite <- app_assoc; reflexivity|].
  unfold row_of.
  cbn [row_feature_name row_drift_type]. unfold get_default. rewrite Hct, Hvt.
  repeat split.
Qed.


End MonitorFacts.


(** *** The two samples of covariate drift, from the table *)

(** Timestamps and the clock count microseconds. *)
Definition hours (n : Z) : Z := (n * 3600000000)%Z.
Definition days (n : Z) : Z := (n * 86400000000)%Z.

(** [ORDER BY timestamp]; rows of equal timestamp come in an order the query
    does not fix. *)
Fixpoint insert_row (r : transaction_row) (l : list transaction_row)
    : list transaction_row :=
  match l with
  | [] => [r]
  | x :: l' =>
    if (timestamp r <? timestamp x)%Z then r :: l else x :: insert_row r l'
  end.

Definition order_by_timestamp (l : list transaction_row) : list transaction_row :=
  fold_right insert_row [] l.

(** [SELECT amount, timestamp FROM transactions WHERE timestamp >= ?
     ORDER BY timestamp] *)
Definition rows_since (cutoff : Z) (transactions : list transaction_row)
    : list transaction_row :=
  order_by_timestamp (List.filter (fun r => (cutoff <=? timestamp r)%Z) transactions).

(** [DriftDetector.load_baseline_data]: the rows of its data frame. *)
Definition load_baseline_data (transactions : list transaction_row) (now : Z)
    (days_back : Z) : list transaction_row :=
  rows_since (now - days days_back) transactions.

(** [DriftDetector.detect_covariate_drift] on the table [transactions]; [now1]
    and [now2] are the readings of the clock for the baseline and for the
    current window. *)
Definition detect_covariate_drift_on (ks_2samp : list Q -> list Q -> Q * Q)
    (drift_threshold : Q) (transactions : list transaction_row) (now1 now2 : Z)
    (feature_name : string) (time_window_hours : Z) : outcome (dict value) :=
  let baseline_result := load_baseline_data transactions now1 30 in
  let current_result := rows_since (now2 - hours time_window_hours) transactions in
  detect_covariate_drift ks_2samp drift_threshold baseline_result current_result
    feature_name.

Lemma insert_row_In (r x : transaction_row) (l : list transaction_row) :
  In x (insert_row r l) <-> x = r \/ In x l.
Proof.
  induction l as [|y l IH]; cbn [insert_row In].
  - intuition.
  - destruct (timestamp r <? timestamp y)%Z; cbn [In]; rewrite ?IH; intuition.
Qed.

Lemma order_by_timestamp_In (x : transaction_row) (l : list transaction_row) :
  In x (order_by_timestamp l) <-> In x l.
Proof.
  unfold order_by_timestamp. induction l as [|y l IH]; cbn [fold_right In]; [reflexivity|].
  rewrite insert_row_In, IH. intuition.
Qed.

Lemma rows_since_In (cutoff : Z) (x : transaction_row) (l : list transaction_row) :
  In x (rows_since cutoff l) <-> In x l /\ (cutoff <= timestamp x)%Z.
Proof.
  unfold rows_since. rewrite order_by_timestamp_In, filter_In, Z.leb_le. reflexivity.
Qed.

(** The rows fetched are in the order of their timestamps. *)
Lemma insert_row_sorted (r : transaction_row) (l : list transaction_row) :
  Sorted (fun a b => (timestamp a <= timestamp b)%Z) l ->
  Sorted (fun a b => (timestamp a <= timestamp b)%Z) (insert_row r l).
Proof.
  induction 1 as [|x l Hs IH Hhd]; cbn [insert_row]; [repeat constructor|].
  destruct (timestamp r <? timestamp x)%Z eqn:E.
  - apply Z.ltb_lt in E. repeat constructor; try assumption. lia.
  - apply Z.ltb_ge in E. constructor; [exact IH|].
    destruct l as [|y l]; cbn [insert_row]; [constructor; exact E|].
    destruct (timestamp r <? timestamp y)%Z; constructor;
      [exact E | inversion Hhd; assumption].
Qed.

(** X10.  With a window of at most 720 hours (the 30 days of the baseline),
    every row of the current sample is also a row of the baseline sample, both
    samples are ordered by timestamp, and a covariate result for a non-empty
    current sample is a full comparison: it carries the feature's name and a
    severity. *)
Theorem covariate_baseline_contains_current
    (ks_2samp : list Q -> list Q -> Q * Q) (drift_threshold : Q)
    (transactions : list transaction_row) (now1 now2 : Z)
    (feature_name : string) (time_window_hours : Z) :
  (now1 <= now2)%Z -> (time_window_hours <= 720)%Z ->
  let baseline := load_baseline_data transactions now1 30 in
  let current := rows_since (now2 - hours time_window_hours) transactions in
  incl current baseline
  /\ Sorted (fun a b => (timestamp a <= timestamp b)%Z) baseline
  /\ Sorted (fun a b => (timestamp a <= timestamp b)%Z) current
  /\ (current <> [] ->
      exists (r : dict value) (sev : string),
        detect_covariate_drift_on ks_2samp drift_threshold transactions
          now1 now2 feature_name time_window_hours = Returned r
        /\ dict_get "feature_name" r = Some (VStr feature_name)
        /\ dict_get "severity" r = Some (VStr sev)
        /\ dict_get "drift_type" r = Some (VStr "covariate")).
Proof.
  intros Hnow Hwin. cbv zeta.
  assert (Hincl : incl (rows_since (now2 - hours time_window_hours) transactions)
                       (load_baseline_data transactions now1 30)).
  { intros x Hx. unfold load_baseline_data.
    apply rows_since_In in Hx as [Hin Hts]. apply rows_since_In.
    split; [exact Hin|]. unfold hours, days in *. lia. }
  assert (Hsorted : forall l, Sorted (fun a b => (timestamp a <= timestamp b)%Z)
                                (order_by_timestamp l)).
  { induction l as [|x l IH]; [constructor | apply insert_row_sorted; exact IH]. }
  split; [exact Hincl|]. split; [apply Hsorted|]. split; [apply Hsorted|].
  intros Hne. unfold detect_covariate_drift_on.
  set (baseline := load_baseline_data transactions now1 30) in *.
  set (current := rows_since (now2 - hours time_window_hours) transactions) in *.
  destruct current as [|c cs]; [congruence|].
  destruct baseline as [|b bs]; [exfalso; apply (Hincl c); left; reflexivity|].
  unfold detect_covariate_drift, detect_statistical_drift. cbn [empty orb bind].
  destruct (ks_2samp (map amount (b :: bs)) (map amount (c :: cs))) as [D p].
  eexists. eexists. split; [reflexivity|]. repeat split.
Qed.

(** Three transactions, one per day, the clock standing at day 40. *)
Definition daily_transactions : list transaction_row :=
  [ TransactionRow 120 (days 39); TransactionRow 80 (days 20);
    TransactionRow 100 (days 5) ].

Lemma covariate_baseline_contains_current_witness :
  map amount (load_baseline_data daily_transactions (days 40) 30) = [80; 120]
  /\ map amount (rows_since (days 40 - hours 48) daily_transactions) = [120]
  /\ exists (r : dict value) (sev : string),
       detect_covariate_drift_on ks_exact 0.1 daily_transactions
         (days 40) (days 40) "amount" 48 = Returned r
       /\ dict_get "severity" r = Some (VStr sev).
Proof.
  split; [reflexivity|]. split; [reflexivity|].
  destruct (covariate_baseline_contains_current ks_exact 0.1 daily_transactions
              (days 40) (days 40) "amount" 48) as (_ & _ & _ & H).
  - lia.
  - lia.
  - destruct H as (r & sev & Hr & _ & Hsev & _); [discriminate|].
    exists r, sev. split; assumption.
Defined.

End DriftMonitor.

(** ** More of [coverage.py]: categories, gaps, storage and the monitor *)

Module CoverageMonitor.
Import Numeric Py Coverage DriftMonitor.

(** Sequencing of steps that may raise. *)
Definition and_then {A B : Type} (step : exn + A) (k : A -> exn + B) : exn + B :=
  match step with
  | inl e => inl e
  | inr a => k a
  end.

Notation "'let?' x ':=' step 'in' k" := (and_then step (fun x => k))
  (at level 10, x name, step at level 100, k at level 200).

(** A value used as a number; a string is not one. *)
Definition as_number (v : value) : exn + Q :=
  match v with
  | VFloat x => inr x
  | VInt z => inr (inject_Z z)
  | VBool b => inr (if b then 1 else 0)
  | VStr _ => inl (OtherError "TypeError")
  end.

(** The categories [get_coverage_by_category] goes through. *)
Definition risk_categories : list string :=
  [ "money_laundering"; "terrorist_financing"; "sanctions_evasion"; "fraud" ]%string.

(** The loop of [get_coverage_by_category] over the categories left, with the
    results so far. *)
Fixpoint coverage_loop (rows : list joined_row) (time_window_hours : Z)
    (categories : list string) (results : list (dict value))
    : exn + list (dict value) :=
  match categories with
  | [] => inr results
  | category :: rest =>
    let? coverage_data := as_exn (calculate_coverage rows category time_window_hours) in
    coverage_loop rows time_window_hours rest (results ++ [coverage_data])
  end.

(** [CoverageMonitor.get_coverage_by_category]; [rows] are the rows of the
    window, the same for every category. *)
Definition get_coverage_by_category (rows : list joined_row)
    (time_window_hours : Z) : exn + list (dict value) :=
  coverage_loop rows time_window_hours risk_categories [].

(** [threshold or settings.coverage_threshold * 100]: an absent or zero
    threshold gives way to the configured one. *)
Definition effective_threshold (threshold : option Q) (coverage_threshold : Q) : Q :=
  match threshold with
  | Some t => if Qeq_bool t 0 then coverage_threshold * 100 else t
  | None => coverage_threshold * 100
  end.

(** One turn of the loop of [identify_coverage_gaps]. *)
Definition gap_step (threshold : Q) (gaps : list (dict value)) (data : dict value)
    : exn + list (dict value) :=
  let? v := getitem data "coverage_percentage" in
  let? coverage := as_number v in
  if Qltb coverage threshold
  then
    let? category := getitem data "risk_category" in
    inr (gaps ++
         [ [ ("risk_category"%string, category);
             ("current_coverage"%string, v);
             ("threshold"%string, VFloat threshold);
             ("gap_size"%string, VFloat (threshold - coverage));
             ("priority"%string,
              VStr (if Qltb coverage (threshold * 0.8) then "high" else "medium")) ] ])
  else inr gaps.

Fixpoint gap_loop (threshold : Q) (coverage_data : list (dict value))
    (gaps : list (dict value)) : exn + list (dict value) :=
  match coverage_data with
  | [] => inr gaps
  | data :: rest =>
    let? gaps' := gap_step threshold gaps data in
    gap_loop threshold rest gaps'
  end.

(** [CoverageMonitor.identify_coverage_gaps]; it reads the coverage of the
    last 24 hours. *)
Definition identify_coverage_gaps (coverage_threshold : Q) (rows : list joined_row)
    (threshold : option Q) : exn + list (dict value) :=
  let threshold := effective_threshold threshold coverage_threshold in
  let? coverage_data := get_coverage_by_category rows 24 in
  gap_loop threshold coverage_data [].

(** A row of the table [risk_coverage]. *)
Record coverage_row : Type := CoverageRow {
  row_risk_category : value;
  row_coverage_percentage : value;
  row_total_samples : value;
  row_covered_samples : value;
  row_timestamp : Z
}.

(** [CoverageMonitor.store_coverage_metrics], with an INSERT that stores the
    row.  This module follows the function on the empty window only, where
    the INSERT is not reached; [CoverageMonitor64] has it with the answer of
    DuckDB. *)
Definition store_coverage_metrics (now : Z) (coverage_data : dict value)
    (db : list coverage_row) : exn + list coverage_row :=
  let? category := getitem coverage_data "risk_category" in
  let? percentage := getitem coverage_data "coverage_percentage" in
  let? total := getitem coverage_data "total_samples" in
  let? covered := getitem coverage_data "covered_samples" in
  inr (db ++ [ CoverageRow category percentage total covered now ]).

(** The loop of [monitor_coverage] that stores the results: the table
    afterwards, or the exception with the table as it then was. *)
Fixpoint store_loop (now : Z) (coverage_data : list (dict value))
    (db : list coverage_row) : (exn * list coverage_row) + list coverage_row :=
  match coverage_data with
  | [] => inr db
  | data :: rest =>
    match store_coverage_metrics now data db with
    | inl e => inl (e, db)
    | inr db' => store_loop now rest db'
    end
  end.

(** [sum(d['coverage_percentage'] for d in coverage_data)] *)
Fixpoint sum_coverage (coverage_data : list (dict value)) : exn + Q :=
  match coverage_data with
  | [] => inr 0
  | data :: rest =>
    let? v := getitem data "coverage_percentage" in
    let? x := as_number v in
    let? s := sum_coverage rest in
    inr (x + s)
  end.

(** The summary [monitor_coverage] returns. *)
Record coverage_summary : Type := CoverageSummary {
  summary_timestamp : Z;
  total_categories : nat;
  categories_below_threshold : nat;
  average_coverage : Q;
  summary_gaps : list (dict value);
  coverage_data : list (dict value)
}.

(** [monitor_coverage]: what it returns and the table [risk_coverage]
    afterwards. *)
Definition monitor_coverage (coverage_threshold : Q) (now : Z)
    (rows : list joined_row) (db : list coverage_row)
    : KpiMonitor.monitor_result coverage_summary * list coverage_row :=
  match get_coverage_by_category rows 24 with
  | inl e => (KpiMonitor.MonitorError (str_exn e), db)
  | inr data =>
    match identify_coverage_gaps coverage_threshold rows None with
    | inl e => (KpiMonitor.MonitorError (str_exn e), db)
    | inr gaps =>
      match store_loop now data db with
      | inl (e, db') => (KpiMonitor.MonitorError (str_exn e), db')
      | inr db' =>
        match sum_coverage data with
        | inl e => (KpiMonitor.MonitorError (str_exn e), db')
        | inr total =>
          match data with
          | [] => (KpiMonitor.MonitorError "division by zero", db')
          | _ :: _ =>
            ( KpiMonitor.MonitorSummary
                (CoverageSummary now (length data) (length gaps)
                   (total / of_nat (length data)) gaps data),
              db' )
          end
        end
      end
    end
  end.

(** *** The result of one category, in closed form *)

(** The percentage [calculate_coverage] returns for a non-empty window. *)
Definition window_percentage (rows : list joined_row) : Q :=
  let A := sum_case is_fraud rows in
  let P := sum_case predicted_positive rows in
  py_round (if (0 <? A)%Z then inject_Z P / inject_Z A * 100 else 0) 2.

(** The result of a non-empty window for a category. *)
Definition window_result (rows : list joined_row) (category : string)
    (time_window_hours : Z) : dict value :=
  [ ("coverage_percentage"%string, VFloat (window_percentage rows));
    ("total_samples"%string, VInt (Z.of_nat (length rows)));
    ("covered_samples"%string, VInt (sum_case predicted_positive rows));
    ("gap_count"%string,
     VInt (sum_case is_fraud rows - sum_case predicted_positive rows));
    ("risk_category"%string, VStr category);
    ("time_window_hours"%string, VInt time_window_hours) ].

(** The result of an empty window, which names no category. *)
Definition empty_result : dict value :=
  [ ("coverage_percentage"%string, VFloat 0); ("total_samples"%string, VInt 0);
    ("covered_samples"%string, VInt 0); ("gap_count"%string, VInt 0) ].

Lemma calculate_coverage_cases (rows : list joined_row) (category : string)
    (time_window_hours : Z) :
  calculate_coverage rows category time_window_hours =
    Returned (match rows with
              | [] => empty_result
              | _ :: _ => window_result rows category time_window_hours
              end).
Proof.
  destruct rows as [|row rows]; [reflexivity|].
  unfold calculate_coverage, coverage_query, coverage_of_result, window_result,
    window_percentage.
  fold predicted_positive.
  set (w := row :: rows).
  replace (Z.of_nat (length w) =? 0)%Z with false
    by (symmetry; apply Z.eqb_neq; cbn [length w]; lia).
  destruct (0 <? sum_case is_fraud w)%Z eqn:Epos; [|reflexivity].
  apply Z.ltb_lt in Epos. unfold true_div.
  replace (sum_case is_fraud w =? 0)%Z with false
    by (symmetry; apply Z.eqb_neq; lia).
  reflexivity.
Qed.

Lemma get_coverage_by_category_cases (rows : list joined_row)
    (time_window_hours : Z) :
  get_coverage_by_category rows time_window_hours =
    inr (map (fun category =>
                match rows with
                | [] => empty_result
                | _ :: _ => window_result rows category time_window_hours
                end) risk_categories).
Proof.
  unfold get_coverage_by_category, risk_categories. cbn [coverage_loop].
  rewrite !calculate_coverage_cases. reflexivity.
Qed.



(** *** The empty window *)

Lemma gap_step_empty (threshold : Q) (gaps : list (dict value)) :
  gap_step threshold gaps empty_result =
    (if Qltb 0 threshold then inl (KeyError "risk_category") else inr gaps).
Proof.
  unfold gap_step, empty_result, getitem.
  cbn [dict_get String.eqb Ascii.eqb Bool.eqb and_then as_number].
  destruct (Qltb 0 threshold); reflexivity.
Qed.

(** X13.  On an empty window the results name no category:
    [identify_coverage_gaps] raises [KeyError('risk_category')] when the
    threshold in force is positive (and reports no gap otherwise), storing
    such a result raises the same error, and [monitor_coverage] returns the
    error "'risk_category'" and stores nothing, whatever the configured
    threshold is. *)
Theorem empty_window_names_no_category (coverage_threshold : Q)
    (threshold : option Q) (now : Z) (db : list coverage_row) :
  identify_coverage_gaps coverage_threshold [] threshold =
    (if Qltb 0 (effective_threshold threshold coverage_threshold)
     then inl (KeyError "risk_category") else inr [])
  /\ calculate_coverage [] "fraud" 24 = Returned empty_result
  /\ store_coverage_metrics now empty_result db = inl (KeyError "risk_category")
  /\ monitor_coverage coverage_threshold now [] db =
     (KpiMonitor.MonitorError "'risk_category'", db).
Proof.
  assert (Hgaps : forall th : option Q,
    identify_coverage_gaps coverage_threshold [] th =
      (if Qltb 0 (effective_threshold th coverage_threshold)
       then inl (KeyError "risk_category") else inr [])).
  { intros th. unfold identify_coverage_gaps.
    rewrite get_coverage_by_category_cases. unfold risk_categories.
    cbn [and_then map gap_loop]. rewrite gap_step_empty.
    destruct (Qltb 0 (effective_threshold th coverage_threshold)) eqn:E;
      cbn [and_then]; rewrite ?gap_step_empty, ?E; cbn [and_then];
      rewrite ?gap_step_empty, ?E; cbn [and_then];
      rewrite ?gap_step_empty, ?E; reflexivity. }
  split; [apply Hgaps|]. split; [reflexivity|]. split; [reflexivity|].
  unfold monitor_coverage. rewrite get_coverage_by_category_cases, Hgaps.
  destruct (Qltb 0 (effective_threshold None coverage_threshold)); reflexivity.
Qed.

(** *** The range of the percentage *)

(** X15.  The coverage percentage is never negative, and it is at most 100
    whenever the gap count is not negative, that is when no more cases are
    flagged than are actual positives; the gap count and the percentage are
    those of one and the same result. *)
Theorem coverage_percentage_bounds (rows : list joined_row)
    (risk_category : string) (time_window_hours : Z) :
  exists (r : dict value) (percentage : Q) (gap : Z),
    calculate_coverage rows risk_category time_window_hours = Returned r
    /\ dict_get "coverage_percentage" r = Some (VFloat percentage)
    /\ dict_get "gap_count" r = Some (VInt gap)
    /\ Qle_bool 0 percentage = true
    /\ ((0 <=? gap)%Z = true -> Qle_bool percentage 100 = true).
Proof.
  rewrite calculate_coverage_cases. destruct rows as [|row rows].
  - exists empty_result, 0, 0%Z. repeat split.
  - set (w := row :: rows).
    exists (window_result w risk_category time_window_hours), (window_percentage w),
           (sum_case is_fraud w - sum_case predicted_positive w)%Z.
    split; [reflexivity|]. split; [reflexivity|]. split; [reflexivity|].
    pose proof (sum_case_bounds predicted_positive w) as [HP0 _].
    unfold window_percentage.
    set (A := sum_case is_fraud w) in *. set (P := sum_case predicted_positive w) in *.
    assert (Hzero : inject_Z 0 / inject_Z (pow10 2) == 0) by reflexivity.
    assert (Hhundred : inject_Z 10000 / inject_Z (pow10 2) == 100) by reflexivity.
    destruct (0 <? A)%Z eqn:EA.
    + apply Z.ltb_lt in EA.
      assert (HA : 0 < inject_Z A) by (change 0 with (inject_Z 0); rewrite <- Zlt_Qlt; exact EA).
      assert (HPq : 0 <= inject_Z P) by (change 0 with (inject_Z 0); rewrite <- Zle_Qle; exact HP0).
      assert (Hquot : 0 <= inject_Z P / inject_Z A).
      { apply Qle_shift_div_l; [exact HA | lra]. }
      split.
      * apply Qle_bool_iff. rewrite <- Hzero. apply py_round_ge_grid. rewrite Hzero. lra.
      * intros Hgap. apply Z.leb_le in Hgap.
        assert (HPA : inject_Z P <= inject_Z A) by (rewrite <- Zle_Qle; lia).
        assert (Hquot1 : inject_Z P / inject_Z A <= 1).
        { apply Qle_shift_div_r; [exact HA | lra]. }
        apply Qle_bool_iff.
        apply Qle_trans with (y := inject_Z 10000 / inject_Z (pow10 2));
          [|rewrite Hhundred; apply Qle_refl].
        apply py_round_le_grid. rewrite Hhundred. lra.
    + split; [reflexivity|]. intros _. reflexivity.
Qed.

Lemma coverage_percentage_bounds_witness :
  exists (r : dict value) (percentage : Q),
    calculate_coverage one_in_three "fraud" 24 = Returned r
    /\ dict_get "coverage_percentage" r = Some (VFloat percentage)
    /\ Qle_bool percentage 100 = true.
Proof.
  destruct (coverage_percentage_bounds one_in_three "fraud" 24)
    as (r & percentage & gap & Hr & Hp & Hg & _ & Hle).
  exists r, percentage. split; [exact Hr|]. split; [exact Hp|].
  apply Hle. vm_compute in Hr. injection Hr as <-.
  cbn in Hg. injection Hg as <-. reflexivity.
Defined.

End CoverageMonitor.

(** ** More of [playbooks.py]: the registry and the execution summary *)

Module PlaybookRegistry.
Import Numeric Py.

(** The values of a YAML document. *)
#[local] Unset Elimination Schemes.
Inductive yaml : Type :=
| YNull
| YBool (b : bool)
| YInt (z : Z)
| YStr (s : string)
| YList (items : list yaml)
| YMap (entries : list (string * yaml)).
#[local] Set Elimination Schemes.

(** The truth value of a YAML value in a condition. *)
Definition truthy (v : yaml) : bool :=
  match v with
  | YNull => false
  | YBool b => b
  | YInt z => negb (z =? 0)%Z
  | YStr s => negb (String.eqb s "")
  | YList items => match items with [] => false | _ :: _ => true end
  | YMap entries => match entries with [] => false | _ :: _ => true end
  end.

(** [v == n] for an integer [n]; [True] and [False] compare as 1 and 0. *)
Definition equals_int (v : yaml) (n : Z) : bool :=
  match v with
  | YInt z => (z =? n)%Z
  | YBool b => ((if b then 1 else 0) =? n)%Z
  | _ => false
  end.

(** [d[key] = v] *)
Fixpoint assign (key : string) (v : yaml) (d : dict yaml) : dict yaml :=
  match d with
  | [] => [(key, v)]
  | (k, v') :: d' =>
    if String.eqb key k then (k, v) :: d' else (k, v') :: assign key v d'
  end.

(** The registry file [watchtower/playbooks/registry.yaml]: absent, or a
    mapping whose entry [playbooks], when it has one, is a list of mappings
    (the shape [create_playbook] writes). *)
Definition registry_file : Type := option (option (list (dict yaml))).

(** [registry.get('playbooks', [])] *)
Definition listed (registry : option (list (dict yaml))) : list (dict yaml) :=
  match registry with Some playbooks => playbooks | None => [] end.

(** What ends a handler early: an [HTTPException] with its status code, or
    another exception. *)
Inductive failure : Type :=
| HTTPException (status_code : Z)
| OtherException (name : string).

(** [except Exception as e: raise HTTPException(status_code=500, ...)]: the
    clause catches every exception of the [try] block, the handler's own
    [HTTPException]s included. *)
Definition except_500 {A : Type} (body : failure + A) : Z + A :=
  match body with
  | inl _ => inl 500%Z
  | inr a => inr a
  end.

(** [p.get('is_active', True)] as a condition *)
Definition is_active (p : dict yaml) : bool :=
  match dict_get "is_active" p with
  | Some v => truthy v
  | None => true
  end.

(** [get_playbooks] *)
Definition get_playbooks (file : registry_file) (active_only : bool)
    : Z + list (dict yaml) :=
  except_500
    match file with
    | None => inr []
    | Some registry =>
      let playbooks := listed registry in
      inr (if active_only then List.filter is_active playbooks else playbooks)
    end.

(** [next((p for p in playbooks if p.get('id') == playbook_id), None)] *)
Fixpoint first_with_id (playbook_id : Z) (playbooks : list (dict yaml))
    : option (dict yaml) :=
  match playbooks with
  | [] => None
  | p :: rest =>
    match dict_get "id" p with
    | Some v => if equals_int v playbook_id then Some p
                else first_with_id playbook_id rest
    | None => first_with_id playbook_id rest
    end
  end.

(** The [try] block of [get_playbook]. *)
Definition get_playbook_body (file : registry_file) (playbook_id : Z)
    : failure + dict yaml :=
  match file with
  | None => inl (HTTPException 404)
  | Some registry =>
    match first_with_id playbook_id (listed registry) with
    | None => inl (HTTPException 404)
    | Some [] => inl (HTTPException 404)
    | Some ((_ :: _) as playbook) =>
      match dict_get "name" playbook with
      | None => inl (OtherException "KeyError")
      | Some _ => inr playbook
      end
    end
  end.

(** [get_playbook] *)
Definition get_playbook (file : registry_file) (playbook_id : Z) : Z + dict yaml :=
  except_500 (get_playbook_body file playbook_id).

(** The fields [create_playbook] requires. *)
Definition required_fields : list string :=
  [ "name"; "trigger_conditions"; "actions" ]%string.

Definition has_key (d : dict yaml) (key : string) : bool :=
  match dict_get key d with Some _ => true | None => false end.

(** The [try] block of [create_playbook]: the playbook created and the
    registry that is dumped to the file ([on_disk] below is the file as it is
    read afterwards), or the failure (nothing is written then). *)
Definition create_playbook_body (now : string) (file : registry_file)
    (playbook_data : dict yaml) : failure + (dict yaml * registry_file) :=
  if negb (forallb (has_key playbook_data) required_fields)
  then inl (HTTPException 400)
  else
    let registry := match file with Some r => r | None => Some [] end in
    match registry with
    | None => inl (OtherException "KeyError")
    | Some playbooks =>
      let created :=
        assign "updated_at" (YStr now)
          (assign "created_at" (YStr now)
             (assign "id" (YInt (Z.of_nat (length playbooks) + 1)) playbook_data)) in
      inr (created, Some (Some (playbooks ++ [created])))
    end.

(** [create_playbook]: the answer and the registry file afterwards. *)
Definition create_playbook (now : string) (file : registry_file)
    (playbook_data : dict yaml) : (Z + dict yaml) * registry_file :=
  match create_playbook_body now file playbook_data with
  | inl _ => (inl 500%Z, file)
  | inr (created, file') => (inr created, file')
  end.

(** *** Looking a playbook up *)

Lemma first_with_id_found (playbook_id : Z) (playbooks : list (dict yaml))
    (p : dict yaml) :
  first_with_id playbook_id playbooks = Some p ->
  In p playbooks
  /\ exists v : yaml, dict_get "id" p = Some v /\ equals_int v playbook_id = true.
Proof.
  induction playbooks as [|q rest IH]; cbn [first_with_id]; [discriminate|].
  destruct (dict_get "id" q) as [v|] eqn:Hid.
  - destruct (equals_int v playbook_id) eqn:Heq.
    + intros H. injection H as <-. split; [left; reflexivity|]. exists v. split; assumption.
    + intros H. destruct (IH H) as [Hin Hv]. split; [right; exact Hin | exact Hv].
  - intros H. destruct (IH H) as [Hin Hv]. split; [right; exact Hin | exact Hv].
Qed.

Lemma first_with_id_app (playbook_id : Z) (playbooks : list (dict yaml))
    (q : dict yaml) :
  first_with_id playbook_id (playbooks ++ [q]) =
    match first_with_id playbook_id playbooks with
    | Some p => Some p
    | None => first_with_id playbook_id [q]
    end.
Proof.
  induction playbooks as [|p rest IH]; [reflexivity|].
  cbn [app first_with_id]. rewrite IH.
  destruct (dict_get "id" p) as [v|]; [destruct (equals_int v playbook_id)|]; reflexivity.
Qed.

(** X16.  The registry handlers answer no 400 and no 404: a lookup fails with
    status 500 whenever it fails (missing registry file, unknown id, playbook
    without a name), because the handler's own 404 is caught by its
    [except Exception] clause, and a creation without a required field fails
    with 500 and leaves the file as it was; a lookup that succeeds returns
    the first playbook of the registry whose [id] equals the requested one.
    Listing the playbooks of a missing file, unlike looking one up, answers
    the empty list. *)
Theorem registry_failures_are_500 (now : string) (file : registry_file)
    (playbook_id : Z) (playbook_data : dict yaml) :
  match get_playbook file playbook_id with
  | inl status_code => status_code = 500%Z
  | inr p =>
    exists (playbooks : list (dict yaml)) (v : yaml),
      listed (match file with Some r => r | None => None end) = playbooks
      /\ first_with_id playbook_id playbooks = Some p
      /\ In p playbooks
      /\ dict_get "id" p = Some v /\ equals_int v playbook_id = true
      /\ has_key p "name" = true
  end
  /\ get_playbook None playbook_id = inl 500%Z
  /\ get_playbooks None true = inr []
  /\ (forall playbooks : list (dict yaml),
        first_with_id playbook_id playbooks = None ->
        get_playbook (Some (Some playbooks)) playbook_id = inl 500%Z)
  /\ (forallb (has_key playbook_data) required_fields = false ->
      create_playbook now file playbook_data = (inl 500%Z, file)).
Proof.
  split; [|split; [reflexivity|split; [reflexivity|split]]].
  - unfold get_playbook, get_playbook_body.
    destruct file as [registry|]; [|reflexivity].
    destruct (first_with_id playbook_id (listed registry)) as [p|] eqn:Hfind;
      [|reflexivity].
    destruct (first_with_id_found _ _ _ Hfind) as (Hin & v & Hid & Heq).
    destruct p as [|entry p]; [reflexivity|].
    destruct (dict_get "name" (entry :: p)) eqn:Hname; cbn [except_500]; [|reflexivity].
    exists (listed registry), v. unfold has_key. rewrite Hname.
    repeat split; assumption.
  - intros playbooks Hnone. unfold get_playbook, get_playbook_body.
    cbn [listed]. rewrite Hnone. reflexivity.
  - intros Hmissing. unfold create_playbook, create_playbook_body.
    rewrite Hmissing. reflexivity.
Qed.

(** A registry of two playbooks. *)
Definition retrain : dict yaml :=
  [ ("id"%string, YInt 1); ("name"%string, YStr "retrain on drift");
    ("trigger_conditions"%string, YMap [("severity"%string, YStr "high")]);
    ("actions"%string, YList [YStr "notify"; YStr "retrain"]) ].
Definition pause : dict yaml :=
  [ ("id"%string, YInt 2); ("name"%string, YStr "pause model");
    ("trigger_conditions"%string, YMap [("status"%string, YStr "critical")]);
    ("actions"%string, YList [YStr "pause"]);
    ("is_active"%string, YBool false) ].
Definition two_playbooks : registry_file := Some (Some [retrain; pause]).

Lemma registry_failures_are_500_witness :
  get_playbook two_playbooks 3 = inl 500%Z
  /\ get_playbook two_playbooks 2 = inr pause
  /\ create_playbook "2026-01-01T00:00:00" two_playbooks
       [("name"%string, YStr "no actions")] = (inl 500%Z, two_playbooks).
Proof.
  destruct (registry_failures_are_500 "2026-01-01T00:00:00" two_playbooks 3
              [("name"%string, YStr "no actions")]) as (_ & _ & _ & Hunknown & Hcreate).
  split; [apply Hunknown; reflexivity|]. split; [reflexivity|].
  apply Hcreate. reflexivity.
Defined.

(** *** Creating a playbook, and looking it up again *)

Lemma get_assign_eq (key : string) (v : yaml) (d : dict yaml) :
  dict_get key (assign key v d) = Some v.
Proof.
  induction d as [|[k v'] d IH]; cbn [assign dict_get].
  - rewrite String.eqb_refl. reflexivity.
  - destruct (String.eqb key k) eqn:E; cbn [dict_get]; rewrite E; [reflexivity | exact IH].
Qed.

Lemma get_assign_ne (key key' : string) (v : yaml) (d : dict yaml) :
  String.eqb key' key = false ->
  dict_get key' (assign key v d) = dict_get key' d.
Proof.
  intros Hne. induction d as [|[k v'] d IH]; cbn [assign dict_get].
  - rewrite Hne. reflexivity.
  - destruct (String.eqb key k) eqn:E; cbn [dict_get].
    + apply String.eqb_eq in E. subst k. rewrite Hne. reflexivity.
    + rewrite IH. reflexivity.
Qed.

Lemma assign_nonempty (key : string) (v : yaml) (d : dict yaml) : assign key v d <> [].
Proof.
  destruct d as [|[k v'] d]; cbn [assign]; [discriminate|].
  destruct (String.eqb key k); discriminate.
Qed.

(** The playbook [create_playbook] stores for [playbook_data] in a registry of
    [n] playbooks. *)
Definition stamped (now : string) (n : nat) (playbook_data : dict yaml) : dict yaml :=
  assign "updated_at" (YStr now)
    (assign "created_at" (YStr now)
       (assign "id" (YInt (Z.of_nat n + 1)) playbook_data)).

Lemma stamped_get (now : string) (n : nat) (playbook_data : dict yaml) :
  dict_get "id" (stamped now n playbook_data) = Some (YInt (Z.of_nat n + 1))
  /\ dict_get "created_at" (stamped now n playbook_data) = Some (YStr now)
  /\ dict_get "updated_at" (stamped now n playbook_data) = Some (YStr now)
  /\ (forall key : string,
        String.eqb key "id" = false -> String.eqb key "created_at" = false ->
        String.eqb key "updated_at" = false ->
        dict_get key (stamped now n playbook_data) = dict_get key playbook_data).
Proof.
  unfold stamped. split; [|split; [|split]].
  - rewrite !get_assign_ne by reflexivity. apply get_assign_eq.
  - rewrite get_assign_ne by reflexivity. apply get_assign_eq.
  - apply get_assign_eq.
  - intros key H1 H2 H3. rewrite !get_assign_ne by assumption. reflexivity.
Qed.

(** The playbooks of a registry file that [create_playbook] can extend. *)
Definition playbooks_of (file : registry_file) : list (dict yaml) :=
  match file with
  | Some (Some playbooks) => playbooks
  | _ => []
  end.

(** *** The file as [yaml.dump] writes it *)

(** [yaml.dump] writes the entries of every mapping in the order of their
    keys, so that is the order in which a later [yaml.safe_load] reads them.
    An entry goes before the first entry whose key is not smaller. *)
Fixpoint insert_entry (entry : string * yaml) (entries : list (string * yaml))
    : list (string * yaml) :=
  match entries with
  | [] => [entry]
  | e :: rest =>
    if String.leb (fst entry) (fst e) then entry :: entries
    else e :: insert_entry entry rest
  end.

Definition sort_entries (entries : list (string * yaml)) : list (string * yaml) :=
  fold_right insert_entry [] entries.

(** A value as it is read back after it has been dumped. *)
Fixpoint reloaded (v : yaml) : yaml :=
  match v with
  | YList items => YList (map reloaded items)
  | YMap entries => YMap (sort_entries (map (fun '(k, v) => (k, reloaded v)) entries))
  | _ => v
  end.

Definition reloaded_playbook (p : dict yaml) : dict yaml :=
  sort_entries (map (fun '(k, v) => (k, reloaded v)) p).

(** The registry file that holds the dump of a registry, as the handlers read
    it afterwards. *)
Definition on_disk (file : registry_file) : registry_file :=
  match file with
  | Some (Some playbooks) => Some (Some (map reloaded_playbook playbooks))
  | other => other
  end.

Lemma get_insert_entry (key k : string) (v : yaml) (entries : list (string * yaml)) :
  dict_get key (insert_entry (k, v) entries) =
    if String.eqb key k then Some v else dict_get key entries.
Proof.
  induction entries as [|[k' v'] rest IH]; cbn [insert_entry fst]; [reflexivity|].
  destruct (String.leb k k') eqn:Hle; [reflexivity|].
  cbn [dict_get]. rewrite IH.
  destruct (String.eqb key k) eqn:Hk; [|reflexivity].
  apply String.eqb_eq in Hk. subst key.
  destruct (String.eqb k k') eqn:Hk'; [|reflexivity].
  apply String.eqb_eq in Hk'. subst k'.
  destruct (String.leb_total k k) as [H|H]; congruence.
Qed.

(** Sorting the entries changes no lookup. *)
Lemma get_reloaded_playbook (key : string) (p : dict yaml) :
  dict_get key (reloaded_playbook p) = option_map reloaded (dict_get key p).
Proof.
  unfold reloaded_playbook, sort_entries.
  induction p as [|[k v] p IH]; [reflexivity|].
  cbn [map fold_right dict_get]. rewrite get_insert_entry, IH.
  destruct (String.eqb key k); reflexivity.
Qed.

Lemma insert_entry_nonempty (entry : string * yaml) (entries : list (string * yaml)) :
  insert_entry entry entries <> [].
Proof.
  destruct entries as [|e rest]; cbn [insert_entry]; [discriminate|].
  destruct (String.leb (fst entry) (fst e)); discriminate.
Qed.

Lemma equals_int_reloaded (v : yaml) (n : Z) :
  equals_int (reloaded v) n = equals_int v n.
Proof. destruct v; reflexivity. Qed.

Lemma first_with_id_reloaded (playbook_id : Z) (playbooks : list (dict yaml)) :
  first_with_id playbook_id (map reloaded_playbook playbooks) =
    option_map reloaded_playbook (first_with_id playbook_id playbooks).
Proof.
  induction playbooks as [|p rest IH]; [reflexivity|].
  cbn [map first_with_id]. rewrite get_reloaded_playbook.
  destruct (dict_get "id" p) as [v|]; cbn [option_map]; [|exact IH].
  rewrite equals_int_reloaded.
  destruct (equals_int v playbook_id); [reflexivity | exact IH].
Qed.

(** A lookup that succeeds on a registry succeeds on its dump, and returns
    the playbook with its entries in the order of their keys. *)
Lemma get_playbook_on_disk (playbooks : list (dict yaml)) (playbook_id : Z)
    (p : dict yaml) :
  get_playbook (Some (Some playbooks)) playbook_id = inr p ->
  get_playbook (on_disk (Some (Some playbooks))) playbook_id =
    inr (reloaded_playbook p).
Proof.
  unfold get_playbook, get_playbook_body, on_disk. cbn [listed].
  rewrite first_with_id_reloaded.
  destruct (first_with_id playbook_id playbooks) as [q|]; [|discriminate].
  cbn [option_map].
  destruct q as [|[k v] q]; [discriminate|].
  set (q' := (k, v) :: q).
  destruct (dict_get "name" q') as [name|] eqn:Hname; [|discriminate].
  cbn [except_500]. intros H. injection H as <-.
  pose proof (get_reloaded_playbook "name" q') as Hname'.
  rewrite Hname in Hname'. cbn [option_map] in Hname'.
  destruct (reloaded_playbook q') as [|e r] eqn:Hr.
  - exfalso. revert Hr. unfold reloaded_playbook, sort_entries, q'.
    cbn [map fold_right]. apply insert_entry_nonempty.
  - rewrite Hname'. reflexivity.
Qed.



(** *** The numbering of the registry *)

(** The playbooks carry the ids 1, 2, ... in the order of the registry. *)
Definition well_numbered (playbooks : list (dict yaml)) : Prop :=
  map (dict_get "id") playbooks =
  map (fun i => Some (YInt (Z.of_nat i))) (seq 1 (length playbooks)).

Lemma numbered_from_fresh (playbooks : list (dict yaml)) (start : nat)
    (playbook_id : Z) :
  map (dict_get "id") playbooks =
    map (fun i => Some (YInt (Z.of_nat i))) (seq start (length playbooks)) ->
  (Z.of_nat (start + length playbooks) <= playbook_id)%Z ->
  first_with_id playbook_id playbooks = None.
Proof.
  revert start. induction playbooks as [|p rest IH]; intros start Hids Hle; [reflexivity|].
  cbn [length seq map] in Hids. injection Hids as Hid Hrest.
  cbn [first_with_id]. rewrite Hid. cbn [equals_int].
  replace (Z.of_nat start =? playbook_id)%Z with false
    by (symmetry; apply Z.eqb_neq; cbn [length] in Hle; lia).
  apply (IH (S start) Hrest). cbn [length] in Hle. lia.
Qed.

(** X18.  The creations keep the registry numbered: when the playbooks carry
    the ids 1..n in order, no playbook has the id n+1, creating a playbook
    with the required fields succeeds, and the playbooks then carry the ids
    1..n+1 in order; the empty registry is numbered. *)
Theorem create_keeps_numbering (now : string) (playbooks : list (dict yaml))
    (playbook_data : dict yaml) :
  well_numbered playbooks ->
  forallb (has_key playbook_data) required_fields = true ->
  first_with_id (Z.of_nat (length playbooks) + 1) playbooks = None
  /\ well_numbered []
  /\ exists created : dict yaml,
       create_playbook now (Some (Some playbooks)) playbook_data =
         (inr created, Some (Some (playbooks ++ [created])))
       /\ well_numbered (playbooks ++ [created])
       /\ (forall playbook_id : Z,
             (1 <= playbook_id <= Z.of_nat (length playbooks) + 1)%Z ->
             exists p : dict yaml,
               first_with_id playbook_id (playbooks ++ [created]) = Some p
               /\ dict_get "id" p = Some (YInt playbook_id)).
Proof.
  intros Hnum Hfields.
  assert (Hfresh : first_with_id (Z.of_nat (length playbooks) + 1) playbooks = None).
  { apply (numbered_from_fresh playbooks 1 _ Hnum). lia. }
  split; [exact Hfresh|]. split; [reflexivity|].
  set (created := stamped now (length playbooks) playbook_data).
  destruct (stamped_get now (length playbooks) playbook_data) as (Hid & _).
  fold created in Hid.
  assert (Hnum' : well_numbered (playbooks ++ [created])).
  { unfold well_numbered in *. rewrite length_app, map_app, Hnum. cbn [length map].
    rewrite Nat.add_1_r, seq_S, map_app. cbn [map]. rewrite Hid.
    replace (Z.of_nat (1 + length playbooks)) with (Z.of_nat (length playbooks) + 1)%Z
      by lia.
    reflexivity. }
  exists created. split; [|split; [exact Hnum'|]].
  - unfold create_playbook, create_playbook_body. rewrite Hfields. reflexivity.
  - intros playbook_id Hrange.
    assert (Hlookup : forall (ps : list (dict yaml)) (start : nat),
      map (dict_get "id") ps =
        map (fun i => Some (YInt (Z.of_nat i))) (seq start (length ps)) ->
      (Z.of_nat start <= playbook_id < Z.of_nat (start + length ps))%Z ->
      exists p, first_with_id playbook_id ps = Some p
                /\ dict_get "id" p = Some (YInt playbook_id)).
    { induction ps as [|q rest IH]; intros start Hids Hin; [cbn [length] in Hin; lia|].
      cbn [length seq map] in Hids. injection Hids as Hq Hrest.
      cbn [first_with_id]. rewrite Hq. cbn [equals_int].
      destruct (Z.of_nat start =? playbook_id)%Z eqn:E.
      - apply Z.eqb_eq in E. exists q. split; [reflexivity|]. rewrite Hq, E. reflexivity.
      - apply Z.eqb_neq in E. apply (IH (S start) Hrest). cbn [length] in Hin. lia. }
    apply (Hlookup (playbooks ++ [created]) 1%nat Hnum').
    rewrite length_app. cbn [length]. lia.
Qed.

Lemma create_keeps_numbering_witness :
  exists created : dict yaml,
    create_playbook "2026-01-01T00:00:00" two_playbooks
      [ ("name"%string, YStr "notify"); ("trigger_conditions"%string, YMap []);
        ("actions"%string, YList [YStr "notify"]) ] =
      (inr created, Some (Some ([retrain; pause] ++ [created])))
    /\ well_numbered ([retrain; pause] ++ [created]).
Proof.
  destruct (create_keeps_numbering "2026-01-01T00:00:00" [retrain; pause]
              [ ("name"%string, YStr "notify"); ("trigger_conditions"%string, YMap []);
                ("actions"%string, YList [YStr "notify"]) ])
    as (_ & _ & created & Hcreate & Hnum & _).
  - reflexivity.
  - reflexivity.
  - exists created. split; [exact Hcreate | exact Hnum].
Defined.

End PlaybookRegistry.

(** ** More of [coverage.py] in double precision: gaps, storage, the monitor,
       and the calculation route of [api/routes/coverage.py] *)

Module CoverageMonitor64.
Import Numeric Py Float64 Coverage64.
Import Coverage (joined_row, JoinedRow, is_fraud, prediction, sum_case,
                 predicted_positive, one_in_three).
Import DriftMonitor (exn, KeyError, OtherError, str_exn, as_exn).
Import CoverageMonitor (and_then, risk_categories).
Import PlaybookRegistry (failure, HTTPException, OtherException, except_500).

#[local] Set Warnings "-inexact-float".
Local Open Scope float_scope.

Notation "'let?' x ':=' step 'in' k" := (and_then step (fun x => k))
  (at level 10, x name, step at level 100, k at level 200).

(** [d[key]] *)
Definition getitem (d : dict dvalue) (key : string) : exn + dvalue :=
  match dict_get key d with
  | Some v => inr v
  | None => inl (KeyError key)
  end.

(** A value used as a number; a string is not one. *)
Definition as_number (v : dvalue) : exn + float :=
  match v with
  | DFloat x => inr x
  | DInt z => inr (of_int z)
  | DBool b => inr (if b then 1 else 0)
  | DStr _ => inl (OtherError "TypeError")
  end.

(** The loop of [get_coverage_by_category] over the categories left, with the
    results so far. *)
Fixpoint coverage_loop (rows : list joined_row) (time_window_hours : Z)
    (categories : list string) (results : list (dict dvalue))
    : exn + list (dict dvalue) :=
  match categories with
  | [] => inr results
  | category :: rest =>
    let? coverage_data := as_exn (calculate_coverage rows category time_window_hours) in
    coverage_loop rows time_window_hours rest (results ++ [coverage_data])
  end.

(** [CoverageMonitor.get_coverage_by_category]; [rows] are the rows of the
    window, the same for every category. *)
Definition get_coverage_by_category (rows : list joined_row)
    (time_window_hours : Z) : exn + list (dict dvalue) :=
  coverage_loop rows time_window_hours risk_categories [].

(** [threshold or settings.coverage_threshold * 100]: an absent or zero
    threshold gives way to the configured one. *)
Definition effective_threshold (threshold : option float) (coverage_threshold : float)
    : float :=
  match threshold with
  | Some t => if t =? 0 then coverage_threshold * 100 else t
  | None => coverage_threshold * 100
  end.

(** One turn of the loop of [identify_coverage_gaps]. *)
Definition gap_step (threshold : float) (gaps : list (dict dvalue)) (data : dict dvalue)
    : exn + list (dict dvalue) :=
  let? v := getitem data "coverage_percentage" in
  let? coverage := as_number v in
  if coverage <? threshold
  then
    let? category := getitem data "risk_category" in
    inr (gaps ++
         [ [ ("risk_category"%string, category);
             ("current_coverage"%string, v);
             ("threshold"%string, DFloat threshold);
             ("gap_size"%string, DFloat (threshold - coverage));
             ("priority"%string,
              DStr (if coverage <? threshold * 0.8 then "high" else "medium")) ] ])
  else inr gaps.

Fixpoint gap_loop (threshold : float) (coverage_data : list (dict dvalue))
    (gaps : list (dict dvalue)) : exn + list (dict dvalue) :=
  match coverage_data with
  | [] => inr gaps
  | data :: rest =>
    let? gaps' := gap_step threshold gaps data in
    gap_loop threshold rest gaps'
  end.

(** [CoverageMonitor.identify_coverage_gaps]; it reads the coverage of the
    last 24 hours. *)
Definition identify_coverage_gaps (coverage_threshold : float) (rows : list joined_row)
    (threshold : option float) : exn + list (dict dvalue) :=
  let threshold := effective_threshold threshold coverage_threshold in
  let? coverage_data := get_coverage_by_category rows 24 in
  gap_loop threshold coverage_data [].

(** A row of the table [risk_coverage]. *)
Record coverage_row : Type := CoverageRow {
  row_risk_category : dvalue;
  row_coverage_percentage : dvalue;
  row_total_samples : dvalue;
  row_covered_samples : dvalue;
  row_timestamp : Z
}.

(** [sum(d['coverage_percentage'] for d in coverage_data)]: the numbers that
    the generator yields, in order. *)
Fixpoint percentages (coverage_data : list (dict dvalue)) : exn + list float :=
  match coverage_data with
  | [] => inr []
  | data :: rest =>
    let? v := getitem data "coverage_percentage" in
    let? x := as_number v in
    let? xs := percentages rest in
    inr (x :: xs)
  end.

(** The summary [monitor_coverage] returns. *)
Record coverage_summary : Type := CoverageSummary {
  summary_timestamp : Z;
  total_categories : nat;
  categories_below_threshold : nat;
  average_coverage : float;
  summary_gaps : list (dict dvalue);
  coverage_data : list (dict dvalue)
}.

(** The answer of [GET /coverage/calculate], without its time stamp. *)
Record coverage_answer : Type := CoverageAnswer {
  answer_coverage_data : list (dict dvalue);
  answer_gaps : list (dict dvalue);
  coverage_window_hours : Z
}.

Section Monitor.

(** The builtin [sum] on floats, whose algorithm depends on the version of
    Python (plain or compensated summation). *)
Variable py_sum : list float -> float.

(** The answer of DuckDB to an INSERT into [risk_coverage]. *)
Variable refused : list coverage_row -> coverage_row -> option string.

(** [CoverageMonitor.store_coverage_metrics]: the table after the INSERT, or
    the exception raised while the parameters are built or by the INSERT. *)
Definition store_coverage_metrics (now : Z) (coverage_data : dict dvalue)
    (db : list coverage_row) : exn + list coverage_row :=
  let? category := getitem coverage_data "risk_category" in
  let? percentage := getitem coverage_data "coverage_percentage" in
  let? total := getitem coverage_data "total_samples" in
  let? covered := getitem coverage_data "covered_samples" in
  match Duck.insert refused db (CoverageRow category percentage total covered now) with
  | inl e => inl (OtherError e)
  | inr db' => inr db'
  end.

(** The loop that stores the results: the table afterwards, or the exception
    with the table as it then was. *)
Fixpoint store_loop (now : Z) (coverage_data : list (dict dvalue))
    (db : list coverage_row) : (exn * list coverage_row) + list coverage_row :=
  match coverage_data with
  | [] => inr db
  | data :: rest =>
    match store_coverage_metrics now data db with
    | inl e => inl (e, db)
    | inr db' => store_loop now rest db'
    end
  end.

(** [monitor_coverage]: what it returns and the table [risk_coverage]
    afterwards. *)
Definition monitor_coverage (coverage_threshold : float) (now : Z)
    (rows : list joined_row) (db : list coverage_row)
    : KpiMonitor.monitor_result coverage_summary * list coverage_row :=
  match get_coverage_by_category rows 24 with
  | inl e => (KpiMonitor.MonitorError (str_exn e), db)
  | inr data =>
    match identify_coverage_gaps coverage_threshold rows None with
    | inl e => (KpiMonitor.MonitorError (str_exn e), db)
    | inr gaps =>
      match store_loop now data db with
      | inl (e, db') => (KpiMonitor.MonitorError (str_exn e), db')
      | inr db' =>
        match percentages data with
        | inl e => (KpiMonitor.MonitorError (str_exn e), db')
        | inr xs =>
          match data with
          | [] => (KpiMonitor.MonitorError "division by zero", db')
          | _ :: _ =>
            ( KpiMonitor.MonitorSummary
                (CoverageSummary now (length data) (length gaps)
                   (py_sum xs / of_count (length data)) gaps data),
              db' )
          end
        end
      end
    end
  end.

(** The [try] block of the route [calculate_coverage]; [rows] are the rows of
    the last [hours_back] hours, which the coverage is computed from, and
    [rows_24h] those of the last 24 hours, which [identify_coverage_gaps]
    reads. *)
Definition calculate_coverage_body (coverage_threshold : float) (now : Z)
    (hours_back : Z) (rows rows_24h : list joined_row) (db : list coverage_row)
    : (failure + coverage_answer) * list coverage_row :=
  match get_coverage_by_category rows hours_back with
  | inl e => (inl (OtherException (str_exn e)), db)
  | inr [] => (inl (HTTPException 404), db)
  | inr ((_ :: _) as data) =>
    match identify_coverage_gaps coverage_threshold rows_24h None with
    | inl e => (inl (OtherException (str_exn e)), db)
    | inr gaps =>
      match store_loop now data db with
      | inl (e, db') => (inl (OtherException (str_exn e)), db')
      | inr db' => (inr (CoverageAnswer data gaps hours_back), db')
      end
    end
  end.

(** The route [calculate_coverage] of [api/routes/coverage.py]. *)
Definition calculate_coverage_route (coverage_threshold : float) (now : Z)
    (hours_back : Z) (rows rows_24h : list joined_row) (db : list coverage_row)
    : (Z + coverage_answer) * list coverage_row :=
  let '(body, db') :=
    calculate_coverage_body coverage_threshold now hours_back rows rows_24h db in
  (except_500 body, db').

End Monitor.

(** *** The result of one category, in closed form *)

(** The percentage [calculate_coverage] returns for a non-empty window. *)
Definition window_percentage (rows : list joined_row) : float :=
  let A := sum_case is_fraud rows in
  let P := sum_case predicted_positive rows in
  py_round (if (0 <? A)%Z then of_int P / of_int A * 100 else 0) 2.

(** The result of a non-empty window for a category. *)
Definition window_result (rows : list joined_row) (category : string)
    (time_window_hours : Z) : dict dvalue :=
  [ ("coverage_percentage"%string, DFloat (window_percentage rows));
    ("total_samples"%string, DInt (Z.of_nat (length rows)));
    ("covered_samples"%string, DInt (sum_case predicted_positive rows));
    ("gap_count"%string,
     DInt (sum_case is_fraud rows - sum_case predicted_positive rows));
    ("risk_category"%string, DStr category);
    ("time_window_hours"%string, DInt time_window_hours) ].

(** The result of an empty window, which names no category. *)
Definition empty_result : dict dvalue :=
  [ ("coverage_percentage"%string, DFloat 0); ("total_samples"%string, DInt 0);
    ("covered_samples"%string, DInt 0); ("gap_count"%string, DInt 0) ].

(** The gap reported for a category. *)
Definition gap_entry (threshold coverage : float) (category : string) : dict dvalue :=
  [ ("risk_category"%string, DStr category);
    ("current_coverage"%string, DFloat coverage);
    ("threshold"%string, DFloat threshold);
    ("gap_size"%string, DFloat (threshold - coverage));
    ("priority"%string,
     DStr (if coverage <? threshold * 0.8 then "high" else "medium")) ].

(** The row stored for a category. *)
Definition stored_coverage (rows : list joined_row) (now : Z) (category : string)
    : coverage_row :=
  CoverageRow (DStr category) (DFloat (window_percentage rows))
              (DInt (Z.of_nat (length rows)))
              (DInt (sum_case predicted_positive rows)) now.

Lemma one_result (rows : list joined_row) (category : string)
    (time_window_hours : Z) :
  calculate_coverage rows category time_window_hours =
    Returned (match rows with
              | [] => empty_result
              | _ :: _ => window_result rows category time_window_hours
              end).
Proof.
  destruct rows as [|row rows]; [reflexivity|].
  unfold calculate_coverage, Coverage.coverage_query, coverage_of_result, window_result,
    window_percentage.
  fold predicted_positive.
  set (w := row :: rows).
  replace (Z.of_nat (length w) =? 0)%Z with false
    by (symmetry; apply Z.eqb_neq; cbn [length w]; lia).
  destruct (0 <? sum_case is_fraud w)%Z eqn:Epos; [|reflexivity].
  apply Z.ltb_lt in Epos. unfold true_div.
  replace (sum_case is_fraud w =? 0)%Z with false
    by (symmetry; apply Z.eqb_neq; lia).
  reflexivity.
Qed.

Lemma four_results (rows : list joined_row)
    (time_window_hours : Z) :
  get_coverage_by_category rows time_window_hours =
    inr (map (fun category =>
                match rows with
                | [] => empty_result
                | _ :: _ => window_result rows category time_window_hours
                end) risk_categories).
Proof.
  unfold get_coverage_by_category, risk_categories. cbn [coverage_loop].
  rewrite !one_result. reflexivity.
Qed.

Lemma gap_step_window (threshold : float) (gaps : list (dict dvalue))
    (rows : list joined_row) (category : string) (time_window_hours : Z) :
  gap_step threshold gaps (window_result rows category time_window_hours) =
    inr (if window_percentage rows <? threshold
         then gaps ++ [gap_entry threshold (window_percentage rows) category]
         else gaps).
Proof.
  unfold gap_step, window_result, getitem.
  cbn [dict_get String.eqb Ascii.eqb Bool.eqb and_then as_number].
  destruct (window_percentage rows <? threshold); reflexivity.
Qed.

(** The gaps of a non-empty window: all four categories or none. *)
Lemma identify_coverage_gaps_window (coverage_threshold : float)
    (rows : list joined_row) (threshold : option float) :
  rows <> [] ->
  identify_coverage_gaps coverage_threshold rows threshold =
    inr (if window_percentage rows <? effective_threshold threshold coverage_threshold
         then map (gap_entry (effective_threshold threshold coverage_threshold)
                             (window_percentage rows)) risk_categories
         else []).
Proof.
  intros Hne. unfold identify_coverage_gaps.
  rewrite four_results. cbn [and_then].
  destruct rows as [|row rows]; [congruence|].
  unfold risk_categories. cbn [map gap_loop].
  rewrite !gap_step_window.
  destruct (window_percentage (row :: rows)
            <? effective_threshold threshold coverage_threshold) eqn:E;
    cbn [and_then]; rewrite ?gap_step_window, ?E; cbn [and_then];
    rewrite ?gap_step_window, ?E; cbn [and_then];
    rewrite ?gap_step_window, ?E; cbn [and_then app]; reflexivity.
Qed.

(** X12.  On a non-empty window, with [t] the threshold in force (the
    argument, or 100 times the configured coverage threshold when the argument
    is absent or 0) and [c] the coverage percentage of the window:
    [identify_coverage_gaps] reports either all four categories, when [c < t],
    or none; every reported gap has [current_coverage] [c], [gap_size]
    [t - c] and priority "high" exactly when [c < t * 0.8], the product and
    the difference being those of doubles. *)
Theorem identify_coverage_gaps_all_or_none (coverage_threshold : float)
    (rows : list joined_row) (threshold : option float) :
  rows <> [] ->
  let t := effective_threshold threshold coverage_threshold in
  let c := window_percentage rows in
  identify_coverage_gaps coverage_threshold rows threshold =
    inr (if c <? t then map (gap_entry t c) risk_categories else [])
  /\ identify_coverage_gaps coverage_threshold rows (Some 0) =
     identify_coverage_gaps coverage_threshold rows None
  /\ calculate_coverage rows "fraud" 24 = Returned (window_result rows "fraud" 24).
Proof.
  intros Hne. cbv zeta.
  split; [apply identify_coverage_gaps_window; exact Hne|].
  split; [rewrite !identify_coverage_gaps_window by exact Hne; reflexivity|].
  rewrite one_result. destruct rows; [congruence | reflexivity].
Qed.

(** One flagged case in three gives 33.33 percent.  Against the threshold 30
    there is no gap; against 41.6625 all four categories are gaps, and of
    high priority: 41.6625 * 0.8 is 33.330000000000005 in doubles, which
    33.33 is below. *)
Lemma identify_coverage_gaps_all_or_none_witness :
  window_percentage one_in_three = 33.33
  /\ identify_coverage_gaps 0.95 one_in_three (Some 30) = inr []
  /\ identify_coverage_gaps 0.95 one_in_three (Some 41.6625) =
     inr (map (gap_entry 41.6625 33.33) risk_categories)
  /\ dict_get "priority" (gap_entry 41.6625 33.33 "fraud") = Some (DStr "high").
Proof.
  assert (Hne : one_in_three <> []) by discriminate.
  split; [vm_compute; reflexivity|]. split; [|split].
  - destruct (identify_coverage_gaps_all_or_none 0.95 one_in_three (Some 30) Hne)
      as (H & _). rewrite H. vm_compute. reflexivity.
  - destruct (identify_coverage_gaps_all_or_none 0.95 one_in_three (Some 41.6625) Hne)
      as (H & _). rewrite H. vm_compute. reflexivity.
  - vm_compute. reflexivity.
Defined.

(** *** Storage, the monitor and the route *)

Section MonitorFacts.

Variable py_sum : list float -> float.
Variable refused : list coverage_row -> coverage_row -> option string.

(** The results of a non-empty window go to the INSERT one after the other,
    in order. *)
Lemma store_loop_window (now : Z) (rows : list joined_row) (hours_back : Z)
    (categories : list string) (db : list coverage_row) :
  store_loop refused now
    (map (fun category => window_result rows category hours_back) categories) db =
  match Duck.insert_all refused (map (stored_coverage rows now) categories) db with
  | (Some e, db') => inl (OtherError e, db')
  | (None, db') => inr db'
  end.
Proof.
  revert db. induction categories as [|c cs IH]; intros db; [reflexivity|].
  cbn [map store_loop Duck.insert_all].
  unfold store_coverage_metrics, window_result, getitem.
  cbn [dict_get String.eqb Ascii.eqb Bool.eqb and_then].
  fold (stored_coverage rows now c).
  destruct (Duck.insert refused db (stored_coverage rows now c)); [reflexivity|].
  apply IH.
Qed.

(** X14.  On a non-empty window [monitor_coverage] sends one row per category
    to the INSERT, in order, all with the coverage percentage [c] of the
    window, up to the first INSERT that raises.  When one raises, the text of
    its exception is the error returned, the rows before the refused one
    being stored (none when the first INSERT is refused).  When none raises
    it returns a summary of 4 categories, with 4 categories below the
    threshold when [c] is below 100 times the configured threshold and none
    otherwise, and with the average coverage
    [sum([c, c, c, c]) / 4]. *)
Theorem monitor_coverage_window (coverage_threshold : float) (now : Z)
    (rows : list joined_row) (db : list coverage_row) :
  rows <> [] ->
  let c := window_percentage rows in
  let stored := map (stored_coverage rows now) risk_categories in
  match monitor_coverage py_sum refused coverage_threshold now rows db with
  | (KpiMonitor.MonitorError e, db') =>
    exists (k : nat) (row : coverage_row),
      nth_error stored k = Some row
      /\ db' = db ++ firstn k stored
      /\ refused (db ++ firstn k stored) row = Some e
  | (KpiMonitor.MonitorSummary summary, db') =>
    db' = db ++ stored
    /\ total_categories summary = 4%nat
    /\ categories_below_threshold summary =
       (if c <? coverage_threshold * 100 then 4%nat else 0%nat)
    /\ average_coverage summary = py_sum [c; c; c; c] / 4
    /\ get_coverage_by_category rows 24 = inr (coverage_data summary)
    /\ identify_coverage_gaps coverage_threshold rows None = inr (summary_gaps summary)
  end
  /\ ((forall t r, refused t r = None) ->
      exists summary : coverage_summary,
        monitor_coverage py_sum refused coverage_threshold now rows db =
          (KpiMonitor.MonitorSummary summary, db ++ stored))
  /\ (forall e : string,
        refused db (stored_coverage rows now "money_laundering") = Some e ->
        monitor_coverage py_sum refused coverage_threshold now rows db =
          (KpiMonitor.MonitorError e, db)).
Proof.
  intros Hne. cbv zeta.
  pose proof (identify_coverage_gaps_window coverage_threshold rows None Hne) as Hgaps.
  unfold monitor_coverage.
  rewrite four_results, Hgaps.
  destruct rows as [|row rows]; [congruence|].
  set (w := row :: rows) in *.
  rewrite (store_loop_window now w 24 risk_categories db).
  split; [|split].
  - pose proof (Duck.insert_all_outcome refused
                  (map (stored_coverage w now) risk_categories) db) as Hout.
    destruct (Duck.insert_all refused (map (stored_coverage w now) risk_categories) db)
      as [[e|] db']; [exact Hout|].
    unfold risk_categories.
    cbn [map percentages getitem dict_get window_result String.eqb Ascii.eqb Bool.eqb
         and_then as_number].
    cbn [total_categories categories_below_threshold average_coverage
         coverage_data summary_gaps length].
    split; [exact Hout|]. split; [reflexivity|]. split.
    { unfold effective_threshold.
      destruct (window_percentage w <? coverage_threshold * 100); reflexivity. }
    split; [reflexivity|]. split; reflexivity.
  - intros Hall. rewrite (Duck.insert_all_accepted refused _ db Hall).
    unfold risk_categories.
    cbn [map percentages getitem dict_get window_result String.eqb Ascii.eqb Bool.eqb
         and_then as_number].
    eexists. reflexivity.
  - intros e He. unfold risk_categories. cbn [map].
    rewrite (Duck.insert_all_refused refused _ _ db e He). reflexivity.
Qed.

(** X22.  [GET /coverage/calculate] computes the coverage over the requested
    window but the gaps over the last 24 hours.  It answers 500 without
    attempting an INSERT when the requested window is empty.  When both
    windows are non-empty it sends one row per category to the INSERT, in
    order: when an INSERT raises the answer is 500, the rows before the
    refused one being stored; when none raises the answer carries the four
    results of the requested window and the gaps of the last 24 hours (all
    four categories or none), and the four rows are stored. *)
Theorem calculate_coverage_route_outcome (coverage_threshold : float)
    (now hours_back : Z) (rows rows_24h : list joined_row)
    (db : list coverage_row) :
  calculate_coverage_route refused coverage_threshold now hours_back [] rows_24h db =
    (inl 500%Z, db)
  /\ (rows <> [] -> rows_24h <> [] ->
      let stored := map (stored_coverage rows now) risk_categories in
      let c24 := window_percentage rows_24h in
      let t := coverage_threshold * 100 in
      match calculate_coverage_route refused coverage_threshold now hours_back
              rows rows_24h db with
      | (inl code, db') =>
        code = 500%Z
        /\ exists (k : nat) (row : coverage_row) (e : string),
             nth_error stored k = Some row
             /\ db' = db ++ firstn k stored
             /\ refused (db ++ firstn k stored) row = Some e
      | (inr answer, db') =>
        db' = db ++ stored
        /\ get_coverage_by_category rows hours_back =
           inr (answer_coverage_data answer)
        /\ length (answer_coverage_data answer) = 4%nat
        /\ answer_gaps answer =
           (if c24 <? t then map (gap_entry t c24) risk_categories else [])
      end
      /\ ((forall t r, refused t r = None) ->
          exists answer : coverage_answer,
            calculate_coverage_route refused coverage_threshold now hours_back
              rows rows_24h db = (inr answer, db ++ stored))
      /\ (forall e : string,
            refused db (stored_coverage rows now "money_laundering") = Some e ->
            calculate_coverage_route refused coverage_threshold now hours_back
              rows rows_24h db = (inl 500%Z, db))).
Proof.
  split.
  - unfold calculate_coverage_route, calculate_coverage_body.
    rewrite four_results. unfold risk_categories. cbn [map].
    destruct (identify_coverage_gaps coverage_threshold rows_24h None) as [e|gaps];
      reflexivity.
  - intros Hrows H24. cbv zeta.
    pose proof (identify_coverage_gaps_window coverage_threshold rows_24h None H24)
      as Hgaps.
    unfold effective_threshold in Hgaps.
    unfold calculate_coverage_route, calculate_coverage_body.
    rewrite four_results, Hgaps.
    destruct rows as [|row rest]; [congruence|].
    set (w := row :: rest) in *.
    pose proof (store_loop_window now w hours_back risk_categories db) as Hstore.
    unfold risk_categories in Hstore |- *. cbn [map] in Hstore |- *.
    rewrite Hstore.
    split; [|split].
    + match goal with
      | |- context [Duck.insert_all refused ?l db] =>
        pose proof (Duck.insert_all_outcome refused l db) as Hout;
        destruct (Duck.insert_all refused l db) as [[e|] db']
      end; cbn [except_500].
      * split; [reflexivity|].
        destruct Hout as (k & r & Hk & Hdb & Hr). exists k, r, e.
        repeat split; assumption.
      * cbn [answer_coverage_data answer_gaps length].
        split; [exact Hout|]. split; [reflexivity|]. split; reflexivity.
    + intros Hall. rewrite (Duck.insert_all_accepted refused _ db Hall).
      eexists. reflexivity.
    + intros e He.
      rewrite (Duck.insert_all_refused refused _ _ db e He). reflexivity.
Qed.

End MonitorFacts.

(** One flagged case in three, on a table that stores every row and on a
    table that wants a value for its [id]. *)
Lemma monitor_coverage_window_witness :
  (exists summary : coverage_summary,
      monitor_coverage sum_in_order Duck.accepting 0.95 0 one_in_three [] =
        ( KpiMonitor.MonitorSummary summary,
          map (stored_coverage one_in_three 0) risk_categories )
      /\ categories_below_threshold summary = 4%nat)
  /\ monitor_coverage sum_in_order Duck.id_required 0.95 0 one_in_three [] =
     (KpiMonitor.MonitorError "Constraint Error: NOT NULL constraint failed", []).
Proof.
  assert (Hne : one_in_three <> []) by discriminate.
  split.
  - destruct (monitor_coverage_window sum_in_order Duck.accepting 0.95 0
                one_in_three [] Hne) as (_ & Hall & _).
    destruct (Hall (fun _ _ => eq_refl)) as (summary & Hrun).
    exists summary. split; [exact Hrun|].
    vm_compute in Hrun. injection Hrun as <-. reflexivity.
  - destruct (monitor_coverage_window sum_in_order Duck.id_required 0.95 0
                one_in_three [] Hne) as (_ & _ & Hfirst).
    apply Hfirst. reflexivity.
Defined.

Lemma calculate_coverage_route_outcome_witness :
  (exists answer : coverage_answer,
      calculate_coverage_route Duck.accepting 0.95 0 48 one_in_three one_in_three [] =
        (inr answer, map (stored_coverage one_in_three 0) risk_categories)
      /\ length (answer_gaps answer) = 4%nat)
  /\ calculate_coverage_route Duck.id_required 0.95 0 48 one_in_three one_in_three [] =
     (inl 500%Z, []).
Proof.
  assert (Hne : one_in_three <> []) by discriminate.
  split.
  - destruct (calculate_coverage_route_outcome Duck.accepting 0.95 0 48
                one_in_three one_in_three []) as [_ H].
    destruct (H Hne Hne) as (_ & Hall & _).
    destruct (Hall (fun _ _ => eq_refl)) as (answer & Hrun).
    exists answer. split; [exact Hrun|].
    vm_compute in Hrun. injection Hrun as <-. reflexivity.
  - destruct (calculate_coverage_route_outcome Duck.id_required 0.95 0 48
                one_in_three one_in_three []) as [_ H].
    destruct (H Hne Hne) as (_ & _ & Hfirst).
    apply (Hfirst "Constraint Error: NOT NULL constraint failed"%string). reflexivity.
Defined.

End CoverageMonitor64.

(** ** The calculation route of [api/routes/kpis.py] *)

Module Routes.
Import Numeric Py AlertKpis KpiMonitor.
Import PlaybookRegistry (failure, HTTPException, OtherException, except_500).

(** The answer of [GET /kpis/calculate], without its time stamp. *)
Record kpi_answer : Type := KpiAnswer {
  answer_kpis : dict Q;
  answer_alerts : list alert;
  calculation_window_hours : Z
}.

(** The [try] block of the route [calculate_kpis]: the answer, or the failure,
    and the table [kpis] afterwards. *)
Definition calculate_kpis_body (refused : list kpi_row -> kpi_row -> option string)
    (now : Z) (hours_back : Z)
    (result : list prediction_row) (db : list kpi_row)
    : (failure + kpi_answer) * list kpi_row :=
  match calculate_kpis result with
  | Raised exc => (inl (OtherException exc), db)
  | Returned kpis =>
    match kpis with
    | [] => (inl (HTTPException 404), db)
    | _ :: _ =>
      let alerts := check_kpi_thresholds alert_thresholds now kpis in
      match store_kpi_metrics refused alert_thresholds now kpis db with
      | (Some e, db') => (inl (OtherException e), db')
      | (None, db') => (inr (KpiAnswer kpis alerts hours_back), db')
      end
    end
  end.

(** The route [calculate_kpis] of [api/routes/kpis.py]. *)
Definition calculate_kpis_route (refused : list kpi_row -> kpi_row -> option string)
    (now : Z) (hours_back : Z)
    (result : list prediction_row) (db : list kpi_row)
    : (Z + kpi_answer) * list kpi_row :=
  let '(body, db') := calculate_kpis_body refused now hours_back result db in
  (except_500 body, db').



End Routes.
